(** * TaskFlow: a shallow embedding of the task and user repository

    Source tree: [src/python/src] ([models/task.py], [models/user.py],
    [services/task_service.py], [services/user_service.py], [routes/*.py],
    [db.py]).

    Python values are dynamically typed, so entity fields and request
    payloads carry a small universe of Python values ([pyval]).  An
    exception escaping a function is the [Raises] branch of [outcome].
    The SQLite file is a pair of tables; a statement that the source sends
    with bound parameters ([?]) acts on the tables directly, a statement
    that the source builds by string interpolation is rendered to text
    exactly as the f-string does and handed to a lexer, parser and
    evaluator for the SQL fragment the repository uses. *)

From Stdlib Require Import ZArith List Bool Lia String Ascii Permutation.
Import ListNotations.
Open Scope string_scope.
Open Scope list_scope.
Open Scope Z_scope.

(** ** Exceptions and outcomes *)

(** Which constraint an [sqlite3.IntegrityError] reports. *)
Inductive violation : Type :=
| UniqueFailed (column : string)
| NotNullFailed (column : string).

(** The Python exception classes that the modelled code can raise. *)
Inductive exn : Type :=
| TypeError
| AttributeError
| ValueError
| IndexError
| OverflowError
| IntegrityError (v : violation)
| OperationalError.

Inductive outcome (A : Type) : Type :=
| Returns (a : A)
| Raises (e : exn).
Arguments Returns {A} a.
Arguments Raises {A} e.

Definition obind {A B : Type} (m : outcome A) (k : A -> outcome B) : outcome B :=
  match m with
  | Returns a => k a
  | Raises e => Raises e
  end.

Notation "'do' x <- m ; k" := (obind m (fun x => k))
  (at level 10, x name, m at level 100, k at level 200).

Definition is_returns {A : Type} (m : outcome A) : bool :=
  match m with Returns _ => true | Raises _ => false end.

(** ** Characters and decimal digits *)

Definition chars (s : string) : list ascii := list_ascii_of_string s.
Definition text (cs : list ascii) : string := string_of_list_ascii cs.

Definition code (c : ascii) : N := N_of_ascii c.

Definition is_digit (c : ascii) : bool :=
  ((48 <=? code c) && (code c <=? 57))%N.

Definition digit_val (c : ascii) : Z := Z.of_N (code c) - 48.

Definition digit_char (k : Z) : ascii :=
  match k with
  | 0 => "0" | 1 => "1" | 2 => "2" | 3 => "3" | 4 => "4"
  | 5 => "5" | 6 => "6" | 7 => "7" | 8 => "8" | _ => "9"
  end%char.

(** [str(n)] for a non-negative Python int: most significant digit first.
    The fuel bounds the number of digits. *)
Fixpoint show_digits (fuel : nat) (n : Z) (acc : list ascii) : list ascii :=
  match fuel with
  | O => acc
  | S f =>
      if n <? 10 then digit_char n :: acc
      else show_digits f (n / 10) (digit_char (n mod 10) :: acc)
  end.

Definition show_nonneg (n : Z) : list ascii :=
  show_digits (S (Z.to_nat (Z.log2 n))) n [].

(** [str(z)] for a Python int. *)
Definition show_Z (z : Z) : string :=
  if z <? 0 then String "-" (text (show_nonneg (- z)))
  else text (show_nonneg z).

(** Fixed-width, zero-padded decimal fields, as in [%02d], [%04d], [%06d]. *)
Definition pad2 (n : Z) : list ascii :=
  [digit_char (n / 10 mod 10); digit_char (n mod 10)].

Definition pad4 (n : Z) : list ascii :=
  [digit_char (n / 1000 mod 10); digit_char (n / 100 mod 10);
   digit_char (n / 10 mod 10); digit_char (n mod 10)].

Definition pad6 (n : Z) : list ascii :=
  [digit_char (n / 100000 mod 10); digit_char (n / 10000 mod 10);
   digit_char (n / 1000 mod 10); digit_char (n / 100 mod 10);
   digit_char (n / 10 mod 10); digit_char (n mod 10)].

(** The value of a run of characters when all of them are digits. *)
Fixpoint read_digits (acc : Z) (cs : list ascii) : option Z :=
  match cs with
  | [] => Some acc
  | c :: cs' =>
      if is_digit c then read_digits (acc * 10 + digit_val c) cs' else None
  end.

(** ** [datetime]

    A naive [datetime.datetime].  [isoformat] is
    [YYYY-MM-DDTHH:MM:SS] followed by [.ffffff] when the microsecond is not
    zero.  [fromisoformat] recognises a date alone and a date, any single
    separator character and [HH:MM:SS] with an optional [.ffffff]: the forms
    that [isoformat] and SQLite's [datetime('now')] write into the tables.
    Any other text is reported as [ValueError]; time zones are not
    modelled. *)

Record datetime : Type := mkDatetime {
  year : Z; month : Z; day : Z;
  hour : Z; minute : Z; second : Z; microsecond : Z
}.

Definition is_leap (y : Z) : bool :=
  (y mod 4 =? 0) && (negb (y mod 100 =? 0) || (y mod 400 =? 0)).

Definition days_in_month (y m : Z) : Z :=
  match m with
  | 2 => if is_leap y then 29 else 28
  | 4 | 6 | 9 | 11 => 30
  | _ => 31
  end.

Definition in_range (lo x hi : Z) : bool := (lo <=? x) && (x <=? hi).

Definition valid_datetime (d : datetime) : bool :=
  in_range 1 (year d) 9999 && in_range 1 (month d) 12 &&
  in_range 1 (day d) (days_in_month (year d) (month d)) &&
  in_range 0 (hour d) 23 && in_range 0 (minute d) 59 &&
  in_range 0 (second d) 59 && in_range 0 (microsecond d) 999999.

Definition isoformat_sep (sep : ascii) (d : datetime) : string :=
  text (pad4 (year d) ++ "-"%char :: pad2 (month d) ++ "-"%char :: pad2 (day d)
        ++ sep :: pad2 (hour d) ++ ":"%char :: pad2 (minute d)
        ++ ":"%char :: pad2 (second d)
        ++ (if microsecond d =? 0 then []
            else "."%char :: pad6 (microsecond d))).

(** [d.isoformat()] *)
Definition isoformat (d : datetime) : string := isoformat_sep "T" d.

Definition is_char (c x : ascii) : bool := Ascii.eqb c x.

Definition checked (d : datetime) : option datetime :=
  if valid_datetime d then Some d else None.

Definition parse_time (y mo dd : Z) (cs : list ascii) : option datetime :=
  match cs with
  | h1 :: h2 :: c1 :: m1 :: m2 :: c2 :: s1 :: s2 :: frac =>
      if is_char ":" c1 && is_char ":" c2 then
        match read_digits 0 [h1; h2], read_digits 0 [m1; m2],
              read_digits 0 [s1; s2] with
        | Some h, Some mi, Some s =>
            match frac with
            | [] => checked (mkDatetime y mo dd h mi s 0)
            | p :: f1 :: f2 :: f3 :: f4 :: f5 :: f6 :: [] =>
                if is_char "." p then
                  match read_digits 0 [f1; f2; f3; f4; f5; f6] with
                  | Some us => checked (mkDatetime y mo dd h mi s us)
                  | None => None
                  end
                else None
            | _ => None
            end
        | _, _, _ => None
        end
      else None
  | _ => None
  end.

(** [datetime.fromisoformat(s)]; [None] stands for [ValueError]. *)
Definition fromisoformat (s : string) : option datetime :=
  match chars s with
  | y1 :: y2 :: y3 :: y4 :: c1 :: m1 :: m2 :: c2 :: d1 :: d2 :: rest =>
      if is_char "-" c1 && is_char "-" c2 then
        match read_digits 0 [y1; y2; y3; y4], read_digits 0 [m1; m2],
              read_digits 0 [d1; d2] with
        | Some y, Some mo, Some dd =>
            match rest with
            | [] => checked (mkDatetime y mo dd 0 0 0 0)
            | _sep :: tm => parse_time y mo dd tm
            end
        | _, _, _ => None
        end
      else None
  | _ => None
  end.

(** ** Python values *)

Inductive pyval : Type :=
| PyNone
| PyBool (b : bool)
| PyInt (z : Z)
| PyStr (s : string)
| PyDatetime (d : datetime).

(** Truthiness, as in [if v:] and [not v]. *)
Definition truthy (v : pyval) : bool :=
  match v with
  | PyNone => false
  | PyBool b => b
  | PyInt z => negb (z =? 0)
  | PyStr s => negb (String.eqb s "")
  | PyDatetime _ => true
  end.

(** [a or b] *)
Definition py_or (a b : pyval) : pyval := if truthy a then a else b.

(** [str(v)], which is what an f-string placeholder expands to. *)
Definition py_str (v : pyval) : string :=
  match v with
  | PyNone => "None"
  | PyBool true => "True"
  | PyBool false => "False"
  | PyInt z => show_Z z
  | PyStr s => s
  | PyDatetime d => isoformat_sep " " d
  end.

(** [v.isoformat()] *)
Definition call_isoformat (v : pyval) : outcome pyval :=
  match v with
  | PyDatetime d => Returns (PyStr (isoformat d))
  | _ => Raises AttributeError
  end.

(** [v.isoformat() if v else None] *)
Definition isoformat_if (v : pyval) : outcome pyval :=
  if truthy v then call_isoformat v else Returns PyNone.

(** [datetime.fromisoformat(v)] *)
Definition call_fromisoformat (v : pyval) : outcome pyval :=
  match v with
  | PyStr s =>
      match fromisoformat s with
      | Some d => Returns (PyDatetime d)
      | None => Raises ValueError
      end
  | _ => Raises TypeError
  end.

(** [datetime.fromisoformat(v) if v else None] *)
Definition fromisoformat_if (v : pyval) : outcome pyval :=
  if truthy v then call_fromisoformat v else Returns PyNone.

(** A Python [dict] with string keys, in insertion order. *)
Definition dict : Type := list (string * pyval).

Fixpoint dict_get (d : dict) (k : string) : option pyval :=
  match d with
  | [] => None
  | (k', v) :: d' => if String.eqb k' k then Some v else dict_get d' k
  end.

(** [d.get(k)] *)
Definition dict_get_none (d : dict) (k : string) : pyval :=
  match dict_get d k with Some v => v | None => PyNone end.

(** A keyword parameter with a default: the default applies only when the
    key is absent. *)
Definition kwarg (d : dict) (k : string) (default : pyval) : pyval :=
  match dict_get d k with Some v => v | None => default end.

Definition has_key (d : dict) (k : string) : bool :=
  match dict_get d k with Some _ => true | None => false end.

(** ** Storage: the SQLite file [taskflow.db]

    A table is its rows in rowid order and the AUTOINCREMENT counter kept in
    [sqlite_sequence].  A row is a list of values in column order, which is
    what [SELECT *] hands to [_from_row].  Integers are unbounded (the 64-bit
    range of SQLite's INTEGER is not modelled) and failures of the storage
    medium itself (I/O, locking, a full disk) are outside the model.  Both
    tables exist, as they do once [init_db] or a first [save] has run, so
    [CREATE TABLE IF NOT EXISTS] changes nothing. *)

Inductive sqlval : Type :=
| SNull
| SInt (z : Z)
| SText (s : string).

Definition row : Type := list sqlval.

Record table : Type := mkTable {
  t_rows : list row;
  t_seq : Z
}.

Record database : Type := mkDb {
  tasks : table;
  users : table
}.

Definition tasks_columns : list string :=
  ["id"; "title"; "description"; "status"; "priority"; "due_date";
   "user_id"; "created_at"; "updated_at"; "deleted_at"].

Definition users_columns : list string :=
  ["id"; "username"; "email"; "password_hash"; "first_name"; "last_name";
   "is_active"; "created_at"; "updated_at"; "last_login"; "api_key"].

(** How the [sqlite3] driver adapts a bound parameter. *)
Definition bind_param (v : pyval) : sqlval :=
  match v with
  | PyNone => SNull
  | PyBool b => SInt (if b then 1 else 0)
  | PyInt z => SInt z
  | PyStr s => SText s
  | PyDatetime d => SText (isoformat_sep " " d)
  end.

(** What the driver returns for a stored value. *)
Definition py_of_sql (v : sqlval) : pyval :=
  match v with
  | SNull => PyNone
  | SInt z => PyInt z
  | SText s => PyStr s
  end.

Inductive affinity : Type := AffInteger | AffText.

(** Decimal text of an integer, with an optional minus sign. *)
Definition parse_int (s : string) : option Z :=
  match chars s with
  | [] => None
  | c :: cs =>
      if is_char "-" c then
        match cs with
        | [] => None
        | _ => option_map Z.opp (read_digits 0 cs)
        end
      else read_digits 0 (c :: cs)
  end.

(** Column affinity on storing.  A TEXT column keeps an integer as its
    decimal text; an INTEGER column turns decimal text into the integer and
    keeps any other text as it is. *)
Definition apply_affinity (a : affinity) (v : sqlval) : sqlval :=
  match a, v with
  | AffText, SInt z => SText (show_Z z)
  | AffInteger, SText s =>
      match parse_int s with Some z => SInt z | None => SText s end
  | _, _ => v
  end.

Definition sql_is_null (v : sqlval) : bool :=
  match v with SNull => true | _ => false end.

(** Three-valued logic of SQL conditions. *)
Inductive tri : Type := TTrue | TFalse | TUnknown.

Definition tri_of_bool (b : bool) : tri := if b then TTrue else TFalse.

Definition tri_and (a b : tri) : tri :=
  match a, b with
  | TFalse, _ | _, TFalse => TFalse
  | TTrue, TTrue => TTrue
  | _, _ => TUnknown
  end.

Definition tri_or (a b : tri) : tri :=
  match a, b with
  | TTrue, _ | _, TTrue => TTrue
  | TFalse, TFalse => TFalse
  | _, _ => TUnknown
  end.

(** [a = b] under the BINARY collation.  Values of different storage
    classes are not equal. *)
Definition sql_eq (a b : sqlval) : tri :=
  match a, b with
  | SNull, _ | _, SNull => TUnknown
  | SInt x, SInt y => tri_of_bool (x =? y)
  | SText x, SText y => tri_of_bool (String.eqb x y)
  | _, _ => TFalse
  end.

(** The sort order of values: NULL, then integers, then text by bytes. *)
Definition sql_leb (a b : sqlval) : bool :=
  match a, b with
  | SNull, _ => true
  | _, SNull => false
  | SInt x, SInt y => x <=? y
  | SInt _, SText _ => true
  | SText _, SInt _ => false
  | SText x, SText y => String.leb x y
  end.

(** *** Lexer *)

Inductive token : Type :=
| TInt (n : Z)
| TStr (s : string)
| TWord (w : string)
| TSym (c : ascii).

Definition is_space (c : ascii) : bool :=
  ((code c =? 32) || ((9 <=? code c) && (code c <=? 13)))%N.

Definition is_upper (c : ascii) : bool :=
  ((65 <=? code c) && (code c <=? 90))%N.

Definition is_alpha (c : ascii) : bool :=
  (is_upper c || ((97 <=? code c) && (code c <=? 122)) || (code c =? 95))%N.

Definition is_quote (c : ascii) : bool := is_char "'" c.

Definition is_symbol (c : ascii) : bool :=
  is_char "=" c || is_char "*" c || is_char "-" c || is_char "," c.

Definition lower (c : ascii) : ascii :=
  if is_upper c then ascii_of_N (code c + 32) else c.

(** Keywords and names are case-insensitive: a word is kept in lower case.
    The accumulators hold characters in reverse. *)
Definition word_of (acc : list ascii) : token := TWord (text (rev acc)).
Definition str_of (acc : list ascii) : token := TStr (text (rev acc)).

Inductive lmode : Type :=
| LIdle
| LNum (acc : Z)
| LWord (acc : list ascii)
| LStr (acc : list ascii)
| LStrQ (acc : list ascii).

(** One character read between tokens. *)
Definition idle_step (c : ascii) : option (lmode * list token) :=
  if is_space c then Some (LIdle, [])
  else if is_digit c then Some (LNum (digit_val c), [])
  else if is_alpha c then Some (LWord [lower c], [])
  else if is_quote c then Some (LStr [], [])
  else if is_symbol c then Some (LIdle, [TSym c])
  else None.

Definition emit (t : token) (r : option (lmode * list token))
  : option (lmode * list token) :=
  match r with
  | Some (m, ts) => Some (m, t :: ts)
  | None => None
  end.

(** One character read in mode [m]: the next mode and the tokens completed.
    Inside a string literal a doubled quote is one quote character and a
    single quote ends the literal. *)
Definition lex_step (m : lmode) (c : ascii) : option (lmode * list token) :=
  match m with
  | LIdle => idle_step c
  | LNum n =>
      if is_digit c then Some (LNum (n * 10 + digit_val c), [])
      else if is_alpha c then None
      else emit (TInt n) (idle_step c)
  | LWord acc =>
      if is_alpha c || is_digit c then Some (LWord (lower c :: acc), [])
      else emit (word_of acc) (idle_step c)
  | LStr acc =>
      if is_quote c then Some (LStrQ acc, []) else Some (LStr (c :: acc), [])
  | LStrQ acc =>
      if is_quote c then Some (LStr (c :: acc), [])
      else emit (str_of acc) (idle_step c)
  end.

(** The lexer's state after the characters [cs]: the mode and the tokens
    completed so far, latest first. *)
Fixpoint lex_run (m : lmode) (out : list token) (cs : list ascii)
  : option (lmode * list token) :=
  match cs with
  | [] => Some (m, out)
  | c :: cs' =>
      match lex_step m c with
      | Some (m', ts) => lex_run m' (rev ts ++ out) cs'
      | None => None
      end
  end.

(** The end of the text closes a number, a word or a terminated string
    literal; a literal still open is an error. *)
Definition lex_end (m : lmode) : option (list token) :=
  match m with
  | LIdle => Some []
  | LNum n => Some [TInt n]
  | LWord acc => Some [word_of acc]
  | LStr _ => None
  | LStrQ acc => Some [str_of acc]
  end.

Definition lex_finish (st : option (lmode * list token)) : option (list token) :=
  match st with
  | Some (m, out) =>
      match lex_end m with
      | Some ts => Some (rev out ++ ts)
      | None => None
      end
  | None => None
  end.

Definition tokenize (q : string) : option (list token) :=
  lex_finish (lex_run LIdle [] (chars q)).

(** *** Parser

    The fragment: [SELECT * FROM t [WHERE c] [ORDER BY col [ASC|DESC]]] and
    [UPDATE t SET col = v [WHERE c]], where a condition is a disjunction of
    conjunctions ([AND] binds tighter than [OR]) of comparisons [a = b],
    [a IS NULL] and [a IS NOT NULL] between literals and columns.  Text
    outside the fragment is reported as a syntax error although SQLite
    accepts a larger language. *)

Inductive operand : Type :=
| OInt (z : Z)
| OStr (s : string)
| ONull
| OCol (name : string).

Inductive atom : Type :=
| AEq (a b : operand)
| AIsNull (a : operand)
| AIsNotNull (a : operand).

(** A condition in disjunctive form: the outer list is joined by [OR], each
    inner list by [AND]. *)
Definition condition : Type := list (list atom).

Inductive statement : Type :=
| Select (tbl : string) (cond : option condition) (order : option (string * bool))
| Update (tbl : string) (col : string) (v : operand) (cond : option condition).

Definition keywords : list string :=
  ["select"; "from"; "where"; "and"; "or"; "is"; "not"; "null"; "order";
   "by"; "asc"; "desc"; "update"; "set"].

Definition is_keyword (w : string) : bool :=
  existsb (String.eqb w) keywords.

Definition parse_operand (ts : list token) : option (operand * list token) :=
  match ts with
  | TInt n :: r => Some (OInt n, r)
  | TSym c :: TInt n :: r => if is_char "-" c then Some (OInt (- n), r) else None
  | TStr s :: r => Some (OStr s, r)
  | TWord w :: r =>
      if String.eqb w "null" then Some (ONull, r)
      else if is_keyword w then None
      else Some (OCol w, r)
  | _ => None
  end.

Definition is_word (w : string) (t : token) : bool :=
  match t with TWord w' => String.eqb w w' | _ => false end.

Definition is_sym (c : ascii) (t : token) : bool :=
  match t with TSym c' => is_char c c' | _ => false end.

Definition parse_atom (ts : list token) : option (atom * list token) :=
  match parse_operand ts with
  | Some (a, t1 :: r1) =>
      if is_sym "=" t1 then
        match parse_operand r1 with
        | Some (b, r2) => Some (AEq a b, r2)
        | None => None
        end
      else if is_word "is" t1 then
        match r1 with
        | t2 :: r2 =>
            if is_word "null" t2 then Some (AIsNull a, r2)
            else if is_word "not" t2 then
              match r2 with
              | t3 :: r3 => if is_word "null" t3 then Some (AIsNotNull a, r3) else None
              | [] => None
              end
            else None
        | [] => None
        end
      else None
  | _ => None
  end.

(** [cur] is the conjunction being read and [done] the disjuncts already read,
    both in reverse. *)
Fixpoint parse_condition (fuel : nat) (ts : list token)
    (cur : list atom) (done : list (list atom))
  : option (condition * list token) :=
  match fuel with
  | O => None
  | S f =>
      match parse_atom ts with
      | Some (a, r) =>
          match r with
          | t :: r' =>
              if is_word "and" t then parse_condition f r' (a :: cur) done
              else if is_word "or" t then
                parse_condition f r' [] (rev (a :: cur) :: done)
              else Some (rev (rev (a :: cur) :: done), r)
          | [] => Some (rev (rev (a :: cur) :: done), r)
          end
      | None => None
      end
  end.

Definition parse_where (ts : list token) : option (option condition * list token) :=
  match ts with
  | t :: r =>
      if is_word "where" t then
        match parse_condition (S (List.length r)) r [] [] with
        | Some (c, r') => Some (Some c, r')
        | None => None
        end
      else Some (None, ts)
  | [] => Some (None, [])
  end.

Definition parse_order (ts : list token) : option (option (string * bool)) :=
  match ts with
  | [] => Some None
  | [TWord o; TWord b; TWord c] =>
      if String.eqb o "order" && String.eqb b "by" && negb (is_keyword c)
      then Some (Some (c, false)) else None
  | [TWord o; TWord b; TWord c; TWord d] =>
      if String.eqb o "order" && String.eqb b "by" && negb (is_keyword c) then
        if String.eqb d "desc" then Some (Some (c, true))
        else if String.eqb d "asc" then Some (Some (c, false))
        else None
      else None
  | _ => None
  end.

Definition parse (ts : list token) : option statement :=
  match ts with
  | TWord s :: TSym star :: TWord f :: TWord tbl :: r =>
      if String.eqb s "select" && is_char "*" star && String.eqb f "from"
         && negb (is_keyword tbl) then
        match parse_where r with
        | Some (c, r') =>
            match parse_order r' with
            | Some o => Some (Select tbl c o)
            | None => None
            end
        | None => None
        end
      else None
  | TWord u :: TWord tbl :: TWord s :: TWord col :: TSym e :: r =>
      if String.eqb u "update" && negb (is_keyword tbl) && String.eqb s "set"
         && negb (is_keyword col) && is_char "=" e then
        match parse_operand r with
        | Some (v, r') =>
            match parse_where r' with
            | Some (c, []) => Some (Update tbl col v c)
            | _ => None
            end
        | None => None
        end
      else None
  | _ => None
  end.

(** *** Schemas *)

Record column : Type := mkColumn {
  c_name : string;
  c_aff : affinity;
  c_notnull : bool;
  c_unique : bool;
  c_default : sqlval
}.

Definition schema : Type := list column.

(** [CREATE TABLE tasks] of [Task.save] and [init_db].  The first column is
    the rowid ([INTEGER PRIMARY KEY AUTOINCREMENT]). *)
Definition tasks_schema : schema :=
  [ mkColumn "id" AffInteger true true SNull;
    mkColumn "title" AffText true false SNull;
    mkColumn "description" AffText false false SNull;
    mkColumn "status" AffText false false (SText "pending");
    mkColumn "priority" AffText false false (SText "medium");
    mkColumn "due_date" AffText false false SNull;
    mkColumn "user_id" AffInteger false false SNull;
    mkColumn "created_at" AffText false false SNull;
    mkColumn "updated_at" AffText false false SNull;
    mkColumn "deleted_at" AffText false false SNull ].

(** [CREATE TABLE users] of [User.save] and [init_db]. *)
Definition users_schema : schema :=
  [ mkColumn "id" AffInteger true true SNull;
    mkColumn "username" AffText true true SNull;
    mkColumn "email" AffText true true SNull;
    mkColumn "password_hash" AffText true false SNull;
    mkColumn "first_name" AffText false false SNull;
    mkColumn "last_name" AffText false false SNull;
    mkColumn "is_active" AffInteger false false (SInt 1);
    mkColumn "created_at" AffText false false SNull;
    mkColumn "updated_at" AffText false false SNull;
    mkColumn "last_login" AffText false false SNull;
    mkColumn "api_key" AffText false false SNull ].

Definition has_column (sch : schema) (name : string) : bool :=
  existsb (fun c => String.eqb (c_name c) name) sch.

Fixpoint get_column (sch : schema) (r : row) (name : string) : sqlval :=
  match sch, r with
  | c :: sch', v :: r' =>
      if String.eqb (c_name c) name then v else get_column sch' r' name
  | _, _ => SNull
  end.

Definition assignment : Type := list (string * sqlval).

Fixpoint assigned (a : assignment) (name : string) : option sqlval :=
  match a with
  | [] => None
  | (n, v) :: a' => if String.eqb n name then Some v else assigned a' name
  end.

(** The row with the assigned columns replaced, each value converted by its
    column's affinity. *)
Fixpoint set_columns (sch : schema) (a : assignment) (r : row) : row :=
  match sch, r with
  | c :: sch', v :: r' =>
      match assigned a (c_name c) with
      | Some x => apply_affinity (c_aff c) x
      | None => v
      end :: set_columns sch' a r'
  | _, _ => []
  end.

(** *** Evaluation of conditions *)

Definition operand_ok (sch : schema) (o : operand) : bool :=
  match o with
  | OCol n => has_column sch n
  | _ => true
  end.

Definition atom_ok (sch : schema) (a : atom) : bool :=
  match a with
  | AEq x y => operand_ok sch x && operand_ok sch y
  | AIsNull x | AIsNotNull x => operand_ok sch x
  end.

Definition condition_ok (sch : schema) (c : option condition) : bool :=
  match c with
  | Some c => forallb (forallb (atom_ok sch)) c
  | None => true
  end.

Definition eval_operand (sch : schema) (r : row) (o : operand) : sqlval :=
  match o with
  | OInt z => SInt z
  | OStr s => SText s
  | ONull => SNull
  | OCol n => get_column sch r n
  end.

Definition eval_atom (sch : schema) (r : row) (a : atom) : tri :=
  match a with
  | AEq x y => sql_eq (eval_operand sch r x) (eval_operand sch r y)
  | AIsNull x => tri_of_bool (sql_is_null (eval_operand sch r x))
  | AIsNotNull x => tri_of_bool (negb (sql_is_null (eval_operand sch r x)))
  end.

Definition eval_condition (sch : schema) (r : row) (c : condition) : tri :=
  fold_right (fun conj acc =>
                tri_or (fold_right (fun a acc' => tri_and (eval_atom sch r a) acc')
                                   TTrue conj) acc)
             TFalse c.

(** A row is selected when there is no condition or the condition is true
    (neither false nor unknown). *)
Definition selected (sch : schema) (c : option condition) (r : row) : bool :=
  match c with
  | None => true
  | Some c =>
      match eval_condition sch r c with TTrue => true | _ => false end
  end.

(** [ORDER BY col]: a stable insertion sort on the column. *)
Fixpoint insert_sorted (before : row -> row -> bool) (x : row) (l : list row)
  : list row :=
  match l with
  | [] => [x]
  | y :: l' => if before x y then x :: y :: l' else y :: insert_sorted before x l'
  end.

Definition sort_rows (before : row -> row -> bool) (l : list row) : list row :=
  fold_right (insert_sorted before) [] l.

Definition order_rows (sch : schema) (o : option (string * bool)) (l : list row)
  : list row :=
  match o with
  | None => l
  | Some (col, desc) =>
      sort_rows (fun x y =>
                   if desc then sql_leb (get_column sch y col) (get_column sch x col)
                   else sql_leb (get_column sch x col) (get_column sch y col)) l
  end.

(** *** Constraints and writes *)

(** The first assigned NOT NULL column that would hold NULL. *)
Fixpoint not_null_failure (tbl : string) (sch : schema) (a : assignment)
  : option exn :=
  match sch with
  | [] => None
  | c :: sch' =>
      match assigned a (c_name c) with
      | Some v =>
          if c_notnull c && sql_is_null (apply_affinity (c_aff c) v)
          then Some (IntegrityError (NotNullFailed (tbl ++ "." ++ c_name c)))
          else not_null_failure tbl sch' a
      | None => not_null_failure tbl sch' a
      end
  end.

Definition holds (full : schema) (others : list row) (name : string) (v : sqlval)
  : bool :=
  existsb (fun r => match sql_eq (get_column full r name) v with
                    | TTrue => true | _ => false end) others.

(** The first assigned UNIQUE column whose new value another row holds. *)
Fixpoint unique_failure (tbl : string) (full sch : schema) (a : assignment)
    (others : list row) : option exn :=
  match sch with
  | [] => None
  | c :: sch' =>
      match assigned a (c_name c) with
      | Some v =>
          if c_unique c && holds full others (c_name c) (apply_affinity (c_aff c) v)
          then Some (IntegrityError (UniqueFailed (tbl ++ "." ++ c_name c)))
          else unique_failure tbl full sch' a others
      | None => unique_failure tbl full sch' a others
      end
  end.

Definition constraint_failure (tbl : string) (sch : schema) (a : assignment)
    (others : list row) : option exn :=
  match not_null_failure tbl sch a with
  | Some e => Some e
  | None => unique_failure tbl sch sch a others
  end.

Definition rowid (r : row) : Z :=
  match r with
  | SInt z :: _ => z
  | _ => 0
  end.

Definition max_rowid (rows : list row) : Z :=
  fold_right (fun r m => Z.max (rowid r) m) 0 rows.

(** The row an INSERT builds: the rowid, then for each other column the value
    given for it or the column's default. *)
Definition new_row (sch : schema) (a : assignment) (id : Z) : row :=
  match sch with
  | [] => []
  | _ :: sch' =>
      SInt id ::
      map (fun c => match assigned a (c_name c) with
                    | Some v => apply_affinity (c_aff c) v
                    | None => c_default c
                    end) sch'
  end.

(** [INSERT INTO tbl (...) VALUES (?, ...)] without a rowid: AUTOINCREMENT
    takes one more than the largest rowid the table has ever held.  The
    result is [cursor.lastrowid] and the table. *)
Definition insert_row (tbl : string) (sch : schema) (t : table) (a : assignment)
  : outcome (Z * table) :=
  match constraint_failure tbl sch a (t_rows t) with
  | Some e => Raises e
  | None =>
      let id := Z.max (t_seq t) (max_rowid (t_rows t)) + 1 in
      Returns (id, mkTable (t_rows t ++ [new_row sch a id]) id)
  end.

(** [UPDATE tbl SET ... WHERE ...]: the rows are visited in rowid order;
    [seen] holds the rows already visited, in reverse. *)
Fixpoint update_loop (tbl : string) (sch : schema) (a : assignment)
    (hit : row -> bool) (seen rest : list row) : outcome (list row) :=
  match rest with
  | [] => Returns (rev seen)
  | r :: rest' =>
      if hit r then
        match constraint_failure tbl sch a (rev seen ++ rest') with
        | Some e => Raises e
        | None => update_loop tbl sch a hit (set_columns sch a r :: seen) rest'
        end
      else update_loop tbl sch a hit (r :: seen) rest'
  end.

Definition update_rows (tbl : string) (sch : schema) (t : table) (a : assignment)
    (hit : row -> bool) : outcome table :=
  do rows <- update_loop tbl sch a hit [] (t_rows t);
  Returns (mkTable rows (t_seq t)).

(** *** Statements sent as text *)

Definition schema_of (name : string) : option schema :=
  if String.eqb name "tasks" then Some tasks_schema
  else if String.eqb name "users" then Some users_schema
  else None.

Definition table_of (db : database) (name : string) : table :=
  if String.eqb name "tasks" then tasks db else users db.

Definition with_table (db : database) (name : string) (t : table) : database :=
  if String.eqb name "tasks" then mkDb t (users db) else mkDb (tasks db) t.

Definition operand_value (o : operand) : option sqlval :=
  match o with
  | OInt z => Some (SInt z)
  | OStr s => Some (SText s)
  | ONull => Some SNull
  | OCol _ => None
  end.

(** A computation that reads and writes the database and may raise.  The
    database that comes back with [Raises] is the one at the moment of the
    raise: every write of the repository is one statement followed by
    [commit], so a statement that raises leaves the database as it was. *)
Definition io (A : Type) : Type := database -> outcome A * database.

Definition ret {A : Type} (a : A) : io A := fun db => (Returns a, db).

Definition raise {A : Type} (e : exn) : io A := fun db => (Raises e, db).

Definition lift {A : Type} (m : outcome A) : io A := fun db => (m, db).

Definition bind {A B : Type} (m : io A) (k : A -> io B) : io B :=
  fun db =>
    match m db with
    | (Returns a, db') => k a db'
    | (Raises e, db') => (Raises e, db')
    end.

Notation "'let*' x := m 'in' k" := (bind m (fun x => k))
  (at level 10, x name, m at level 100, k at level 200).

(** [cursor.execute(query)] for a query given as text, followed by
    [fetchall()]; an UPDATE yields no rows.  A statement that does not
    parse, or that names an unknown table or column, raises
    [sqlite3.OperationalError]. *)
Definition execute (query : string) : io (list row) :=
  fun db =>
  match tokenize query with
  | None => (Raises OperationalError, db)
  | Some ts =>
      match parse ts with
      | None => (Raises OperationalError, db)
      | Some (Select tbl c o) =>
          match schema_of tbl with
          | None => (Raises OperationalError, db)
          | Some sch =>
              if condition_ok sch c
                 && match o with Some (col, _) => has_column sch col | None => true end
              then (Returns (order_rows sch o
                               (filter (selected sch c) (t_rows (table_of db tbl)))), db)
              else (Raises OperationalError, db)
          end
      | Some (Update tbl col v c) =>
          match schema_of tbl, operand_value v with
          | Some sch, Some x =>
              if has_column sch col && condition_ok sch c then
                match update_rows tbl sch (table_of db tbl) [(col, x)]
                                  (selected sch c) with
                | Returns t => (Returns [], with_table db tbl t)
                | Raises e => (Raises e, db)
                end
              else (Raises OperationalError, db)
          | _, _ => (Raises OperationalError, db)
          end
      end
  end.

(** [cursor.fetchone()] *)
Definition fetchone (rows : list row) : option row :=
  match rows with
  | [] => None
  | r :: _ => Some r
  end.

(** [row[i]] *)
Definition item (r : row) (i : nat) : outcome pyval :=
  match nth_error r i with
  | Some v => Returns (py_of_sql v)
  | None => Raises IndexError
  end.

Definition is_true (t : tri) : bool :=
  match t with TTrue => true | _ => false end.

(** [s.strip()]: Python's white space among the ASCII characters. *)
Definition py_isspace (c : ascii) : bool :=
  (((9 <=? code c) && (code c <=? 13)) || ((28 <=? code c) && (code c <=? 32)))%N.

Fixpoint lstrip (cs : list ascii) : list ascii :=
  match cs with
  | [] => []
  | c :: cs' => if py_isspace c then lstrip cs' else cs
  end.

Definition strip (s : string) : string :=
  text (rev (lstrip (rev (lstrip (chars s))))).

(** [len(s)] *)
Definition len (s : string) : Z := Z.of_nat (String.length s).

(** [a < b] on naive datetimes. *)
Definition datetime_key (d : datetime) : list Z :=
  [year d; month d; day d; hour d; minute d; second d; microsecond d].

Fixpoint lex_ltb (a b : list Z) : bool :=
  match a, b with
  | x :: a', y :: b' => (x <? y) || ((x =? y) && lex_ltb a' b')
  | _, _ => false
  end.

Definition datetime_ltb (a b : datetime) : bool :=
  lex_ltb (datetime_key a) (datetime_key b).

(** [v in options] for a list of string literals. *)
Definition in_strings (v : pyval) (options : list string) : bool :=
  match v with
  | PyStr s => existsb (String.eqb s) options
  | _ => false
  end.

Definition newline : string := String (ascii_of_N 10) "".

(** ** [models/task.py] *)

Module Task.

Record t : Type := mk {
  id : pyval;
  title : pyval;
  description : pyval;
  status : pyval;
  priority : pyval;
  due_date : pyval;
  user_id : pyval;
  created_at : pyval;
  updated_at : pyval;
  deleted_at : pyval
}.

(** [Task.__init__]; [now] is the reading of [datetime.now()]. *)
Definition init (now : datetime)
    (id title description status priority due_date user_id created_at : pyval)
  : t :=
  mk id title description status priority due_date user_id
     (py_or created_at (PyDatetime now)) PyNone PyNone.

(** [Task()] *)
Definition new (now : datetime) : t :=
  init now PyNone (PyStr "") (PyStr "") (PyStr "pending") (PyStr "medium")
       PyNone PyNone PyNone.

Definition set_id (self : t) (v : pyval) : t :=
  mk v (title self) (description self) (status self) (priority self)
     (due_date self) (user_id self) (created_at self) (updated_at self)
     (deleted_at self).

Definition set_deleted_at (self : t) (v : pyval) : t :=
  mk (id self) (title self) (description self) (status self) (priority self)
     (due_date self) (user_id self) (created_at self) (updated_at self) v.

(** The rows that [WHERE id=?] matches for a bound [id]. *)
Definition id_is (v : pyval) (r : row) : bool :=
  is_true (sql_eq (get_column tasks_schema r "id")
                  (apply_affinity AffInteger (bind_param v))).

(** [Task.save]: [now] is the reading of [datetime.now()] written to
    [updated_at].  The result is [self] after the call. *)
Definition save (now : datetime) (self : t) : io t :=
  if truthy (id self) then
    let* due := lift (isoformat_if (due_date self)) in
    fun db =>
      match update_rows "tasks" tasks_schema (tasks db)
              [("title", bind_param (title self));
               ("description", bind_param (description self));
               ("status", bind_param (status self));
               ("priority", bind_param (priority self));
               ("due_date", bind_param due);
               ("user_id", bind_param (user_id self));
               ("updated_at", SText (isoformat now))]
              (id_is (id self)) with
      | Returns tbl => (Returns self, mkDb tbl (users db))
      | Raises e => (Raises e, db)
      end
  else
    let* due := lift (isoformat_if (due_date self)) in
    let* created := lift (call_isoformat (created_at self)) in
    fun db =>
      match insert_row "tasks" tasks_schema (tasks db)
              [("title", bind_param (title self));
               ("description", bind_param (description self));
               ("status", bind_param (status self));
               ("priority", bind_param (priority self));
               ("due_date", bind_param due);
               ("user_id", bind_param (user_id self));
               ("created_at", bind_param created);
               ("updated_at", SText (isoformat now))] with
      | Returns (lastrowid, tbl) =>
          (Returns (set_id self (PyInt lastrowid)), mkDb tbl (users db))
      | Raises e => (Raises e, db)
      end.

(** [Task._from_row] *)
Definition _from_row (now : datetime) (r : row) : outcome t :=
  do r0 <- item r 0;
  do r1 <- item r 1;
  do r2 <- item r 2;
  do r3 <- item r 3;
  do r4 <- item r 4;
  do r5 <- item r 5;
  do due <- fromisoformat_if r5;
  do r6 <- item r 6;
  do r7 <- item r 7;
  do created <- fromisoformat_if r7;
  let task := init now r0 r1 r2 r3 r4 due r6 created in
  do r8 <- item r 8;
  do updated <- fromisoformat_if r8;
  do r9 <- item r 9;
  do deleted <- fromisoformat_if r9;
  Returns (mk (id task) (title task) (description task) (status task)
              (priority task) (due_date task) (user_id task) (created_at task)
              updated deleted).

Definition find_by_id_query (task_id : pyval) : string :=
  "SELECT * FROM tasks WHERE id = " ++ py_str task_id
  ++ " AND deleted_at IS NULL".

(** [Task.find_by_id]; the result is [None] for Python's [None]. *)
Definition find_by_id (now : datetime) (task_id : pyval) : io (option t) :=
  let* rows := execute (find_by_id_query task_id) in
  match fetchone rows with
  | Some r => let* task := lift (_from_row now r) in ret (Some task)
  | None => ret None
  end.

Definition find_all_query (user_id status : pyval) : string :=
  let query := "SELECT * FROM tasks WHERE deleted_at IS NULL" in
  let query :=
    if truthy user_id then (query ++ " AND user_id = " ++ py_str user_id)%string
    else query in
  let query :=
    if truthy status then (query ++ " AND status = '" ++ py_str status ++ "'")%string
    else query in
  (query ++ " ORDER BY created_at DESC")%string.

Fixpoint from_rows (now : datetime) (rows : list row) : outcome (list t) :=
  match rows with
  | [] => Returns []
  | r :: rows' =>
      do task <- _from_row now r;
      do rest <- from_rows now rows';
      Returns (task :: rest)
  end.

(** [Task.find_all] *)
Definition find_all (now : datetime) (user_id status : pyval) : io (list t) :=
  let* rows := execute (find_all_query user_id status) in
  lift (from_rows now rows).

Definition delete_query (now : datetime) (self : t) : string :=
  newline ++ "            UPDATE tasks SET deleted_at = '" ++ isoformat now
  ++ "' WHERE id = " ++ py_str (id self) ++ newline ++ "        ".

(** [Task.delete]: [now] is the clock reading interpolated into the
    statement, [now'] the later one kept on the object. *)
Definition delete (now now' : datetime) (self : t) : io t :=
  let* _ := execute (delete_query now self) in
  ret (set_deleted_at self (PyDatetime now')).

(** [Task.to_dict] *)
Definition to_dict (self : t) : outcome dict :=
  do due <- isoformat_if (due_date self);
  do created <- isoformat_if (created_at self);
  do updated <- isoformat_if (updated_at self);
  Returns [("id", id self);
           ("title", title self);
           ("description", description self);
           ("status", status self);
           ("priority", priority self);
           ("due_date", due);
           ("user_id", user_id self);
           ("created_at", created);
           ("updated_at", updated)].

Definition title_blank (v : pyval) : outcome bool :=
  if negb (truthy v) then Returns true
  else match v with
       | PyStr s => Returns (len (strip s) =? 0)
       | _ => Raises AttributeError
       end.

Definition title_too_long (v : pyval) : outcome bool :=
  match v with
  | PyStr s => Returns (200 <? len s)
  | _ => Raises TypeError
  end.

Definition due_in_past (now : datetime) (v : pyval) : outcome bool :=
  if truthy v then
    match v with
    | PyDatetime d => Returns (datetime_ltb d now)
    | _ => Raises TypeError
    end
  else Returns false.

Definition append_if (b : bool) (msg : string) (errors : list string)
  : list string :=
  if b then errors ++ [msg] else errors.

(** [Task.validate] *)
Definition validate (now : datetime) (self : t) : outcome (list string) :=
  let errors := [] in
  do b1 <- title_blank (title self);
  let errors := append_if b1 "Title is required" errors in
  do b2 <- title_too_long (title self);
  let errors := append_if b2 "Title must be less than 200 characters" errors in
  let errors :=
    append_if (negb (in_strings (status self)
                       ["pending"; "in_progress"; "completed"; "cancelled"]))
              "Invalid status" errors in
  let errors :=
    append_if (negb (in_strings (priority self)
                       ["low"; "medium"; "high"; "urgent"]))
              "Invalid priority" errors in
  do b5 <- due_in_past now (due_date self);
  let errors := append_if b5 "Due date cannot be in the past" errors in
  Returns errors.

End Task.

(** The [kwargs] catch-all: the entries whose key is not a named parameter. *)
Definition extra_kwargs (named : list string) (data : dict) : dict :=
  filter (fun kv => negb (existsb (String.eqb (fst kv)) named)) data.

Module TaskCreate.

Record t : Type := mk {
  title : pyval;
  description : pyval;
  status : pyval;
  priority : pyval;
  due_date : pyval;
  user_id : pyval;
  extra_data : dict
}.

(** [TaskCreate] called with the entries of [data] as keyword arguments:
    [title] is required, a missing one is a [TypeError]. *)
Definition init (data : dict) : outcome t :=
  match dict_get data "title" with
  | None => Raises TypeError
  | Some title =>
      Returns (mk title
                  (kwarg data "description" PyNone)
                  (kwarg data "status" (PyStr "pending"))
                  (kwarg data "priority" (PyStr "medium"))
                  (kwarg data "due_date" PyNone)
                  (kwarg data "user_id" PyNone)
                  (extra_kwargs ["title"; "description"; "status"; "priority";
                                 "due_date"; "user_id"] data))
  end.

(** [TaskCreate.dict], which [model_dump] returns whatever its mode. *)
Definition model_dump (self : t) : dict :=
  [("title", title self);
   ("description", description self);
   ("status", status self);
   ("priority", priority self);
   ("due_date", due_date self);
   ("user_id", user_id self)].

End TaskCreate.

Module TaskUpdate.

Record t : Type := mk {
  title : pyval;
  description : pyval;
  status : pyval;
  priority : pyval;
  due_date : pyval;
  user_id : pyval;
  extra_stuff : dict
}.

(** [TaskUpdate] called with the entries of [data] as keyword arguments. *)
Definition init (data : dict) : t :=
  mk (kwarg data "title" PyNone)
     (kwarg data "description" PyNone)
     (kwarg data "status" PyNone)
     (kwarg data "priority" PyNone)
     (kwarg data "due_date" PyNone)
     (kwarg data "user_id" PyNone)
     (extra_kwargs ["title"; "description"; "status"; "priority";
                    "due_date"; "user_id"] data).

(** [TaskUpdate.dict], which [model_dump] returns whatever its mode. *)
Definition model_dump (self : t) : dict :=
  [("title", title self);
   ("description", description self);
   ("status", status self);
   ("priority", priority self);
   ("due_date", due_date self);
   ("user_id", user_id self)].

End TaskUpdate.

(** ** [services/task_service.py] *)

Module task_service.

Fixpoint to_dicts (l : list Task.t) : outcome (list dict) :=
  match l with
  | [] => Returns []
  | t :: l' =>
      do d <- Task.to_dict t;
      do rest <- to_dicts l';
      Returns (d :: rest)
  end.

(** [get_tasks(filters)]; [None] is the default argument. *)
Definition get_tasks (now : datetime) (filters : option dict) : io (list dict) :=
  let filters := match filters with Some f => f | None => [] end in
  let status := dict_get_none filters "status" in
  let user_id := dict_get_none filters "assigned_to" in
  let* all_tasks := Task.find_all now user_id status in
  lift (to_dicts all_tasks).

(** [get_task(task_id)] *)
Definition get_task (now : datetime) (task_id : pyval) : io (option dict) :=
  let* found_task := Task.find_by_id now task_id in
  match found_task with
  | Some task => let* d := lift (Task.to_dict task) in ret (Some d)
  | None => ret None
  end.

(** The task that [create_task] builds before saving it. *)
Definition build (now : datetime) (task_data : TaskCreate.t) : Task.t :=
  let new_task := Task.new now in
  Task.mk (Task.id new_task)
          (TaskCreate.title task_data)
          (TaskCreate.description task_data)
          (TaskCreate.status task_data)
          (TaskCreate.priority task_data)
          (TaskCreate.due_date task_data)
          (TaskCreate.user_id task_data)
          (Task.created_at new_task)
          (Task.updated_at new_task)
          (Task.deleted_at new_task).

(** [create_task(data)]: [now] is the clock reading of [Task()], [now']
    that of [save]. *)
Definition create_task (now now' : datetime) (data : dict) : io dict :=
  let* task_data := lift (TaskCreate.init data) in
  let new_task := build now task_data in
  let* new_task := Task.save now' new_task in
  lift (Task.to_dict new_task).

(** [x if new is None else new], the effect of
    [if new is not None: existing.field = new]. *)
Definition unless_none (new old : pyval) : pyval :=
  match new with
  | PyNone => old
  | _ => new
  end.

Definition apply_update (task_data : TaskUpdate.t) (existing : Task.t) : Task.t :=
  Task.mk (Task.id existing)
          (unless_none (TaskUpdate.title task_data) (Task.title existing))
          (unless_none (TaskUpdate.description task_data) (Task.description existing))
          (unless_none (TaskUpdate.status task_data) (Task.status existing))
          (unless_none (TaskUpdate.priority task_data) (Task.priority existing))
          (unless_none (TaskUpdate.due_date task_data) (Task.due_date existing))
          (unless_none (TaskUpdate.user_id task_data) (Task.user_id existing))
          (Task.created_at existing)
          (Task.updated_at existing)
          (Task.deleted_at existing).

(** [update_task(task_id, data)]: [now] is the clock reading of the
    lookup, [now'] that of [save]. *)
Definition update_task (now now' : datetime) (task_id : pyval) (data : dict)
  : io (option dict) :=
  let task_data := TaskUpdate.init data in
  let* existing := Task.find_by_id now task_id in
  match existing with
  | None => ret None
  | Some existing =>
      let existing := apply_update task_data existing in
      let* existing := Task.save now' existing in
      let* d := lift (Task.to_dict existing) in
      ret (Some d)
  end.

(** [delete_task(task_id)] *)
Definition delete_task (now now' now'' : datetime) (task_id : pyval) : io bool :=
  let* found := Task.find_by_id now task_id in
  match found with
  | Some found =>
      let* _ := Task.delete now' now'' found in
      ret true
  | None => ret false
  end.

End task_service.

(** The rows that [init_db] seeds into an empty [tasks] table; [stamp] is
    the text of SQLite's [datetime('now')]. *)
Definition seed_tasks (stamp : string) : table :=
  let r (id : Z) (title description status priority due : string) (uid : sqlval) :=
    [SInt id; SText title; SText description; SText status; SText priority;
     SText due; uid; SText stamp; SText stamp; SNull] in
  mkTable
    [ r 1 "Fix login bug" "Users cannot login with special characters"
        "in_progress" "high" "2025-10-20 10:00:00" (SInt 1);
      r 2 "Update documentation" "Add API examples to README"
        "pending" "medium" "2025-10-25 15:00:00" (SInt 2);
      r 3 "Review Q4 report" "Financial review for Q4 2024"
        "completed" "high" "2025-10-15 09:00:00" (SInt 1);
      r 4 "Design new homepage" "Mockups for redesign"
        "pending" "low" "2025-11-01 12:00:00" (SInt 3);
      r 5 "Setup CI/CD pipeline" "Configure GitHub Actions"
        "pending" "high" "2025-10-10 14:00:00" (SInt 2);
      r 6 "Refactor user service" "Clean up legacy code"
        "pending" "medium" "2025-10-22 16:00:00" SNull ]
    6.

(** The rows that [init_db] seeds into an empty [users] table. *)
Definition seed_users (stamp : string) : table :=
  let h := "abc123:5e884898da28047151d0e56f8dc6292773603d0d6aabbdd62a11ef721d1542d8" in
  let r (id : Z) (username email first last : string) :=
    [SInt id; SText username; SText email; SText h; SText first; SText last;
     SInt 1; SText stamp; SText stamp; SNull; SNull] in
  mkTable
    [ r 1 "john_doe" "john@example.com" "John" "Doe";
      r 2 "jane_smith" "jane@example.com" "Jane" "Smith";
      r 3 "bob_johnson" "bob@example.com" "Bob" "Johnson" ]
    3.

(** The database after [init_db] on a fresh file. *)
Definition seed_db (stamp : string) : database :=
  mkDb (seed_tasks stamp) (seed_users stamp).

(** ** [db.py]

    [init_db]: each table is seeded when [SELECT COUNT] finds it empty, the
    users first.  The seed rows carry their rowids, so the AUTOINCREMENT
    counter becomes the largest of them unless it was larger already.
    [stamp_users] and [stamp_tasks] are what [datetime('now')] gives in the
    two INSERT statements.  [init_db] opens [taskflow.db] in the directory
    above [db.py], the models open [taskflow.db] in the working directory:
    the embedding takes the two for one file, as they are when the
    application is started from that directory. *)
Definition seed_if_empty (seed : table) (t : table) : table :=
  match t_rows t with
  | [] => mkTable (t_rows seed) (Z.max (t_seq t) (t_seq seed))
  | _ :: _ => t
  end.

Definition init_db (stamp_users stamp_tasks : string) (db : database) : database :=
  mkDb (seed_if_empty (seed_tasks stamp_tasks) (tasks db))
       (seed_if_empty (seed_users stamp_users) (users db)).

(** A database file in which the tables have just been created. *)
Definition empty_db : database := mkDb (mkTable [] 0) (mkTable [] 0).

(** ** [models/user.py] *)

(** [int(v)]; in text only an optional minus sign followed by digits is
    recognised. *)
Definition py_int (v : pyval) : outcome pyval :=
  match v with
  | PyInt z => Returns (PyInt z)
  | PyBool b => Returns (PyInt (if b then 1 else 0))
  | PyStr s =>
      match parse_int s with
      | Some z => Returns (PyInt z)
      | None => Raises ValueError
      end
  | _ => Raises TypeError
  end.

(** [a + b] where [b] is a string. *)
Definition py_add_str (a : pyval) (b : string) : outcome string :=
  match a with
  | PyStr s => Returns (s ++ b)%string
  | _ => Raises TypeError
  end.

Definition hex_char (k : Z) : ascii :=
  match k with
  | 0 => "0" | 1 => "1" | 2 => "2" | 3 => "3" | 4 => "4" | 5 => "5"
  | 6 => "6" | 7 => "7" | 8 => "8" | 9 => "9" | 10 => "a" | 11 => "b"
  | 12 => "c" | 13 => "d" | 14 => "e" | _ => "f"
  end%char.

(** [binascii.hexlify]: two lower-case hexadecimal digits per byte. *)
Fixpoint hexlify (bs : list Byte.byte) : list ascii :=
  match bs with
  | [] => []
  | b :: bs' =>
      let n := Z.of_N (Byte.to_N b) in
      hex_char (n / 16) :: hex_char (n mod 16) :: hexlify bs'
  end.

(** [secrets.token_hex(n)]: [rng i] is the [i]-th byte the system's random
    source delivers. *)
Definition token_hex (n : nat) (rng : nat -> Byte.byte) : string :=
  text (hexlify (map rng (seq 0 n))).

Definition is_colon (c : ascii) : bool := is_char ":" c.

(** [s.split(":", 1)] when [s] holds a colon: the text before the first one
    and the text after it. *)
Fixpoint split_colon (cs : list ascii) : option (list ascii * list ascii) :=
  match cs with
  | [] => None
  | c :: cs' =>
      if is_colon c then Some ([], cs')
      else match split_colon cs' with
           | Some (a, b) => Some (c :: a, b)
           | None => None
           end
  end.

(** [":" in s] *)
Definition has_colon (s : string) : bool := existsb is_colon (chars s).

(** [c in s] for a one-character string [c]. *)
Definition contains_char (c : ascii) (s : string) : bool :=
  existsb (is_char c) (chars s).

Module User.

Record t : Type := mk {
  id : pyval;
  username : pyval;
  email : pyval;
  password_hash : pyval;
  first_name : pyval;
  last_name : pyval;
  is_active : pyval;
  created_at : pyval;
  updated_at : pyval;
  last_login : pyval;
  api_key : pyval
}.

(** [User.__init__] *)
Definition init (now : datetime)
    (id username email password_hash first_name last_name is_active
     created_at : pyval) : t :=
  mk id username email password_hash first_name last_name is_active
     (py_or created_at (PyDatetime now)) PyNone PyNone PyNone.

(** [User()] *)
Definition new (now : datetime) : t :=
  init now PyNone (PyStr "") (PyStr "") (PyStr "") (PyStr "") (PyStr "")
       (PyBool true) PyNone.

Definition set_id (self : t) (v : pyval) : t :=
  mk v (username self) (email self) (password_hash self) (first_name self)
     (last_name self) (is_active self) (created_at self) (updated_at self)
     (last_login self) (api_key self).

Definition set_password_hash (self : t) (v : pyval) : t :=
  mk (id self) (username self) (email self) v (first_name self)
     (last_name self) (is_active self) (created_at self) (updated_at self)
     (last_login self) (api_key self).

Definition set_api_key (self : t) (v : pyval) : t :=
  mk (id self) (username self) (email self) (password_hash self)
     (first_name self) (last_name self) (is_active self) (created_at self)
     (updated_at self) (last_login self) v.

Definition id_is (v : pyval) (r : row) : bool :=
  is_true (sql_eq (get_column users_schema r "id")
                  (apply_affinity AffInteger (bind_param v))).

(** [1 if self.is_active else 0] *)
Definition active_flag (self : t) : sqlval :=
  SInt (if truthy (is_active self) then 1 else 0).

(** [User.save] *)
Definition save (now : datetime) (self : t) : io t :=
  if truthy (id self) then
    let* login := lift (isoformat_if (last_login self)) in
    fun db =>
      match update_rows "users" users_schema (users db)
              [("username", bind_param (username self));
               ("email", bind_param (email self));
               ("password_hash", bind_param (password_hash self));
               ("first_name", bind_param (first_name self));
               ("last_name", bind_param (last_name self));
               ("is_active", active_flag self);
               ("updated_at", SText (isoformat now));
               ("last_login", bind_param login);
               ("api_key", bind_param (api_key self))]
              (id_is (id self)) with
      | Returns tbl => (Returns self, mkDb (tasks db) tbl)
      | Raises e => (Raises e, db)
      end
  else
    let* created := lift (call_isoformat (created_at self)) in
    fun db =>
      match insert_row "users" users_schema (users db)
              [("username", bind_param (username self));
               ("email", bind_param (email self));
               ("password_hash", bind_param (password_hash self));
               ("first_name", bind_param (first_name self));
               ("last_name", bind_param (last_name self));
               ("is_active", active_flag self);
               ("created_at", bind_param created);
               ("updated_at", SText (isoformat now));
               ("api_key", bind_param (api_key self))] with
      | Returns (lastrowid, tbl) =>
          (Returns (set_id self (PyInt lastrowid)), mkDb (tasks db) tbl)
      | Raises e => (Raises e, db)
      end.

(** [User._from_row] *)
Definition _from_row (now : datetime) (r : row) : outcome t :=
  do r0 <- item r 0;
  do r1 <- item r 1;
  do r2 <- item r 2;
  do r3 <- item r 3;
  do r4 <- item r 4;
  do r5 <- item r 5;
  do r6 <- item r 6;
  do r7 <- item r 7;
  do created <- fromisoformat_if r7;
  let user := init now r0 r1 r2 r3 r4 r5 (PyBool (truthy r6)) created in
  do r8 <- item r 8;
  do updated <- fromisoformat_if r8;
  do r9 <- item r 9;
  do login <- fromisoformat_if r9;
  do r10 <- item r 10;
  Returns (mk (id user) (username user) (email user) (password_hash user)
              (first_name user) (last_name user) (is_active user)
              (created_at user) updated login r10).

Definition found (now : datetime) (rows : list row) : io (option t) :=
  match fetchone rows with
  | Some r => let* user := lift (_from_row now r) in ret (Some user)
  | None => ret None
  end.

Definition find_by_id_query (user_id : pyval) : string :=
  "SELECT * FROM users WHERE id = " ++ py_str user_id.

(** [User.find_by_id] *)
Definition find_by_id (now : datetime) (user_id : pyval) : io (option t) :=
  let* rows := execute (find_by_id_query user_id) in found now rows.

Definition find_by_username_query (username : pyval) : string :=
  "SELECT * FROM users WHERE username = '" ++ py_str username ++ "'".

(** [User.find_by_username] *)
Definition find_by_username (now : datetime) (username : pyval)
  : io (option t) :=
  let* rows := execute (find_by_username_query username) in found now rows.

Definition find_by_email_query (email : pyval) : string :=
  "SELECT * FROM users WHERE email = '" ++ py_str email ++ "'".

(** [User.find_by_email] *)
Definition find_by_email (now : datetime) (email : pyval) : io (option t) :=
  let* rows := execute (find_by_email_query email) in found now rows.

Definition find_by_api_key_query (api_key : pyval) : string :=
  "SELECT * FROM users WHERE api_key = '" ++ py_str api_key ++ "'".

(** [User.find_by_api_key] *)
Definition find_by_api_key (now : datetime) (api_key : pyval) : io (option t) :=
  let* rows := execute (find_by_api_key_query api_key) in found now rows.

(** [User.generate_api_key]: [token] is what [secrets.token_urlsafe(32)]
    returns. *)
Definition generate_api_key (token : string) (self : t) : t * string :=
  (set_api_key self (PyStr token), token).

(** [User.to_dict] *)
Definition to_dict (self : t) : outcome dict :=
  do created <- isoformat_if (created_at self);
  do updated <- isoformat_if (updated_at self);
  do login <- isoformat_if (last_login self);
  Returns [("id", id self);
           ("username", username self);
           ("email", email self);
           ("first_name", first_name self);
           ("last_name", last_name self);
           ("is_active", is_active self);
           ("created_at", created);
           ("updated_at", updated);
           ("last_login", login)].

(** [not v or len(v.strip()) == 0] *)
Definition username_blank (v : pyval) : outcome bool :=
  if negb (truthy v) then Returns true
  else match v with
       | PyStr s => Returns (len (strip s) =? 0)
       | _ => Raises AttributeError
       end.

(** [len(v) < 3] *)
Definition username_short (v : pyval) : outcome bool :=
  match v with
  | PyStr s => Returns (len s <? 3)
  | _ => Raises TypeError
  end.

(** [not v or "@" not in v] *)
Definition email_invalid (v : pyval) : outcome bool :=
  if negb (truthy v) then Returns true
  else match v with
       | PyStr s => Returns (negb (contains_char "@" s))
       | _ => Raises TypeError
       end.

Definition append_if (b : bool) (msg : string) (errors : list string)
  : list string :=
  if b then errors ++ [msg] else errors.

(** [User.validate] *)
Definition validate (self : t) : outcome (list string) :=
  let errors := [] in
  do b1 <- username_blank (username self);
  let errors := append_if b1 "Username is required" errors in
  do b2 <- username_short (username self);
  let errors := append_if b2 "Username must be at least 3 characters" errors in
  do b3 <- email_invalid (email self);
  let errors := append_if b3 "Valid email is required" errors in
  let errors :=
    append_if (negb (truthy (password_hash self))) "Password is required" errors in
  Returns errors.

Section Hash.

(** [sha256 s] is [hashlib.sha256(s.encode()).hexdigest()]. *)
Variable sha256 : string -> string.

(** [User.set_password]: [rng] is the random source behind
    [secrets.token_hex]. *)
Definition set_password (rng : nat -> Byte.byte) (self : t) (password : pyval)
  : outcome t :=
  let salt := token_hex 16 rng in
  do salted <- py_add_str password salt;
  let password_hash := sha256 salted in
  Returns (set_password_hash self (PyStr (salt ++ ":" ++ password_hash))).

(** [User.check_password] *)
Definition check_password (self : t) (password : pyval) : outcome bool :=
  if negb (truthy (password_hash self)) then Returns false
  else
    match password_hash self with
    | PyStr stored =>
        if negb (has_colon stored) then Returns false
        else
          match split_colon (chars stored) with
          | Some (salt, stored_hash) =>
              do salted <- py_add_str password (text salt);
              let password_hash := sha256 salted in
              Returns (String.eqb password_hash (text stored_hash))
          | None => Raises ValueError
          end
    | _ => Raises TypeError
    end.

End Hash.

End User.

Module UserCreate.

Record t : Type := mk {
  username : pyval;
  email : pyval;
  password : pyval;
  first_name : pyval;
  last_name : pyval;
  is_active : pyval;
  misc : dict
}.

(** [UserCreate] called with the entries of [data] as keyword arguments:
    [username], [email] and [password] are required.  The constructor also
    assigns the module-level [TEMP_USER_DATA], which nothing reads. *)
Definition init (data : dict) : outcome t :=
  match dict_get data "username", dict_get data "email",
        dict_get data "password" with
  | Some username, Some email, Some password =>
      Returns (mk username email password
                  (kwarg data "first_name" (PyStr ""))
                  (kwarg data "last_name" (PyStr ""))
                  (PyBool true)
                  (extra_kwargs ["username"; "email"; "password";
                                 "first_name"; "last_name"] data))
  | _, _, _ => Raises TypeError
  end.

(** [UserCreate.get_password] *)
Definition get_password (self : t) : pyval := password self.

(** [UserCreate.dict], which [model_dump] returns whatever its mode. *)
Definition model_dump (self : t) : dict :=
  [("username", username self);
   ("email", email self);
   ("password", password self);
   ("first_name", first_name self);
   ("last_name", last_name self);
   ("is_active", is_active self)].

End UserCreate.

(** ** [services/user_service.py] *)

Module user_service.

Fixpoint rows_to_dicts (now : datetime) (rows : list row)
  : outcome (list dict) :=
  match rows with
  | [] => Returns []
  | r :: rows' =>
      do u <- User._from_row now r;
      do d <- User.to_dict u;
      do rest <- rows_to_dicts now rows';
      Returns (d :: rest)
  end.

(** [get_users()] *)
Definition get_users (now : datetime) : io (list dict) :=
  let* rows := execute "SELECT * FROM users" in
  lift (rows_to_dicts now rows).

(** [get_user(user_id)] *)
Definition get_user (now : datetime) (user_id : pyval) : io (option dict) :=
  let* uid := lift (py_int user_id) in
  let* found_user := User.find_by_id now uid in
  match found_user with
  | Some u => let* d := lift (User.to_dict u) in ret (Some d)
  | None => ret None
  end.

Definition build (now : datetime) (user_data : UserCreate.t) : User.t :=
  let new_user := User.new now in
  User.mk (User.id new_user)
          (UserCreate.username user_data)
          (UserCreate.email user_data)
          (User.password_hash new_user)
          (UserCreate.first_name user_data)
          (UserCreate.last_name user_data)
          (UserCreate.is_active user_data)
          (User.created_at new_user)
          (User.updated_at new_user)
          (User.last_login new_user)
          (User.api_key new_user).

Section Hash.

Variable sha256 : string -> string.

(** [create_user(data)]: [now] is the clock reading of [User()], [now']
    that of [save]. *)
Definition create_user (rng : nat -> Byte.byte) (now now' : datetime)
    (data : dict) : io dict :=
  let* user_data := lift (UserCreate.init data) in
  let new_user := build now user_data in
  let* new_user :=
    lift (User.set_password sha256 rng new_user (UserCreate.password user_data)) in
  let* new_user := User.save now' new_user in
  lift (User.to_dict new_user).

End Hash.

End user_service.

(** ** [routes/users.py]

    A view function that returns gives a JSON body; an exception that
    escapes the view is not handled anywhere in the application, so the
    framework answers with its generic 500 page whatever the exception
    was. *)

Inductive response (A : Type) : Type :=
| Jsonify (body : A)
| InternalServerError.
Arguments Jsonify {A} body.
Arguments InternalServerError {A}.

Definition dispatch {A : Type} (view : io A) : database -> response A * database :=
  fun db =>
    match view db with
    | (Returns a, db') => (Jsonify a, db')
    | (Raises _, db') => (InternalServerError, db')
    end.

Module users_routes.

(** [GET /users] *)
Definition get_users (now : datetime) : database -> response (list dict) * database :=
  dispatch (user_service.get_users now).

(** [GET /users/<user_id>]: the path segment is text; [None] is the JSON
    [null] that the handler returns for an unknown user. *)
Definition get_user (now : datetime) (user_id : string)
  : database -> response (option dict) * database :=
  dispatch (let* uid := lift (py_int (PyStr user_id)) in
            user_service.get_user now uid).

Section Hash.

Variable sha256 : string -> string.

(** [POST /users] *)
Definition create_user (rng : nat -> Byte.byte) (now now' : datetime)
    (data : dict) : database -> response dict * database :=
  dispatch (user_service.create_user sha256 rng now now' data).

End Hash.

End users_routes.

(** ** [routes/tasks.py]

    [args] is [request.args], the query parameters as text. *)

Module tasks_routes.

(** [GET /tasks] *)
Definition get_tasks (now : datetime) (args : dict)
  : database -> response (list dict) * database :=
  let filters :=
    [("status", dict_get_none args "status");
     ("priority", dict_get_none args "priority");
     ("assigned_to", dict_get_none args "assigned_to")] in
  dispatch (task_service.get_tasks now (Some filters)).

(** [GET /tasks/<task_id>] *)
Definition get_task (now : datetime) (task_id : string)
  : database -> response (option dict) * database :=
  dispatch (let* id := lift (py_int (PyStr task_id)) in
            task_service.get_task now id).

(** [POST /tasks] *)
Definition create_task (now now' : datetime) (data : dict)
  : database -> response dict * database :=
  dispatch (task_service.create_task now now' data).

(** [PUT /tasks/<task_id>] *)
Definition update_task (now now' : datetime) (task_id : string) (data : dict)
  : database -> response (option dict) * database :=
  dispatch (let* id := lift (py_int (PyStr task_id)) in
            task_service.update_task now now' id data).

(** [DELETE /tasks/<task_id>]: the body is the value of ["deleted"]. *)
Definition delete_task (now now' now'' : datetime) (task_id : string)
  : database -> response bool * database :=
  dispatch (let* id := lift (py_int (PyStr task_id)) in
            task_service.delete_task now now' now'' id).

End tasks_routes.

(** ** [app.py] *)

(** [GET /] *)
Definition index : dict := [("message", PyStr "TaskFlow API - Legacy Version")].

(** [GET /health] *)
Definition health : dict := [("status", PyStr "ok")].

(** ** Well-formed [tasks] tables

    What every write of the repository and the seed of [init_db] maintain:
    a row has the ten columns, a positive integer rowid and a text title;
    every value has the storage class its column's affinity gives it; the
    four timestamp columns hold NULL or a text that [fromisoformat] reads;
    rowids grow along the table. *)

Definition stamp_ok (v : sqlval) : bool :=
  match v with
  | SNull => true
  | SText s => match fromisoformat s with Some _ => true | None => false end
  | SInt _ => false
  end.

Definition text_ok (v : sqlval) : bool :=
  match v with SInt _ => false | _ => true end.

Definition integer_ok (v : sqlval) : bool :=
  match v with
  | SText s => match parse_int s with Some _ => false | None => true end
  | _ => true
  end.

Definition wf_task_row (r : row) : bool :=
  match r with
  | [SInt i; SText _; de; st; pr; du; ui; cr; up; dl] =>
      text_ok de && text_ok st && text_ok pr && stamp_ok du && integer_ok ui
      && stamp_ok cr && stamp_ok up && stamp_ok dl
  | _ => false
  end.

Fixpoint ascending (prev : Z) (rows : list row) : bool :=
  match rows with
  | [] => true
  | r :: rows' => (prev <? rowid r) && ascending (rowid r) rows'
  end.

Definition wf_tasks (t : table) : bool :=
  forallb wf_task_row (t_rows t) && ascending 0 (t_rows t).

(** A stored timestamp as [isoformat] writes it. *)
Definition reformat (v : sqlval) : sqlval :=
  match v with
  | SText s =>
      match fromisoformat s with
      | Some d => SText (isoformat d)
      | None => v
      end
  | _ => v
  end.

(** The value of a stored timestamp, as [_from_row] reads it. *)
Definition stamp_value (v : sqlval) : option datetime :=
  match v with
  | SText s => fromisoformat s
  | _ => None
  end.

(** The row with rowid [n] that is not soft-deleted, if there is one. *)
Definition live_row (n : Z) (r : row) : bool :=
  is_true (sql_eq (get_column tasks_schema r "id") (SInt n))
  && sql_is_null (get_column tasks_schema r "deleted_at").

Definition is_live (r : row) : bool :=
  sql_is_null (get_column tasks_schema r "deleted_at").

(** ** Tasks with fields of their declared types

    The title is text; description, status and priority are text or [None];
    the due date is [None] or a datetime; the owner is [None] or an integer;
    the creation time is a datetime.  A datetime object is always a valid
    date and time. *)

Definition text_or_none (v : pyval) : bool :=
  match v with PyStr _ | PyNone => true | _ => false end.

Definition int_or_none (v : pyval) : bool :=
  match v with PyInt _ | PyNone => true | _ => false end.

Definition datetime_or_none (v : pyval) : bool :=
  match v with
  | PyNone => true
  | PyDatetime d => valid_datetime d
  | _ => false
  end.

Definition is_text (v : pyval) : bool :=
  match v with PyStr _ => true | _ => false end.

Definition is_datetime (v : pyval) : bool :=
  match v with PyDatetime d => valid_datetime d | _ => false end.

Definition well_typed_task (t : Task.t) : bool :=
  is_text (Task.title t) && text_or_none (Task.description t)
  && text_or_none (Task.status t) && text_or_none (Task.priority t)
  && datetime_or_none (Task.due_date t) && int_or_none (Task.user_id t)
  && is_datetime (Task.created_at t).

(** A stored timestamp as [_from_row] hands it to the entity. *)
Definition read_stamp (v : sqlval) : pyval :=
  match stamp_value v with
  | Some d => PyDatetime d
  | None => PyNone
  end.

(** A task row after an update of the status alone at time [now]: status and
    [updated_at] are replaced, the due date is written again by
    [isoformat], every other column keeps its value. *)
Definition updated_row (now : datetime) (status : string) (r : row) : row :=
  match r with
  | [i; ti; de; _; pr; du; ui; cr; _; dl] =>
      [i; ti; de; SText status; pr; reformat du; ui; cr; SText (isoformat now); dl]
  | _ => r
  end.

(** A payload that holds a status string and nothing else the update
    reads. *)
Definition only_status (data : dict) (status : string) : Prop :=
  dict_get data "status" = Some (PyStr status) /\
  dict_get data "title" = None /\
  dict_get data "description" = None /\
  dict_get data "priority" = None /\
  dict_get data "due_date" = None /\
  dict_get data "user_id" = None.

Definition column_values (col : string) (t : table) : list sqlval :=
  map (fun r => get_column tasks_schema r col) (t_rows t).

(** The rowid that AUTOINCREMENT gives to the next task. *)
Definition next_task_id (db : database) : Z :=
  Z.max (t_seq (tasks db)) (max_rowid (t_rows (tasks db))) + 1.

(** The row that [Task.save] inserts for a task whose due date has been
    rendered as [due] and whose creation time is [c]. *)
Definition inserted_row (now : datetime) (t : Task.t) (due : pyval)
    (c : datetime) (id : Z) : row :=
  [SInt id;
   apply_affinity AffText (bind_param (Task.title t));
   apply_affinity AffText (bind_param (Task.description t));
   apply_affinity AffText (bind_param (Task.status t));
   apply_affinity AffText (bind_param (Task.priority t));
   apply_affinity AffText (bind_param due);
   apply_affinity AffInteger (bind_param (Task.user_id t));
   SText (isoformat c);
   SText (isoformat now);
   SNull].

(** The tokens of the decimal text of an integer. *)
Definition int_tokens (n : Z) : list token :=
  if n <? 0 then [TSym "-"; TInt (- n)] else [TInt n].

(** A text without a single quote: interpolated between quotes it stays
    inside the string literal. *)
Definition no_quote (s : string) : bool := negb (existsb is_quote (chars s)).

(** The filters of [find_all] under which interpolation is harmless: the
    owner is absent or an integer, the status is absent or a text without a
    single quote. *)
Definition safe_owner (v : pyval) : bool :=
  match v with PyNone | PyInt _ => true | _ => false end.

Definition safe_status (v : pyval) : bool :=
  match v with
  | PyNone => true
  | PyStr s => no_quote s
  | _ => false
  end.

(** The rows that an equality filter on [col] keeps: all of them when the
    value is falsy, else those whose column equals the value. *)
Definition filter_matches (col : string) (v : pyval) (r : row) : bool :=
  if truthy v then is_true (sql_eq (get_column tasks_schema r col) (bind_param v))
  else true.

(** A task row after [Task.delete] at time [now] of the task with rowid
    [n]: the rows with that rowid take the deletion time. *)
Definition mark_deleted (now : datetime) (n : Z) (r : row) : row :=
  if is_true (sql_eq (get_column tasks_schema r "id") (SInt n))
  then set_columns tasks_schema [("deleted_at", SText (isoformat now))] r
  else r.

(** The keys of [User.to_dict]. *)
Definition user_keys : list string :=
  ["id"; "username"; "email"; "first_name"; "last_name"; "is_active";
   "created_at"; "updated_at"; "last_login"].

(** A clock reading and a seeded database for the instances below. *)
Definition example_now : datetime := mkDatetime 2025 11 3 12 0 0 0.
Definition example_later : datetime := mkDatetime 2025 11 3 12 0 1 250.
Definition example_db : database := seed_db "2025-11-01 08:00:00".

(** The first seeded task, ["Fix login bug"]. *)
Definition example_row : row := nth 0 (t_rows (tasks example_db)) [].

(** The seeded database after [delete_task(2)]. *)
Definition example_db_deleted : database :=
  snd (task_service.delete_task example_now example_later example_later
         (PyInt 2) example_db).

(** A filter value that closes the string literal it is interpolated in. *)
Definition injection : string := "' OR '1'='1".

(** ** Rows of the [users] table *)

(** The rowid that AUTOINCREMENT gives to the next user. *)
Definition next_user_id (db : database) : Z :=
  Z.max (t_seq (users db)) (max_rowid (t_rows (users db))) + 1.

(** The row that [User.save] inserts for a user created at [c]. *)
Definition inserted_user_row (now : datetime) (u : User.t) (c : datetime)
    (id : Z) : row :=
  [SInt id;
   apply_affinity AffText (bind_param (User.username u));
   apply_affinity AffText (bind_param (User.email u));
   apply_affinity AffText (bind_param (User.password_hash u));
   apply_affinity AffText (bind_param (User.first_name u));
   apply_affinity AffText (bind_param (User.last_name u));
   User.active_flag u;
   SText (isoformat c);
   SText (isoformat now);
   SNull;
   apply_affinity AffText (bind_param (User.api_key u))].

(** The user rows with rowid [n], and those whose column [col] is the text
    [s]. *)
Definition user_has_id (n : Z) (r : row) : bool :=
  is_true (sql_eq (get_column users_schema r "id") (SInt n)).

Definition user_matches (col s : string) (r : row) : bool :=
  is_true (sql_eq (get_column users_schema r col) (SText s)).

(** An ASCII letter: no decimal numeral holds one. *)
Definition is_letter (c : ascii) : bool :=
  (((65 <=? code c) && (code c <=? 90)) || ((97 <=? code c) && (code c <=? 122)))%N.

(** The payload keys that [TaskCreate] and [TaskUpdate] name. *)
Definition task_fields : list string :=
  ["title"; "description"; "status"; "priority"; "due_date"; "user_id"].

(** A [users] row with its eleven columns whose three timestamps are NULL
    or a text that [fromisoformat] reads. *)
Definition user_row_ok (r : row) : bool :=
  match r with
  | [_; _; _; _; _; _; _; cr; up; lo; _] =>
      stamp_ok cr && stamp_ok up && stamp_ok lo
  | _ => false
  end.

(** ** Values inside the model's reach

    The [sqlite3] driver binds a Python integer as a signed 64-bit value and
    raises [OverflowError] for any other, and SQLite has no row id beyond
    [2^63 - 1]; the driver refuses a statement text that holds a NUL
    character; [len] and [strip] count and classify characters, which are
    the bytes of the embedding for ASCII text only.  The embedding keeps
    integers unbounded and text as bytes, so the statements about writes,
    interpolated values and validation are made for the values below. *)
Definition in_int64 (v : pyval) : bool :=
  match v with
  | PyInt z => (- 2 ^ 63 <=? z) && (z <? 2 ^ 63)
  | _ => true
  end.

(** The values that [Task.save] binds, and the id it updates by. *)
Definition task_in_range (t : Task.t) : bool :=
  in_int64 (Task.id t) && in_int64 (Task.title t)
  && in_int64 (Task.description t) && in_int64 (Task.status t)
  && in_int64 (Task.priority t) && in_int64 (Task.user_id t).

(** The payload values under [keys], an absent one read as [None]. *)
Definition fields_in_range (keys : list string) (data : dict) : bool :=
  forallb (fun k => in_int64 (dict_get_none data k)) keys.

(** The payload keys whose values [User.save] binds. *)
Definition user_fields : list string :=
  ["username"; "email"; "first_name"; "last_name"].

Definition no_nul (s : string) : bool :=
  forallb (fun c => negb (code c =? 0)%N) (chars s).

Definition nul_free (v : pyval) : bool :=
  match v with
  | PyStr s => no_nul s
  | _ => true
  end.

Definition ascii_text (v : pyval) : bool :=
  match v with
  | PyStr s => forallb (fun c => (code c <? 128)%N) (chars s)
  | _ => true
  end.

(** The strings of one length, for counting digests: every character, and
    every string of [n] characters. *)
Definition all_ascii : list ascii := map ascii_of_nat (seq 0 256).

Fixpoint all_strings (n : nat) : list string :=
  match n with
  | O => [EmptyString]
  | S n' => flat_map (fun c => map (String c) (all_strings n')) all_ascii
  end.

(** [k] times the letter [a]. *)
Fixpoint unary (k : nat) : string :=
  match k with
  | O => EmptyString
  | S k' => String "a" (unary k')
  end.

(** A digest that keeps the first 64 characters of its input, padded with
    zeros: 64 characters like a SHA-256 [hexdigest], with collisions in
    plain sight. *)
Definition prefix_digest (s : string) : string :=
  text (firstn 64 (chars s ++ repeat "0"%char 64)).

(** What identifies a listed task and what [find_all] filters on: the id,
    the title, the owner and the status, of an entity and of a stored row. *)
Definition task_key (t : Task.t) : pyval * pyval * pyval * pyval :=
  (Task.id t, Task.title t, Task.user_id t, Task.status t).

Definition row_key (r : row) : pyval * pyval * pyval * pyval :=
  (PyInt (rowid r),
   py_of_sql (get_column tasks_schema r "title"),
   py_of_sql (get_column tasks_schema r "user_id"),
   py_of_sql (get_column tasks_schema r "status")).

(** * Properties *)

(** ** Strings and digits *)

Lemma chars_app (a b : string) : chars (a ++ b) = chars a ++ chars b.
Proof.
  unfold chars. induction a as [|c a IH]; simpl; [reflexivity|].
  now rewrite IH.
Qed.

Lemma chars_text (l : list ascii) : chars (text l) = l.
Proof. apply list_ascii_of_string_of_list_ascii. Qed.

Lemma text_chars (s : string) : text (chars s) = s.
Proof. apply string_of_list_ascii_of_string. Qed.

Lemma text_app (a b : list ascii) : text (a ++ b) = (text a ++ text b)%string.
Proof.
  unfold text. induction a as [|c a IH]; simpl; [reflexivity|].
  now rewrite IH.
Qed.

Lemma small_cases (k : Z) :
  0 <= k < 10 ->
  k = 0 \/ k = 1 \/ k = 2 \/ k = 3 \/ k = 4 \/
  k = 5 \/ k = 6 \/ k = 7 \/ k = 8 \/ k = 9.
Proof. lia. Qed.

Ltac each_digit k H :=
  destruct (small_cases k H) as [->|[->|[->|[->|[->|[->|[->|[->|[->| ->]]]]]]]]].

Lemma is_digit_digit_char (k : Z) : 0 <= k < 10 -> is_digit (digit_char k) = true.
Proof. intros H. each_digit k H; reflexivity. Qed.

Lemma digit_val_digit_char (k : Z) : 0 <= k < 10 -> digit_val (digit_char k) = k.
Proof. intros H. each_digit k H; reflexivity. Qed.

Lemma digit_char_plain (k : Z) :
  is_alpha (digit_char k) = false /\ is_quote (digit_char k) = false
  /\ is_colon (digit_char k) = false.
Proof.
  destruct k as [|p|p]; try (repeat split; reflexivity);
    do 4 (try destruct p as [p|p|]; try (repeat split; reflexivity)).
Qed.

Lemma show_digits_acc (fuel : nat) :
  forall n acc, show_digits fuel n acc = show_digits fuel n [] ++ acc.
Proof.
  induction fuel as [|f IH]; intros n acc; simpl; [reflexivity|].
  destruct (n <? 10); [reflexivity|].
  rewrite (IH (n / 10) (_ :: acc)), (IH (n / 10) [_]), <- app_assoc.
  reflexivity.
Qed.

Lemma mod10_range (n : Z) : 0 <= n mod 10 < 10.
Proof. apply Z.mod_pos_bound. lia. Qed.

Lemma lex_run_app (a b : list ascii) :
  forall m out,
    lex_run m out (a ++ b) =
    match lex_run m out a with
    | Some (m', out') => lex_run m' out' b
    | None => None
    end.
Proof.
  induction a as [|c a IH]; intros m out; simpl; [reflexivity|].
  destruct (lex_step m c) as [[m' ts]|]; [apply IH|reflexivity].
Qed.

(** Reading the decimal text of [n] from between tokens leaves the lexer in
    the middle of the number [n]. *)
Lemma lex_run_show_digits (fuel : nat) :
  forall n out,
    (0 < fuel)%nat ->
    0 <= n < 2 ^ Z.of_nat fuel ->
    lex_run LIdle out (show_digits fuel n []) = Some (LNum n, out).
Proof.
  induction fuel as [|f IH]; intros n out Hf Hn; [lia|].
  rewrite Nat2Z.inj_succ, Z.pow_succ_r in Hn by lia.
  simpl. destruct (Z.ltb_spec n 10) as [Hlt|Hge].
  - simpl. unfold idle_step.
    assert (Hd : 0 <= n < 10) by lia.
    each_digit n Hd; reflexivity.
  - rewrite show_digits_acc.
    assert (Hq : 0 <= n / 10 < 2 ^ Z.of_nat f).
    { split; [apply Z.div_pos; lia|].
      apply Z.div_lt_upper_bound; lia. }
    assert (Hf' : (0 < f)%nat).
    { destruct f; [|lia]. simpl in Hq.
      assert (1 <= n / 10) by (apply Z.div_le_lower_bound; lia). lia. }
    rewrite lex_run_app, (IH (n / 10) out Hf' Hq). simpl.
    rewrite (is_digit_digit_char _ (mod10_range n)),
            (digit_val_digit_char _ (mod10_range n)).
    simpl. do 3 f_equal.
    pose proof (Z.div_mod n 10). lia.
Qed.

Lemma lex_run_show_nonneg (n : Z) (out : list token) :
  0 <= n -> lex_run LIdle out (show_nonneg n) = Some (LNum n, out).
Proof.
  intros Hn. apply lex_run_show_digits; [lia|].
  rewrite Nat2Z.inj_succ, Z2Nat.id by apply Z.log2_nonneg.
  destruct (Z.eq_dec n 0) as [->|Hz]; [simpl; lia|].
  split; [lia|]. apply Z.log2_spec. lia.
Qed.

(** ** Statements that interpolate an integer *)

Lemma lex_run_show_Z (n : Z) (out : list token) :
  lex_run LIdle out (chars (show_Z n))
  = Some (LNum (Z.abs n), (if n <? 0 then [TSym "-"%char] else []) ++ out).
Proof.
  unfold show_Z. destruct (Z.ltb_spec n 0) as [Hneg|Hpos].
  - change (chars (String "-" (text (show_nonneg (- n)))))
      with ("-"%char :: chars (text (show_nonneg (- n)))).
    rewrite chars_text. cbn [lex_run lex_step].
    change (idle_step "-") with (Some (LIdle, [TSym "-"%char])). cbv iota beta.
    rewrite lex_run_show_nonneg by lia. now rewrite Z.abs_neq by lia.
  - rewrite chars_text, lex_run_show_nonneg by lia. now rewrite Z.abs_eq by lia.
Qed.

Lemma int_tokens_abs (n : Z) :
  rev (if n <? 0 then [TSym "-"%char] else []) ++ [TInt (Z.abs n)] = int_tokens n.
Proof.
  unfold int_tokens. destruct (Z.ltb_spec n 0).
  - now rewrite Z.abs_neq by lia.
  - now rewrite Z.abs_eq by lia.
Qed.

Lemma parse_operand_int (n : Z) (r : list token) :
  parse_operand (int_tokens n ++ r) = Some (OInt n, r).
Proof.
  unfold int_tokens. destruct (n <? 0); cbn; [|reflexivity].
  now rewrite Z.opp_involutive.
Qed.

Lemma tokenize_find_by_id (n : Z) :
  tokenize (Task.find_by_id_query (PyInt n)) =
  Some ([TWord "select"; TSym "*"; TWord "from"; TWord "tasks"; TWord "where";
         TWord "id"; TSym "="]
        ++ int_tokens n
        ++ [TWord "and"; TWord "deleted_at"; TWord "is"; TWord "null"]).
Proof.
  unfold tokenize, Task.find_by_id_query, py_str.
  rewrite !chars_app, !lex_run_app.
  replace (lex_run LIdle [] (chars "SELECT * FROM tasks WHERE id = "))
    with (Some (LIdle, [TSym "="%char; TWord "id"; TWord "where"; TWord "tasks";
                        TWord "from"; TSym "*"%char; TWord "select"]))
    by (vm_compute; reflexivity).
  rewrite lex_run_app, lex_run_show_Z.
  rewrite <- int_tokens_abs.
  destruct (n <? 0); reflexivity.
Qed.

Lemma parse_find_by_id (n : Z) :
  parse ([TWord "select"; TSym "*"; TWord "from"; TWord "tasks"; TWord "where";
          TWord "id"; TSym "="]
         ++ int_tokens n
         ++ [TWord "and"; TWord "deleted_at"; TWord "is"; TWord "null"])
  = Some (Select "tasks"
            (Some [[AEq (OCol "id") (OInt n); AIsNull (OCol "deleted_at")]])
            None).
Proof.
  unfold int_tokens. destruct (n <? 0); cbn; [|reflexivity].
  now rewrite Z.opp_involutive.
Qed.

Lemma selected_live_row (n : Z) (r : row) :
  selected tasks_schema
    (Some [[AEq (OCol "id") (OInt n); AIsNull (OCol "deleted_at")]]) r
  = live_row n r.
Proof.
  unfold selected, live_row, eval_condition, eval_atom, eval_operand. simpl.
  destruct (sql_eq _ _), (sql_is_null _); reflexivity.
Qed.

(** The lookup of [Task.find_by_id] for an integer: the rows with that
    rowid that are not soft-deleted, and no change. *)
Lemma execute_find_by_id (n : Z) (db : database) :
  execute (Task.find_by_id_query (PyInt n)) db
  = (Returns (filter (live_row n) (t_rows (tasks db))), db).
Proof.
  unfold execute. rewrite tokenize_find_by_id, parse_find_by_id.
  cbn -[filter selected].
  do 2 f_equal. apply filter_ext. intros r. apply selected_live_row.
Qed.

(** ** [isoformat] and [fromisoformat] *)

Lemma read_pad2 (n : Z) : 0 <= n < 100 -> read_digits 0 (pad2 n) = Some n.
Proof.
  intros Hn. unfold pad2, read_digits.
  rewrite !is_digit_digit_char, !digit_val_digit_char
    by (apply Z.mod_pos_bound; lia).
  f_equal. Z.to_euclidean_division_equations; lia.
Qed.

Lemma read_pad4 (n : Z) : 0 <= n < 10000 -> read_digits 0 (pad4 n) = Some n.
Proof.
  intros Hn. unfold pad4, read_digits.
  rewrite !is_digit_digit_char, !digit_val_digit_char
    by (apply Z.mod_pos_bound; lia).
  f_equal. Z.to_euclidean_division_equations; lia.
Qed.

Lemma read_pad6 (n : Z) : 0 <= n < 1000000 -> read_digits 0 (pad6 n) = Some n.
Proof.
  intros Hn. unfold pad6, read_digits.
  rewrite !is_digit_digit_char, !digit_val_digit_char
    by (apply Z.mod_pos_bound; lia).
  f_equal. Z.to_euclidean_division_equations; lia.
Qed.

Lemma days_in_month_le (y m : Z) : days_in_month y m <= 31.
Proof.
  unfold days_in_month.
  destruct m as [|p|p]; try lia.
  do 4 (try destruct p as [p|p|]; try lia); destruct (is_leap y); lia.
Qed.

Lemma in_range_spec (lo x hi : Z) : in_range lo x hi = true <-> lo <= x <= hi.
Proof. unfold in_range. rewrite andb_true_iff, !Z.leb_le. tauto. Qed.

Lemma valid_datetime_ranges (d : datetime) :
  valid_datetime d = true ->
  0 <= year d < 10000 /\ 0 <= month d < 100 /\ 0 <= day d < 100 /\
  0 <= hour d < 100 /\ 0 <= minute d < 100 /\ 0 <= second d < 100 /\
  0 <= microsecond d < 1000000.
Proof.
  unfold valid_datetime. rewrite !andb_true_iff, !in_range_spec.
  pose proof (days_in_month_le (year d) (month d)). lia.
Qed.

(** Whatever the separator, [fromisoformat] reads back what [isoformat]
    wrote. *)
Lemma fromisoformat_isoformat_sep (sep : ascii) (d : datetime) :
  valid_datetime d = true ->
  fromisoformat (isoformat_sep sep d) = Some d.
Proof.
  intros Hv. destruct (valid_datetime_ranges d Hv) as (Hy & Hm & Hd & Hh & Hi & Hs & Hu).
  pose proof (read_pad4 _ Hy) as Ey. pose proof (read_pad2 _ Hm) as Em.
  pose proof (read_pad2 _ Hd) as Ed. pose proof (read_pad2 _ Hh) as Eh.
  pose proof (read_pad2 _ Hi) as Ei. pose proof (read_pad2 _ Hs) as Es.
  pose proof (read_pad6 _ Hu) as Eu.
  unfold fromisoformat, isoformat_sep. rewrite chars_text.
  unfold pad4, pad2, pad6 in *. cbn [app].
  change (is_char "-" "-") with true. cbn [andb].
  rewrite Ey, Em, Ed. unfold parse_time.
  change (is_char ":" ":") with true. cbn [andb].
  rewrite Eh, Ei, Es.
  destruct d as [y mo dd h mi s us]; cbn [year month day hour minute second microsecond] in *.
  destruct (Z.eqb_spec us 0) as [->|Hne].
  - unfold checked. now rewrite Hv.
  - change (is_char "." ".") with true. cbv iota. rewrite Eu.
    unfold checked. now rewrite Hv.
Qed.

Lemma fromisoformat_isoformat (d : datetime) :
  valid_datetime d = true -> fromisoformat (isoformat d) = Some d.
Proof. apply fromisoformat_isoformat_sep. Qed.

Lemma fromisoformat_valid (s : string) (d : datetime) :
  fromisoformat s = Some d -> valid_datetime d = true.
Proof.
  unfold fromisoformat, parse_time, checked. intros H.
  repeat match type of H with
         | match ?x with _ => _ end = _ => destruct x eqn:?; try discriminate
         | (if ?x then _ else _) = _ => destruct x eqn:?; try discriminate
         end; injection H as <-; assumption.
Qed.

Lemma isoformat_nonempty (d : datetime) : truthy (PyStr (isoformat d)) = true.
Proof. reflexivity. Qed.

(** ** Passwords *)

Lemma hex_char_plain (k : Z) : is_colon (hex_char k) = false.
Proof.
  destruct k as [|p|p]; try reflexivity;
    do 4 (try destruct p as [p|p|]; try reflexivity).
Qed.

Lemma hexlify_no_colon (bs : list Byte.byte) :
  existsb is_colon (hexlify bs) = false.
Proof.
  induction bs as [|b bs IH]; simpl; [reflexivity|].
  now rewrite !hex_char_plain, IH.
Qed.

Lemma split_colon_app (a b : list ascii) :
  existsb is_colon a = false ->
  split_colon (a ++ ":"%char :: b) = Some (a, b).
Proof.
  induction a as [|c a IH]; simpl; intros H; [reflexivity|].
  apply orb_false_iff in H as [Hc Ha].
  now rewrite Hc, (IH Ha).
Qed.

Lemma split_colon_none (cs : list ascii) :
  existsb is_colon cs = false -> split_colon cs = None.
Proof.
  induction cs as [|c cs IH]; simpl; intros H; [reflexivity|].
  apply orb_false_iff in H as [Hc Ha].
  now rewrite Hc, (IH Ha).
Qed.

Lemma existsb_colon_app (a b : list ascii) :
  existsb is_colon (a ++ ":"%char :: b) = true.
Proof.
  rewrite existsb_app. simpl. apply orb_true_r.
Qed.

Lemma append_inv_tail (a b c : string) : (a ++ c)%string = (b ++ c)%string -> a = b.
Proof.
  intros H. apply (f_equal chars) in H. rewrite !chars_app in H.
  apply app_inv_tail in H. apply (f_equal text) in H.
  now rewrite !text_chars in H.
Qed.

Lemma append_nonempty (a b : string) :
  String.eqb (a ++ ":" ++ b) "" = false.
Proof. destruct a; reflexivity. Qed.

(** [check_password] on a hash that [set_password] stored with the salt
    [salt]: the digest of the candidate and the salt is compared with the
    stored digest. *)
Lemma check_stored (sha256 : string -> string) (u : User.t)
    (salt : list ascii) (h q : string) :
  existsb is_colon salt = false ->
  User.check_password sha256
    (User.set_password_hash u (PyStr (text salt ++ ":" ++ h))) (PyStr q)
  = Returns (String.eqb (sha256 (q ++ text salt)%string) h).
Proof.
  intros Hs. unfold User.check_password. cbn [User.password_hash User.set_password_hash].
  unfold truthy. rewrite append_nonempty. cbn [negb].
  unfold has_colon. rewrite chars_app, chars_text.
  change (chars (":" ++ h)) with (":"%char :: chars h).
  rewrite existsb_colon_app. cbn [negb].
  rewrite (split_colon_app _ _ Hs). cbn [py_add_str obind].
  now rewrite text_chars.
Qed.

(** ** Digests of one length collide *)

Lemma in_all_ascii (a : ascii) : In a all_ascii.
Proof.
  unfold all_ascii. rewrite <- (ascii_nat_embedding a). apply in_map.
  apply in_seq. pose proof (nat_ascii_bounded a). lia.
Qed.

Lemma in_all_strings (s : string) : In s (all_strings (String.length s)).
Proof.
  induction s as [|c s IH]; [now left|].
  cbn [String.length all_strings].
  apply in_flat_map. exists c. split; [apply in_all_ascii|]. now apply in_map.
Qed.

Lemma unary_length (k : nat) : String.length (unary k) = k.
Proof. induction k as [|k IH]; simpl; congruence. Qed.

Lemma unary_injective (j k : nat) : unary j = unary k -> j = k.
Proof.
  intros H. apply (f_equal String.length) in H. now rewrite !unary_length in H.
Qed.

(** No function from the strings to the strings of one length is
    injective: there are more strings [a], [aa], ... than strings of that
    length. *)
Lemma fixed_length_collides (n : nat) (g : string -> string) :
  (forall s, String.length (g s) = n) ->
  ~ (forall p q, g p = g q -> p = q).
Proof.
  intros Hlen Hinj.
  set (inputs := map unary (seq 0 (S (List.length (all_strings n))))).
  assert (Hin : NoDup inputs).
  { apply NoDup_map_NoDup_ForallPairs; [|apply seq_NoDup].
    intros j k _ _. apply unary_injective. }
  assert (Hnd : NoDup (map g inputs)).
  { apply NoDup_map_NoDup_ForallPairs; [|exact Hin].
    intros x y _ _. apply Hinj. }
  assert (Hincl : incl (map g inputs) (all_strings n)).
  { intros x Hx. apply in_map_iff in Hx as (y & <- & _).
    rewrite <- (Hlen y). apply in_all_strings. }
  pose proof (NoDup_incl_length Hnd Hincl) as Hle.
  unfold inputs in Hle. rewrite !length_map, length_seq in Hle. lia.
Qed.

(** ** Passwords *)

(** C1, as the code has it.  After [set_password(p)], [check_password(p)]
    is true; [check_password(q)] compares the digest of [q] and the stored
    salt with the stored digest, so it is false for every [q] whose salted
    digest differs from that of [p]; and [check_password] is false,
    whatever the candidate, when the stored hash is the empty string or
    holds no colon. *)
Theorem check_password_after_set_password :
  forall (sha256 : string -> string) (rng : nat -> Byte.byte) (u : User.t)
         (p : string),
  exists u',
    User.set_password sha256 rng u (PyStr p) = Returns u' /\
    User.check_password sha256 u' (PyStr p) = Returns true /\
    (forall q,
        User.check_password sha256 u' (PyStr q)
        = Returns (String.eqb (sha256 (q ++ token_hex 16 rng)%string)
                              (sha256 (p ++ token_hex 16 rng)%string))) /\
    (forall q,
        sha256 (q ++ token_hex 16 rng)%string
        <> sha256 (p ++ token_hex 16 rng)%string ->
        User.check_password sha256 u' (PyStr q) = Returns false) /\
    (forall (v : User.t) (x : pyval) (s : string),
        User.password_hash v = PyStr s ->
        s = "" \/ has_colon s = false ->
        User.check_password sha256 v x = Returns false).
Proof.
  intros sha256 rng u p. eexists. split; [reflexivity|].
  unfold token_hex.
  pose proof (hexlify_no_colon (map rng (seq 0 16))) as Hs.
  split; [|split; [|split]].
  - rewrite (check_stored sha256 u _ _ p Hs). now rewrite String.eqb_refl.
  - intros q. exact (check_stored sha256 u _ _ q Hs).
  - intros q Hq. rewrite (check_stored sha256 u _ _ q Hs). f_equal.
    now apply String.eqb_neq.
  - intros v x s Hv [->|Hc]; unfold User.check_password; rewrite Hv.
    + reflexivity.
    + unfold truthy. destruct (String.eqb s ""); cbn [negb]; [reflexivity|].
      now rewrite Hc.
Qed.

(** An instance of the statement: the digest keeps a prefix of its input,
    the random source delivers zero bytes. *)
Lemma check_password_after_set_password_witness :
  exists u',
    User.set_password prefix_digest (fun _ => Byte.x00)
      (User.new example_now) (PyStr "secret") = Returns u' /\
    User.check_password prefix_digest u' (PyStr "secret") = Returns true /\
    User.check_password prefix_digest u' (PyStr "Secret") = Returns false.
Proof.
  destruct (check_password_after_set_password prefix_digest (fun _ => Byte.x00)
              (User.new example_now) "secret") as (u' & H1 & H2 & _ & H4 & _).
  exists u'. split; [exact H1|]. split; [exact H2|].
  apply H4. vm_compute. discriminate.
Defined.

(** C1 as stated fails.  With a digest of 64 characters that keeps a prefix
    of its input, a second plaintext is accepted; and no digest whose output
    always has 64 characters, as a SHA-256 [hexdigest] has, rejects every
    plaintext other than the one that was set. *)
Lemma check_password_accepts_a_collision :
  (exists u',
      User.set_password prefix_digest (fun _ => Byte.x00) (User.new example_now)
        (PyStr (unary 64)) = Returns u' /\
      (unary 64 ++ "b")%string <> unary 64 /\
      User.check_password prefix_digest u' (PyStr (unary 64 ++ "b")%string)
      = Returns true) /\
  ~ (exists sha256 : string -> string,
        (forall s, String.length (sha256 s) = 64%nat) /\
        forall (rng : nat -> Byte.byte) (u u' : User.t) (p q : string),
          User.set_password sha256 rng u (PyStr p) = Returns u' ->
          q <> p ->
          User.check_password sha256 u' (PyStr q) = Returns false).
Proof.
  split.
  - eexists. split; [reflexivity|]. split; [vm_compute; discriminate|].
    vm_compute. reflexivity.
  - intros (sha256 & Hlen & Hclaim).
    set (rng := fun _ : nat => Byte.x00).
    set (salt := hexlify (map rng (seq 0 16))).
    apply (fixed_length_collides 64 (fun p => sha256 (p ++ text salt)%string));
      [intros s; apply Hlen|].
    intros p q E.
    destruct (string_dec p q) as [|Hne]; [assumption|]. exfalso.
    pose proof (Hclaim rng (User.new example_now) _ q p eq_refl Hne) as H.
    unfold User.set_password, token_hex in H. cbn [py_add_str obind] in H.
    fold salt in H.
    rewrite (check_stored sha256 (User.new example_now) salt _ p
               (hexlify_no_colon _)) in H.
    rewrite E, String.eqb_refl in H. discriminate.
Qed.

(** ** Inversion of the monads *)

Lemma obind_returns {A B : Type} (m : outcome A) (k : A -> outcome B) (b : B) :
  obind m k = Returns b -> exists a, m = Returns a /\ k a = Returns b.
Proof. destruct m as [a|e]; simpl; intros H; [eauto|discriminate]. Qed.

Lemma bind_returns {A B : Type} (m : io A) (k : A -> io B)
    (db db' : database) (b : B) :
  bind m k db = (Returns b, db') ->
  exists a db1, m db = (Returns a, db1) /\ k a db1 = (Returns b, db').
Proof.
  unfold bind. destruct (m db) as [[a|e] db1]; intros H; [eauto|discriminate].
Qed.

Lemma lift_returns {A : Type} (m : outcome A) (db db' : database) (a : A) :
  lift m db = (Returns a, db') -> m = Returns a /\ db' = db.
Proof. unfold lift. intros H. injection H as -> ->. auto. Qed.

Lemma ret_returns {A : Type} (x a : A) (db db' : database) :
  ret x db = (Returns a, db') -> x = a /\ db' = db.
Proof. unfold ret. intros H. injection H as -> ->. auto. Qed.

(** ** The external representation of a user *)

Lemma user_to_dict_keys (u : User.t) (d : dict) :
  User.to_dict u = Returns d -> map fst d = user_keys.
Proof.
  unfold User.to_dict. intros H.
  apply obind_returns in H as (c & _ & H).
  apply obind_returns in H as (up & _ & H).
  apply obind_returns in H as (lo & _ & H).
  injection H as <-. reflexivity.
Qed.

Lemma has_key_keys (d : dict) (k : string) :
  existsb (String.eqb k) (map fst d) = false -> has_key d k = false.
Proof.
  unfold has_key. induction d as [|[k' v] d IH]; simpl; intros H; [reflexivity|].
  apply orb_false_iff in H as [Hk Hd]. rewrite String.eqb_sym, Hk. auto.
Qed.

Lemma user_to_dict_hides (u : User.t) (d : dict) :
  User.to_dict u = Returns d ->
  has_key d "api_key" = false /\ has_key d "password_hash" = false.
Proof.
  intros H. apply user_to_dict_keys in H.
  split; apply has_key_keys; rewrite H; reflexivity.
Qed.

Lemma rows_to_dicts_hide (now : datetime) (rows : list row) :
  forall ds, user_service.rows_to_dicts now rows = Returns ds ->
             Forall (fun d => has_key d "api_key" = false) ds.
Proof.
  induction rows as [|r rows IH]; simpl; intros ds H.
  - injection H as <-. constructor.
  - apply obind_returns in H as (u & _ & H).
    apply obind_returns in H as (d & Hd & H).
    apply obind_returns in H as (rest & Hr & H).
    injection H as <-. constructor; [|now apply IH].
    now apply user_to_dict_hides in Hd.
Qed.

(** C9. The external representation of a user has no [api_key] key and no
    [password_hash] key, also once [generate_api_key] has run, and it is
    the only thing that [create_user], [get_user] and [get_users] return. *)
Theorem to_dict_never_exposes_api_key :
  (forall (u : User.t) (d : dict),
      User.to_dict u = Returns d ->
      has_key d "api_key" = false /\ has_key d "password_hash" = false) /\
  (forall (token : string) (u : User.t) (d : dict),
      User.to_dict (fst (User.generate_api_key token u)) = Returns d ->
      has_key d "api_key" = false) /\
  (forall sha256 rng now now' data db d db',
      user_service.create_user sha256 rng now now' data db = (Returns d, db') ->
      has_key d "api_key" = false) /\
  (forall now user_id db d db',
      user_service.get_user now user_id db = (Returns (Some d), db') ->
      has_key d "api_key" = false) /\
  (forall now db ds db',
      user_service.get_users now db = (Returns ds, db') ->
      Forall (fun d => has_key d "api_key" = false) ds).
Proof.
  split; [exact user_to_dict_hides|].
  split; [intros token u d H; now apply user_to_dict_hides in H|].
  split; [|split].
  - intros sha256 rng now now' data db d db' H.
    unfold user_service.create_user in H.
    apply bind_returns in H as (ud & db1 & _ & H).
    apply bind_returns in H as (u1 & db2 & _ & H).
    apply bind_returns in H as (u2 & db3 & _ & H).
    apply lift_returns in H as [H _]. now apply user_to_dict_hides in H.
  - intros now user_id db d db' H.
    unfold user_service.get_user in H.
    apply bind_returns in H as (uid & db1 & _ & H).
    apply bind_returns in H as ([u|] & db2 & _ & H).
    + apply bind_returns in H as (d' & db3 & Hd & H).
      apply ret_returns in H as [H _]. injection H as ->.
      apply lift_returns in Hd as [Hd _]. now apply user_to_dict_hides in Hd.
    + apply ret_returns in H as [H _]. discriminate.
  - intros now db ds db' H.
    unfold user_service.get_users in H.
    apply bind_returns in H as (rows & db1 & _ & H).
    apply lift_returns in H as [H _]. now apply rows_to_dicts_hide in H.
Qed.

(** An instance: a fresh user who has generated an API key. *)
Lemma to_dict_never_exposes_api_key_witness :
  User.api_key (fst (User.generate_api_key "k3y" (User.new example_now)))
  = PyStr "k3y" /\
  has_key
    (match User.to_dict (fst (User.generate_api_key "k3y" (User.new example_now)))
     with Returns d => d | Raises _ => [] end) "api_key" = false.
Proof.
  split; [reflexivity|].
  apply (proj1 (proj2 to_dict_never_exposes_api_key) "k3y" (User.new example_now)).
  reflexivity.
Defined.

(** ** Listing tasks *)

Lemma selected_is_live (r : row) :
  selected tasks_schema (Some [[AIsNull (OCol "deleted_at")]]) r = is_live r.
Proof.
  unfold selected, is_live, eval_condition, eval_atom, eval_operand. simpl.
  destruct (sql_is_null _); reflexivity.
Qed.

(** The statement of [find_all] when no filter is appended. *)
Lemma execute_find_all_unfiltered (db : database) :
  execute "SELECT * FROM tasks WHERE deleted_at IS NULL ORDER BY created_at DESC" db
  = (Returns (order_rows tasks_schema (Some ("created_at", true))
                (filter is_live (t_rows (tasks db)))), db).
Proof.
  unfold execute.
  replace (tokenize "SELECT * FROM tasks WHERE deleted_at IS NULL ORDER BY created_at DESC")
    with (Some [TWord "select"; TSym "*"%char; TWord "from"; TWord "tasks";
                TWord "where"; TWord "deleted_at"; TWord "is"; TWord "null";
                TWord "order"; TWord "by"; TWord "created_at"; TWord "desc"])
    by (vm_compute; reflexivity).
  cbn -[filter selected order_rows].
  do 3 f_equal. apply filter_ext. intros r. apply selected_is_live.
Qed.

Lemma find_all_query_falsy (user_id status : pyval) :
  truthy user_id = false -> truthy status = false ->
  Task.find_all_query user_id status
  = "SELECT * FROM tasks WHERE deleted_at IS NULL ORDER BY created_at DESC".
Proof.
  intros Hu Hs. unfold Task.find_all_query. rewrite Hu, Hs. reflexivity.
Qed.

(** ** Creating tasks *)

Lemma bound_not_null (a : affinity) (v : pyval) :
  v <> PyNone -> sql_is_null (apply_affinity a (bind_param v)) = false.
Proof.
  intros Hv. destruct v as [|b|z|s|d]; try contradiction; destruct a; simpl;
    try reflexivity.
  all: match goal with |- context [parse_int ?x] => destruct (parse_int x) end;
    reflexivity.
Qed.

Lemma rowid_le_max (rows : list row) (r : row) :
  In r rows -> rowid r <= max_rowid rows.
Proof.
  induction rows as [|x rows IH]; simpl; [contradiction|].
  intros [->|H]; [lia|]. specialize (IH H). lia.
Qed.

Lemma max_rowid_nonneg (rows : list row) : 0 <= max_rowid rows.
Proof. induction rows as [|x rows IH]; simpl; lia. Qed.

Lemma next_task_id_fresh (db : database) :
  0 < next_task_id db /\
  forall r, In r (t_rows (tasks db)) -> rowid r < next_task_id db.
Proof.
  unfold next_task_id. pose proof (max_rowid_nonneg (t_rows (tasks db))).
  split; [lia|]. intros r Hr. apply rowid_le_max in Hr. lia.
Qed.

(** [save] of a task without an id inserts one row and sets the id. *)
Lemma save_inserts (now : datetime) (t : Task.t) (db : database)
    (due : pyval) (c : datetime) :
  truthy (Task.id t) = false ->
  isoformat_if (Task.due_date t) = Returns due ->
  Task.created_at t = PyDatetime c ->
  Task.title t <> PyNone ->
  Task.save now t db
  = (Returns (Task.set_id t (PyInt (next_task_id db))),
     mkDb (mkTable (t_rows (tasks db)
                    ++ [inserted_row now t due c (next_task_id db)])
                   (next_task_id db))
          (users db)).
Proof.
  intros Hid Hdue Hc Ht. unfold Task.save. rewrite Hid, Hdue, Hc.
  unfold bind, lift, call_isoformat, insert_row, constraint_failure.
  cbn [not_null_failure tasks_schema assigned String.eqb Ascii.eqb Bool.eqb
       c_name c_aff c_notnull c_unique andb].
  rewrite (bound_not_null AffText _ Ht).
  reflexivity.
Qed.



(** ** Validation is not enforced *)


Lemma append_if_in (b : bool) (msg m : string) (errors : list string) :
  In m errors \/ (b = true /\ m = msg) -> In m (Task.append_if b msg errors).
Proof.
  unfold Task.append_if. intros [H|[-> ->]].
  - destruct b; [apply in_or_app; now left|assumption].
  - apply in_or_app. right. now left.
Qed.

(** What [validate] reports for the three examples of C8: an empty title,
    a title of more than 200 characters, a status outside the
    enumeration. *)
Lemma validate_reports (now : datetime) (t : Task.t) (errors : list string) :
  Task.validate now t = Returns errors ->
  (Task.title t = PyStr "" -> In "Title is required" errors) /\
  (forall s, Task.title t = PyStr s -> 200 < len s ->
             In "Title must be less than 200 characters" errors) /\
  (in_strings (Task.status t)
     ["pending"; "in_progress"; "completed"; "cancelled"] = false ->
   In "Invalid status" errors).
Proof.
  unfold Task.validate. intros H.
  apply obind_returns in H as (b1 & H1 & H).
  apply obind_returns in H as (b2 & H2 & H).
  apply obind_returns in H as (b5 & H5 & H).
  injection H as <-.
  split; [|split].
  - intros Ht. rewrite Ht in H1. cbn in H1. injection H1 as <-.
    do 4 (apply append_if_in; left). apply append_if_in. right. auto.
  - intros s Ht Hlen. rewrite Ht in H2. cbn in H2. injection H2 as <-.
    do 3 (apply append_if_in; left). apply append_if_in. right.
    split; [now apply Z.ltb_lt|reflexivity].
  - intros Hst. rewrite Hst.
    do 2 (apply append_if_in; left). apply append_if_in. right. auto.
Qed.



(** ** Reading back a saved task *)

Lemma text_round_trip (v : pyval) :
  text_or_none v = true ->
  py_of_sql (apply_affinity AffText (bind_param v)) = v.
Proof. destruct v; simpl; intros H; try discriminate; reflexivity. Qed.

Lemma int_round_trip (v : pyval) :
  int_or_none v = true ->
  py_of_sql (apply_affinity AffInteger (bind_param v)) = v.
Proof. destruct v; simpl; intros H; try discriminate; reflexivity. Qed.

Lemma datetime_round_trip (v : pyval) :
  datetime_or_none v = true ->
  exists due,
    isoformat_if v = Returns due /\
    fromisoformat_if (py_of_sql (apply_affinity AffText (bind_param due)))
    = Returns v.
Proof.
  destruct v as [|b|z|s|d]; simpl; intros H; try discriminate.
  - exists PyNone. split; reflexivity.
  - exists (PyStr (isoformat d)). split; [reflexivity|].
    unfold fromisoformat_if. cbn [bind_param apply_affinity py_of_sql].
    rewrite isoformat_nonempty. unfold call_fromisoformat.
    now rewrite (fromisoformat_isoformat d H).
Qed.

Lemma stamp_round_trip (d : datetime) :
  valid_datetime d = true ->
  fromisoformat_if (PyStr (isoformat d)) = Returns (PyDatetime d).
Proof.
  intros H. unfold fromisoformat_if. rewrite isoformat_nonempty.
  unfold call_fromisoformat. now rewrite (fromisoformat_isoformat d H).
Qed.

Lemma live_row_rowid (n : Z) (r : row) : live_row n r = true -> rowid r = n.
Proof.
  unfold live_row. intros H. apply andb_true_iff in H as [H _].
  destruct r as [|v r]; [discriminate|]. cbn in H.
  destruct v as [|z|s]; try discriminate. simpl in *.
  destruct (Z.eqb_spec z n); [assumption|discriminate].
Qed.

Lemma filter_live_row_fresh (n : Z) (rows : list row) :
  (forall r, In r rows -> rowid r < n) -> filter (live_row n) rows = [].
Proof.
  induction rows as [|x rows IH]; simpl; intros H; [reflexivity|].
  destruct (live_row n x) eqn:E.
  - apply live_row_rowid in E. specialize (H x (or_introl eq_refl)). lia.
  - apply IH. intros r Hr. apply H. now right.
Qed.

Lemma live_row_inserted (now : datetime) (t : Task.t) (due : pyval)
    (c : datetime) (id : Z) :
  live_row id (inserted_row now t due c id) = true.
Proof.
  unfold live_row, inserted_row. cbn. now rewrite Z.eqb_refl.
Qed.

(** The task that [_from_row] builds from the row [save] inserted. *)
Lemma from_row_inserted (now now' : datetime) (t : Task.t) (due : pyval)
    (c : datetime) (id : Z) :
  well_typed_task t = true ->
  Task.created_at t = PyDatetime c ->
  isoformat_if (Task.due_date t) = Returns due ->
  valid_datetime now = true ->
  Task._from_row now' (inserted_row now t due c id)
  = Returns (Task.mk (PyInt id) (Task.title t) (Task.description t)
                     (Task.status t) (Task.priority t) (Task.due_date t)
                     (Task.user_id t) (PyDatetime c) (PyDatetime now) PyNone).
Proof.
  intros Hwt Hc Hdue Hnow. unfold well_typed_task in Hwt.
  rewrite !andb_true_iff in Hwt.
  destruct Hwt as ((((((Ht & Hde) & Hst) & Hpr) & Hdu) & Hui) & Hcr).
  rewrite Hc in Hcr. cbn [is_datetime] in Hcr.
  destruct (datetime_round_trip _ Hdu) as (due' & Hdue' & Hback).
  rewrite Hdue in Hdue'. injection Hdue' as <-.
  unfold Task._from_row, inserted_row, item. cbn [nth_error obind].
  rewrite Hback. cbn [obind].
  rewrite !text_round_trip, int_round_trip by
      (assumption || (destruct (Task.title t); try discriminate; reflexivity)).
  cbn [py_of_sql]. rewrite !stamp_round_trip by assumption. cbn [obind].
  reflexivity.
Qed.

(** C4, as the code has it.  A task saved without an id, whose fields
    have the types the entity declares (integers within the 64-bit range of
    the storage), in a table that has row ids left, is found under the id
    that [save] assigned, with the submitted title, description, status,
    priority, due date and owner, and with a creation time. *)
Theorem find_by_id_returns_saved_task :
  forall (now now' : datetime) (t : Task.t) (db : database),
    Task.id t = PyNone ->
    well_typed_task t = true ->
    task_in_range t = true ->
    next_task_id db < 2 ^ 63 ->
    valid_datetime now = true ->
    exists (id : Z) (t' found : Task.t) (db' : database),
      Task.save now t db = (Returns t', db') /\
      Task.id t' = PyInt id /\
      Task.find_by_id now' (PyInt id) db' = (Returns (Some found), db') /\
      Task.id found = PyInt id /\
      Task.title found = Task.title t /\
      Task.description found = Task.description t /\
      Task.status found = Task.status t /\
      Task.priority found = Task.priority t /\
      Task.due_date found = Task.due_date t /\
      Task.user_id found = Task.user_id t /\
      Task.created_at found = Task.created_at t /\
      Task.created_at found <> PyNone.
Proof.
  intros now now' t db Hid Hwt _ _ Hnow.
  assert (Hwt' := Hwt). unfold well_typed_task in Hwt'.
  rewrite !andb_true_iff in Hwt'.
  destruct Hwt' as ((((((Ht & _) & _) & _) & Hdu) & _) & Hcr).
  destruct (Task.created_at t) as [| | | |c] eqn:Hc; try discriminate.
  destruct (datetime_round_trip _ Hdu) as (due & Hdue & _).
  destruct (next_task_id_fresh db) as [Hpos Hfresh].
  assert (Htitle : Task.title t <> PyNone)
    by (destruct (Task.title t); discriminate).
  assert (Hidf : truthy (Task.id t) = false) by (now rewrite Hid).
  pose proof (save_inserts now t db due c Hidf Hdue Hc Htitle) as Hsave.
  exists (next_task_id db). eexists. eexists. eexists.
  split; [exact Hsave|]. split; [reflexivity|]. split.
  - unfold Task.find_by_id, bind.
    rewrite execute_find_by_id. cbn [tasks t_rows].
    rewrite filter_app, (filter_live_row_fresh _ _ Hfresh).
    cbn [filter app]. rewrite live_row_inserted. cbn [fetchone].
    unfold lift. rewrite (from_row_inserted now now' t due c _ Hwt Hc Hdue Hnow).
    reflexivity.
  - cbn [Task.id Task.title Task.description Task.status Task.priority
         Task.due_date Task.user_id Task.created_at].
    repeat split; discriminate.
Qed.

(** An instance: a task with every field given, saved into the seeded
    database. *)
Lemma find_by_id_returns_saved_task_witness :
  exists (id : Z) (t' found : Task.t) (db' : database),
    Task.save example_later
      (Task.init example_now PyNone (PyStr "Write spec") (PyStr "first draft")
         (PyStr "pending") (PyStr "high") (PyDatetime example_later) (PyInt 2)
         PyNone) example_db
    = (Returns t', db') /\
    Task.id t' = PyInt id /\
    Task.find_by_id example_later (PyInt id) db' = (Returns (Some found), db') /\
    Task.id found = PyInt id /\
    Task.title found = PyStr "Write spec" /\
    Task.description found = PyStr "first draft" /\
    Task.status found = PyStr "pending" /\
    Task.priority found = PyStr "high" /\
    Task.due_date found = PyDatetime example_later /\
    Task.user_id found = PyInt 2 /\
    Task.created_at found = PyDatetime example_now /\
    Task.created_at found <> PyNone.
Proof.
  apply (find_by_id_returns_saved_task example_later example_later
           (Task.init example_now PyNone (PyStr "Write spec") (PyStr "first draft")
              (PyStr "pending") (PyStr "high") (PyDatetime example_later) (PyInt 2)
              PyNone) example_db).
  - reflexivity.
  - vm_compute; reflexivity.
  - reflexivity.
  - reflexivity.
  - vm_compute; reflexivity.
Defined.

(** C4 as stated fails for fields of other types: the storage converts a
    value to the affinity of its column.  A task saved with the integer
    status [5] and the text owner ["7"] is found with the text status ["5"]
    and the integer owner [7]. *)
Lemma find_by_id_returns_converted_values :
  exists (t' found : Task.t) (db' : database),
    Task.save example_later
      (Task.init example_now PyNone (PyStr "Write spec") PyNone (PyInt 5)
         (PyStr "high") PyNone (PyStr "7") PyNone) example_db
    = (Returns t', db') /\
    Task.id t' = PyInt 7 /\
    Task.find_by_id example_later (PyInt 7) db' = (Returns (Some found), db') /\
    Task.status found = PyStr "5" /\
    Task.status found <> PyInt 5 /\
    Task.user_id found = PyInt 7 /\
    Task.user_id found <> PyStr "7".
Proof.
  eexists. eexists. eexists.
  split; [vm_compute; reflexivity|].
  split; [reflexivity|].
  split; [vm_compute; reflexivity|].
  repeat split; discriminate.
Qed.

(** ** Well-formed tables *)

Lemma wf_task_row_shape (r : row) :
  wf_task_row r = true ->
  exists i ti de st pr du ui cr up dl,
    r = [SInt i; SText ti; de; st; pr; du; ui; cr; up; dl] /\
    text_ok de = true /\ text_ok st = true /\ text_ok pr = true /\
    stamp_ok du = true /\ integer_ok ui = true /\ stamp_ok cr = true /\
    stamp_ok up = true /\ stamp_ok dl = true.
Proof.
  intros H.
  do 10 (destruct r as [|? r]; [simpl in H; repeat (match type of H with
           | match ?x with _ => _ end = _ => destruct x end); discriminate|]).
  destruct r; simpl in H;
    repeat (match type of H with
            | match ?x with _ => _ end = _ => destruct x; try discriminate
            end).
  rewrite !andb_true_iff in H.
  destruct H as (((((((H1 & H2) & H3) & H4) & H5) & H6) & H7) & H8).
  do 10 eexists. split; [reflexivity|]. repeat split; assumption.
Qed.

Lemma ascending_lt (rows : list row) :
  forall p r, ascending p rows = true -> In r rows -> p < rowid r.
Proof.
  induction rows as [|x rows IH]; simpl; intros p r H Hr; [contradiction|].
  apply andb_true_iff in H as [Hx Hrest]. apply Z.ltb_lt in Hx.
  destruct Hr as [->|Hr]; [assumption|].
  specialize (IH _ _ Hrest Hr). lia.
Qed.

Lemma ascending_unique (rows : list row) :
  forall p x y, ascending p rows = true -> In x rows -> In y rows ->
                rowid x = rowid y -> x = y.
Proof.
  induction rows as [|a rows IH]; simpl; intros p x y H Hx Hy E; [contradiction|].
  apply andb_true_iff in H as [_ Hrest].
  destruct Hx as [->|Hx], Hy as [->|Hy].
  - reflexivity.
  - pose proof (ascending_lt _ _ _ Hrest Hy). lia.
  - pose proof (ascending_lt _ _ _ Hrest Hx). lia.
  - exact (IH _ _ _ Hrest Hx Hy E).
Qed.

Lemma filter_nil {A : Type} (f : A -> bool) (l : list A) :
  (forall x, In x l -> f x = false) -> filter f l = [].
Proof.
  induction l as [|a l IH]; simpl; intros H; [reflexivity|].
  rewrite (H a (or_introl eq_refl)). apply IH. intros x Hx. apply H. now right.
Qed.

(** With rowids growing along the table, the lookup by rowid finds the one
    row that has it. *)
Lemma filter_live_row_unique (n : Z) (rows : list row) :
  forall p r, ascending p rows = true -> In r rows -> live_row n r = true ->
              filter (live_row n) rows = [r].
Proof.
  induction rows as [|a rows IH]; simpl; intros p r H Hr Hl; [contradiction|].
  apply andb_true_iff in H as [_ Hrest].
  pose proof (live_row_rowid _ _ Hl) as Hn.
  destruct Hr as [->|Hr].
  - rewrite Hl. f_equal. apply filter_nil. intros x Hx.
    destruct (live_row n x) eqn:E; [|reflexivity].
    apply live_row_rowid in E. pose proof (ascending_lt _ _ _ Hrest Hx). lia.
  - destruct (live_row n a) eqn:E.
    + apply live_row_rowid in E. pose proof (ascending_lt _ _ _ Hrest Hr). lia.
    + exact (IH _ _ Hrest Hr Hl).
Qed.

Lemma wf_tasks_inv (t : table) (r : row) :
  wf_tasks t = true -> In r (t_rows t) ->
  wf_task_row r = true /\ ascending 0 (t_rows t) = true.
Proof.
  unfold wf_tasks. intros H Hr. apply andb_true_iff in H as [Hall Hasc].
  split; [|assumption]. rewrite forallb_forall in Hall. now apply Hall.
Qed.

(** ** Updating the status of a task *)

Lemma stamp_read (v : sqlval) :
  stamp_ok v = true -> fromisoformat_if (py_of_sql v) = Returns (read_stamp v).
Proof.
  destruct v as [|z|s]; simpl; intros H; try discriminate; [reflexivity|].
  unfold fromisoformat_if, read_stamp, stamp_value, call_fromisoformat.
  destruct (fromisoformat s) as [d|] eqn:E; [|discriminate].
  destruct s as [|c s]; [discriminate|]. reflexivity.
Qed.

Lemma read_stamp_cases (v : sqlval) :
  read_stamp v = PyNone \/ exists d, read_stamp v = PyDatetime d.
Proof.
  unfold read_stamp. destruct (stamp_value v); eauto.
Qed.

Lemma isoformat_if_read_stamp (v : sqlval) :
  stamp_ok v = true ->
  isoformat_if (read_stamp v) = Returns (py_of_sql (reformat v)).
Proof.
  destruct v as [|z|s]; simpl; intros H; try discriminate; [reflexivity|].
  unfold read_stamp, stamp_value.
  destruct (fromisoformat s) as [d|]; [reflexivity|discriminate].
Qed.

Lemma reformat_same_instant (v : sqlval) :
  stamp_ok v = true -> stamp_value (reformat v) = stamp_value v.
Proof.
  destruct v as [|z|s]; simpl; intros H; try reflexivity.
  destruct (fromisoformat s) as [d|] eqn:E; [|discriminate].
  cbn [stamp_value]. apply fromisoformat_isoformat.
  now apply fromisoformat_valid in E.
Qed.

Lemma reformat_isoformat (d : datetime) :
  valid_datetime d = true -> reformat (SText (isoformat d)) = SText (isoformat d).
Proof.
  intros H. unfold reformat. now rewrite (fromisoformat_isoformat d H).
Qed.

Lemma text_stays (v : sqlval) :
  text_ok v = true -> apply_affinity AffText (bind_param (py_of_sql v)) = v.
Proof. destruct v; simpl; intros H; try discriminate; reflexivity. Qed.

Lemma integer_stays (v : sqlval) :
  integer_ok v = true -> apply_affinity AffInteger (bind_param (py_of_sql v)) = v.
Proof.
  destruct v as [|z|s]; simpl; intros H; try reflexivity.
  destruct (parse_int s); [discriminate|reflexivity].
Qed.

Lemma reformat_text (v : sqlval) :
  stamp_ok v = true ->
  apply_affinity AffText (bind_param (py_of_sql (reformat v))) = reformat v.
Proof.
  destruct v as [|z|s]; simpl; intros H; try discriminate; [reflexivity|].
  destruct (fromisoformat s); [reflexivity|discriminate].
Qed.

(** The entity that [_from_row] builds from a well-formed row. *)
Lemma from_row_wf (now : datetime) (i : Z) (ti : string)
    (de st pr du ui cr up dl : sqlval) :
  stamp_ok du = true -> stamp_ok cr = true -> stamp_ok up = true ->
  stamp_ok dl = true ->
  Task._from_row now [SInt i; SText ti; de; st; pr; du; ui; cr; up; dl]
  = Returns (Task.mk (PyInt i) (PyStr ti) (py_of_sql de) (py_of_sql st)
                     (py_of_sql pr) (read_stamp du) (py_of_sql ui)
                     (py_or (read_stamp cr) (PyDatetime now))
                     (read_stamp up) (read_stamp dl)).
Proof.
  intros Hdu Hcr Hup Hdl. unfold Task._from_row, item. cbn [nth_error obind py_of_sql].
  rewrite (stamp_read du Hdu), (stamp_read cr Hcr), (stamp_read up Hup),
          (stamp_read dl Hdl).
  reflexivity.
Qed.

(** An UPDATE whose assignment breaks no constraint rewrites exactly the
    rows that the condition selects. *)
Lemma update_loop_unconstrained (tbl : string) (sch : schema) (a : assignment)
    (hit : row -> bool) :
  (forall others, constraint_failure tbl sch a others = None) ->
  forall rest seen,
    update_loop tbl sch a hit seen rest
    = Returns (rev seen ++ map (fun x => if hit x then set_columns sch a x else x) rest).
Proof.
  intros Hc. induction rest as [|r rest IH]; intros seen; simpl.
  - now rewrite app_nil_r.
  - destruct (hit r).
    + rewrite Hc, IH. simpl. now rewrite <- app_assoc.
    + rewrite IH. simpl. now rewrite <- app_assoc.
Qed.

Lemma isoformat_if_stamp (v : pyval) :
  v = PyNone \/ (exists d, v = PyDatetime d) ->
  exists x, isoformat_if v = Returns x.
Proof. intros [->|[d ->]]; eexists; reflexivity. Qed.

(** Changing the status of an entity changes the status of its
    representation and nothing else. *)
Lemma to_dict_with_status (t : Task.t) (v : pyval) (d0 : dict) :
  Task.to_dict t = Returns d0 ->
  exists d,
    Task.to_dict (Task.mk (Task.id t) (Task.title t) (Task.description t) v
                          (Task.priority t) (Task.due_date t) (Task.user_id t)
                          (Task.created_at t) (Task.updated_at t)
                          (Task.deleted_at t)) = Returns d /\
    dict_get d "status" = Some v /\
    forall k, k <> "status" -> dict_get d k = dict_get d0 k.
Proof.
  unfold Task.to_dict. cbn [Task.id Task.title Task.description Task.status
                            Task.priority Task.due_date Task.user_id
                            Task.created_at Task.updated_at].
  intros H.
  apply obind_returns in H as (due & -> & H).
  apply obind_returns in H as (cr & -> & H).
  apply obind_returns in H as (up & -> & H).
  injection H as <-. cbn [obind].
  eexists. split; [reflexivity|]. split; [reflexivity|].
  intros k Hk. cbn [dict_get].
  destruct (String.eqb_spec "status" k) as [E|_]; [congruence|].
  reflexivity.
Qed.

Lemma task_update_unconstrained (t : Task.t) (due : pyval) (stamp : sqlval)
    (ti : string) (others : list row) :
  Task.title t = PyStr ti ->
  constraint_failure "tasks" tasks_schema
    [("title", bind_param (Task.title t));
     ("description", bind_param (Task.description t));
     ("status", bind_param (Task.status t));
     ("priority", bind_param (Task.priority t));
     ("due_date", bind_param due);
     ("user_id", bind_param (Task.user_id t));
     ("updated_at", stamp)] others = None.
Proof.
  intros Ht. rewrite Ht. reflexivity.
Qed.

Lemma apply_update_only_status (data : dict) (s : string) (t : Task.t) :
  only_status data s ->
  task_service.apply_update (TaskUpdate.init data) t
  = Task.mk (Task.id t) (Task.title t) (Task.description t) (PyStr s)
            (Task.priority t) (Task.due_date t) (Task.user_id t)
            (Task.created_at t) (Task.updated_at t) (Task.deleted_at t).
Proof.
  intros (Hs & Ht & Hde & Hp & Hdu & Hu).
  unfold task_service.apply_update, TaskUpdate.init, kwarg.
  cbn [TaskUpdate.title TaskUpdate.description TaskUpdate.status
       TaskUpdate.priority TaskUpdate.due_date TaskUpdate.user_id].
  rewrite Hs, Ht, Hde, Hp, Hdu, Hu. reflexivity.
Qed.

(** The two effects of [update_task] with only a status: the returned
    representation and the database afterwards. *)
Lemma update_task_status_effect :
  forall (now now' : datetime) (n : Z) (r : row) (data : dict) (s : string)
         (db : database),
    wf_tasks (tasks db) = true ->
    In r (t_rows (tasks db)) ->
    rowid r = n ->
    is_live r = true ->
    only_status data s ->
    exists d0 d : dict,
      task_service.get_task now (PyInt n) db = (Returns (Some d0), db) /\
      task_service.update_task now now' (PyInt n) data db
      = (Returns (Some d),
         mkDb (mkTable (map (fun x => if rowid x =? n
                                      then updated_row now' s x else x)
                            (t_rows (tasks db)))
                       (t_seq (tasks db)))
              (users db)) /\
      dict_get d "status" = Some (PyStr s) /\
      (forall k, k <> "status" -> dict_get d k = dict_get d0 k).
Proof.
  intros now now' n r data s db Hwf Hr Hn Hlive Hdata.
  destruct (wf_tasks_inv _ _ Hwf Hr) as [Hrow Hasc].
  destruct (wf_task_row_shape _ Hrow)
    as (i & ti & de & st & pr & du & ui & cr & up & dl & -> & Hde & Hst & Hpr
        & Hdu & Hui & Hcr & Hup & Hdl).
  cbn [rowid] in Hn. subst i.
  pose proof (ascending_lt _ _ _ Hasc Hr) as Hpos. cbn [rowid] in Hpos.
  assert (Hl : live_row n [SInt n; SText ti; de; st; pr; du; ui; cr; up; dl] = true).
  { unfold live_row. cbn. rewrite Z.eqb_refl. exact Hlive. }
  assert (Hfind : Task.find_by_id now (PyInt n) db
                  = (Returns (Some (Task.mk (PyInt n) (PyStr ti) (py_of_sql de)
                       (py_of_sql st) (py_of_sql pr) (read_stamp du) (py_of_sql ui)
                       (py_or (read_stamp cr) (PyDatetime now))
                       (read_stamp up) (read_stamp dl))), db)).
  { unfold Task.find_by_id, bind. rewrite execute_find_by_id.
    rewrite (filter_live_row_unique _ _ _ _ Hasc Hr Hl). cbn [fetchone].
    unfold lift. rewrite (from_row_wf now n ti de st pr du ui cr up dl Hdu Hcr Hup Hdl).
    reflexivity. }
  set (t0 := Task.mk (PyInt n) (PyStr ti) (py_of_sql de) (py_of_sql st)
               (py_of_sql pr) (read_stamp du) (py_of_sql ui)
               (py_or (read_stamp cr) (PyDatetime now))
               (read_stamp up) (read_stamp dl)) in *.
  assert (Hd0 : exists d0, Task.to_dict t0 = Returns d0).
  { unfold Task.to_dict, t0.
    cbn [Task.due_date Task.created_at Task.updated_at].
    rewrite (isoformat_if_read_stamp du Hdu), (isoformat_if_read_stamp up Hup).
    cbn [obind].
    destruct (read_stamp_cases cr) as [E|[d E]]; rewrite E; eexists; reflexivity. }
  destruct Hd0 as [d0 Hd0].
  destruct (to_dict_with_status t0 (PyStr s) d0 Hd0) as (d & Hd & Hstatus & Hothers).
  exists d0, d. split; [|split].
  - unfold task_service.get_task, bind. rewrite Hfind.
    unfold lift. rewrite Hd0. reflexivity.
  - unfold task_service.update_task, bind. rewrite Hfind.
    rewrite (apply_update_only_status data s t0 Hdata).
    subst t0. unfold Task.save.
    cbn [Task.id Task.title Task.description Task.status Task.priority
         Task.due_date Task.user_id Task.created_at Task.updated_at
         Task.deleted_at] in *.
    assert (Htr : truthy (PyInt n) = true).
    { simpl. destruct (Z.eqb_spec n 0); [lia|reflexivity]. }
    rewrite Htr. unfold bind, lift.
    rewrite (isoformat_if_read_stamp du Hdu).
    unfold update_rows.
    rewrite update_loop_unconstrained by (intros others; reflexivity).
    cbn [rev app obind].
    replace (map _ (t_rows (tasks db)))
      with (map (fun x => if rowid x =? n then updated_row now' s x else x)
                (t_rows (tasks db))).
    + rewrite Hd. reflexivity.
    + apply map_ext_in. intros x Hx.
      destruct (wf_tasks_inv _ _ Hwf Hx) as [Hxrow _].
      destruct (wf_task_row_shape _ Hxrow)
        as (i' & ti' & de' & st' & pr' & du' & ui' & cr' & up' & dl' & -> & _).
      unfold Task.id_is. cbn [rowid get_column tasks_schema c_name String.eqb
                              Ascii.eqb Bool.eqb bind_param apply_affinity
                              sql_eq is_true tri_of_bool].
      destruct (Z.eqb_spec i' n) as [->|Hne]; [|reflexivity].
      assert (E : [SInt n; SText ti'; de'; st'; pr'; du'; ui'; cr'; up'; dl']
                  = [SInt n; SText ti; de; st; pr; du; ui; cr; up; dl])
        by (apply (ascending_unique _ _ _ _ Hasc Hx Hr); reflexivity).
      injection E as -> -> -> -> -> -> -> -> ->.
      unfold updated_row.
      cbn [set_columns tasks_schema assigned c_name c_aff String.eqb Ascii.eqb
           Bool.eqb].
      rewrite (text_stays de Hde), (text_stays pr Hpr), (integer_stays ui Hui),
              (reformat_text du Hdu).
      reflexivity.
  - split; [exact Hstatus|exact Hothers].
Qed.


(** C3, as the code has it.  For a stored task that is not soft-deleted and
    a payload that holds only a status: the returned representation is the
    one before the update with the status replaced (so title, description,
    priority, due date, owner and creation time are as before); in storage
    the task's row keeps title, description, priority, owner, [created_at]
    and [deleted_at], takes the new status and [updated_at], and has its
    due date written again by [isoformat], which keeps the instant; every
    other row, the [users] table and the rowid counter are untouched. *)
Theorem update_task_status_only :
  forall (now now' : datetime) (n : Z) (r : row) (data : dict) (s : string)
         (db : database),
    wf_tasks (tasks db) = true ->
    In r (t_rows (tasks db)) ->
    rowid r = n ->
    is_live r = true ->
    only_status data s ->
    exists d0 d : dict,
      task_service.get_task now (PyInt n) db = (Returns (Some d0), db) /\
      task_service.update_task now now' (PyInt n) data db
      = (Returns (Some d),
         mkDb (mkTable (map (fun x => if rowid x =? n
                                      then updated_row now' s x else x)
                            (t_rows (tasks db)))
                       (t_seq (tasks db)))
              (users db)) /\
      dict_get d "status" = Some (PyStr s) /\
      (forall k, k <> "status" -> dict_get d k = dict_get d0 k) /\
      Forall (fun col => get_column tasks_schema (updated_row now' s r) col
                         = get_column tasks_schema r col)
             ["id"; "title"; "description"; "priority"; "user_id";
              "created_at"; "deleted_at"] /\
      get_column tasks_schema (updated_row now' s r) "status" = SText s /\
      get_column tasks_schema (updated_row now' s r) "updated_at"
      = SText (isoformat now') /\
      get_column tasks_schema (updated_row now' s r) "due_date"
      = reformat (get_column tasks_schema r "due_date") /\
      stamp_value (get_column tasks_schema (updated_row now' s r) "due_date")
      = stamp_value (get_column tasks_schema r "due_date").
Proof.
  intros now now' n r data s db Hwf Hr Hn Hlive Hdata.
  destruct (update_task_status_effect now now' n r data s db Hwf Hr Hn Hlive Hdata)
    as (d0 & d & Hget & Hupdate & Hstatus & Hothers).
  exists d0, d.
  split; [exact Hget|]. split; [exact Hupdate|].
  split; [exact Hstatus|]. split; [exact Hothers|].
  destruct (wf_tasks_inv _ _ Hwf Hr) as [Hrow _].
  destruct (wf_task_row_shape _ Hrow)
    as (i & ti & de & st & pr & du & ui & cr & up & dl & -> & _ & _ & _
        & Hdu & _).
  split; [repeat constructor|].
  split; [reflexivity|]. split; [reflexivity|]. split; [reflexivity|].
  cbn. now apply reformat_same_instant.
Qed.

(** The example of the specification: [update_task(1, {status:
    "completed"})] on the seeded task ["Fix login bug"]. *)
Lemma update_task_status_only_witness :
  exists d0 d : dict,
    task_service.get_task example_now (PyInt 1) example_db
    = (Returns (Some d0), example_db) /\
    task_service.update_task example_now example_later (PyInt 1)
      [("status", PyStr "completed")] example_db
    = (Returns (Some d),
       mkDb (mkTable (map (fun x => if rowid x =? 1
                                    then updated_row example_later "completed" x
                                    else x)
                          (t_rows (tasks example_db)))
                     (t_seq (tasks example_db)))
            (users example_db)) /\
    dict_get d "status" = Some (PyStr "completed") /\
    (forall k, k <> "status" -> dict_get d k = dict_get d0 k) /\
    Forall (fun col =>
              get_column tasks_schema
                (updated_row example_later "completed" example_row) col
              = get_column tasks_schema example_row col)
           ["id"; "title"; "description"; "priority"; "user_id";
            "created_at"; "deleted_at"] /\
    get_column tasks_schema (updated_row example_later "completed" example_row)
      "status" = SText "completed" /\
    get_column tasks_schema (updated_row example_later "completed" example_row)
      "updated_at" = SText (isoformat example_later) /\
    get_column tasks_schema (updated_row example_later "completed" example_row)
      "due_date" = reformat (get_column tasks_schema example_row "due_date") /\
    stamp_value (get_column tasks_schema
                   (updated_row example_later "completed" example_row) "due_date")
    = stamp_value (get_column tasks_schema example_row "due_date").
Proof.
  apply (update_task_status_only example_now example_later 1 example_row
           [("status", PyStr "completed")] "completed" example_db).
  - vm_compute; reflexivity.
  - left; reflexivity.
  - reflexivity.
  - reflexivity.
  - repeat split; reflexivity.
Defined.

(** C3 as stated fails on the seeded data: the update of the status of task
    1 succeeds and the stored text of its due date is no longer the one
    that was stored. *)
Lemma update_task_rewrites_due_date_text :
  is_returns (fst (task_service.update_task example_now example_later (PyInt 1)
                     [("status", PyStr "completed")] example_db)) = true /\
  nth 0 (column_values "due_date" (tasks example_db)) SNull
  = SText "2025-10-20 10:00:00" /\
  nth 0 (column_values "due_date"
           (tasks (snd (task_service.update_task example_now example_later
                          (PyInt 1) [("status", PyStr "completed")] example_db))))
      SNull
  = SText "2025-10-20T10:00:00" /\
  column_values "due_date"
    (tasks (snd (task_service.update_task example_now example_later
                   (PyInt 1) [("status", PyStr "completed")] example_db)))
  <> column_values "due_date" (tasks example_db).
Proof.
  split; [vm_compute; reflexivity|].
  split; [vm_compute; reflexivity|].
  split; [vm_compute; reflexivity|].
  vm_compute. discriminate.
Qed.

(** ** Creating a user whose name or e-mail is taken *)

Lemma holds_text (sch : schema) (rows : list row) (col s : string) (r : row) :
  In r rows -> get_column sch r col = SText s ->
  holds sch rows col (SText s) = true.
Proof.
  intros Hr Hc. unfold holds. apply existsb_exists. exists r.
  split; [assumption|]. rewrite Hc. simpl. now rewrite String.eqb_refl.
Qed.

(** [save] of a new user whose name or e-mail another row holds. *)
Lemma user_save_conflict (now : datetime) (u : User.t) (db : database)
    (username email hash : string) (c : datetime) (r : row) :
  User.id u = PyNone ->
  User.username u = PyStr username ->
  User.email u = PyStr email ->
  User.password_hash u = PyStr hash ->
  User.created_at u = PyDatetime c ->
  In r (t_rows (users db)) ->
  get_column users_schema r "username" = SText username
  \/ get_column users_schema r "email" = SText email ->
  exists col,
    (col = "users.username" \/ col = "users.email") /\
    User.save now u db = (Raises (IntegrityError (UniqueFailed col)), db).
Proof.
  intros Hid Hu He Hh Hc Hr Hdup.
  destruct u as [id un em ph fn ln ia cr up ll ak].
  cbn [User.id User.username User.email User.password_hash User.created_at] in *.
  subst id un em ph cr.
  unfold User.save.
  cbn [User.id User.username User.email User.password_hash User.created_at
       User.first_name User.last_name User.api_key truthy call_isoformat].
  unfold bind, lift, insert_row, constraint_failure.
  cbn [not_null_failure unique_failure users_schema assigned String.eqb
       Ascii.eqb Bool.eqb c_name c_aff c_notnull c_unique andb
       bind_param apply_affinity sql_is_null].
  destruct (holds users_schema (t_rows (users db)) "username" (SText username))
    eqn:E.
  - exists "users.username". split; [now left|reflexivity].
  - destruct Hdup as [H|H].
    + rewrite (holds_text _ _ _ _ _ Hr H) in E. discriminate.
    + rewrite (holds_text _ _ _ _ _ Hr H).
      exists "users.email". split; [now right|reflexivity].
Qed.

(** C5, as the code has it.  When the user name or the e-mail of the
    payload is already stored, the UNIQUE constraint rejects the insert:
    [create_user] raises [sqlite3.IntegrityError], which nothing in the
    application catches, the route answers with the generic server error,
    and the database is as before, so no second row exists.  The payload
    has string credentials, no key [self] and bound values within the
    64-bit range, and the table has row ids left: otherwise the call fails
    earlier, with another exception. *)
Theorem create_user_duplicate_raises :
  forall (sha256 : string -> string) (rng : nat -> Byte.byte)
         (now now' : datetime) (data : dict) (db : database)
         (username email password : string) (r : row),
    dict_get data "username" = Some (PyStr username) ->
    dict_get data "email" = Some (PyStr email) ->
    dict_get data "password" = Some (PyStr password) ->
    dict_get data "self" = None ->
    fields_in_range user_fields data = true ->
    next_user_id db < 2 ^ 63 ->
    In r (t_rows (users db)) ->
    get_column users_schema r "username" = SText username
    \/ get_column users_schema r "email" = SText email ->
    exists col,
      (col = "users.username" \/ col = "users.email") /\
      user_service.create_user sha256 rng now now' data db
      = (Raises (IntegrityError (UniqueFailed col)), db) /\
      users_routes.create_user sha256 rng now now' data db
      = (InternalServerError, db).
Proof.
  intros sha256 rng now now' data db username email password r Hu He Hp _ _ _
         Hr Hdup.
  assert (Hsvc : exists col,
             (col = "users.username" \/ col = "users.email") /\
             user_service.create_user sha256 rng now now' data db
             = (Raises (IntegrityError (UniqueFailed col)), db)).
  { unfold user_service.create_user, bind, lift, UserCreate.init.
    rewrite Hu, He, Hp.
    cbn [UserCreate.password User.set_password py_add_str obind].
    edestruct (user_save_conflict now') as (col & Hcol & Hsave);
      [| | | | | exact Hr | exact Hdup |
       rewrite Hsave; exists col; split; [exact Hcol|reflexivity]];
      reflexivity. }
  destruct Hsvc as (col & Hcol & Hsvc).
  exists col. split; [exact Hcol|]. split; [exact Hsvc|].
  unfold users_routes.create_user, dispatch. rewrite Hsvc. reflexivity.
Qed.

(** An instance: the user name of the first seeded user with a new e-mail. *)
Lemma create_user_duplicate_raises_witness :
  exists col,
    (col = "users.username" \/ col = "users.email") /\
    user_service.create_user (fun s => s) (fun _ => Byte.x00)
      example_now example_later
      [("username", PyStr "john_doe"); ("email", PyStr "new@example.com");
       ("password", PyStr "secret")] example_db
    = (Raises (IntegrityError (UniqueFailed col)), example_db) /\
    users_routes.create_user (fun s => s) (fun _ => Byte.x00)
      example_now example_later
      [("username", PyStr "john_doe"); ("email", PyStr "new@example.com");
       ("password", PyStr "secret")] example_db
    = (InternalServerError, example_db).
Proof.
  apply (create_user_duplicate_raises (fun s => s) (fun _ => Byte.x00)
           example_now example_later
           [("username", PyStr "john_doe"); ("email", PyStr "new@example.com");
            ("password", PyStr "secret")] example_db
           "john_doe" "new@example.com" "secret"
           (nth 0 (t_rows (users example_db)) [])).
  - reflexivity.
  - reflexivity.
  - reflexivity.
  - reflexivity.
  - reflexivity.
  - reflexivity.
  - left; reflexivity.
  - left; reflexivity.
Defined.

(** C5 as stated fails: the duplicate surfaces as an exception that escapes
    [create_user], and the response is the one that any other failure of the
    request gets, here a payload without a password. *)
Lemma create_user_duplicate_is_unhandled :
  fst (user_service.create_user (fun s => s) (fun _ => Byte.x00)
         example_now example_later
         [("username", PyStr "john_doe"); ("email", PyStr "new@example.com");
          ("password", PyStr "secret")] example_db)
  = Raises (IntegrityError (UniqueFailed "users.username")) /\
  fst (users_routes.create_user (fun s => s) (fun _ => Byte.x00)
         example_now example_later
         [("username", PyStr "john_doe"); ("email", PyStr "new@example.com");
          ("password", PyStr "secret")] example_db)
  = InternalServerError /\
  fst (users_routes.create_user (fun s => s) (fun _ => Byte.x00)
         example_now example_later
         [("username", PyStr "new_user"); ("email", PyStr "new@example.com")]
         example_db)
  = InternalServerError.
Proof.
  split; [vm_compute; reflexivity|].
  split; vm_compute; reflexivity.
Qed.

(** ** Filter values interpolated into the statement *)

(** C6 fails on the code.  The finders paste the value into the statement
    text: a value that closes the string literal changes the condition, and
    a value with a single quote in it is not found at all.  Three inputs:
    a user name that is not stored returns the first user; a status that no
    task has returns every task; a stored user name with a quote makes the
    lookup raise. *)
Theorem lookups_interpolate_filter_values :
  (exists u,
      fst (User.find_by_username example_now (PyStr injection) example_db)
      = Returns (Some u) /\
      User.username u = PyStr "john_doe" /\
      PyStr "john_doe" <> PyStr injection) /\
  (exists l,
      fst (Task.find_all example_now PyNone (PyStr injection) example_db)
      = Returns l /\
      List.length l = 6%nat /\
      forallb (fun t => negb (in_strings (Task.status t) [injection])) l = true) /\
  (exists d db',
      user_service.create_user (fun s => s) (fun _ => Byte.x00)
        example_now example_later
        [("username", PyStr "O'Brien"); ("email", PyStr "ob@example.com");
         ("password", PyStr "secret")] example_db
      = (Returns d, db') /\
      dict_get d "username" = Some (PyStr "O'Brien") /\
      fst (User.find_by_username example_now (PyStr "O'Brien") db')
      = Raises OperationalError).
Proof.
  split; [|split].
  - eexists. split; [vm_compute; reflexivity|]. split; [reflexivity|discriminate].
  - eexists. split; [vm_compute; reflexivity|]. split; reflexivity.
  - eexists. eexists. split; [vm_compute; reflexivity|].
    split; [reflexivity|]. vm_compute; reflexivity.
Qed.

(** ** Soft-deleted tasks *)

(** C2 fails on the code for a status filter that closes its string
    literal.  After [delete_task(2)] the row of task 2 is still stored with
    a deletion time and [find_by_id] no longer finds it, but [find_all] and
    [get_tasks] with that status return it.  The cause is the one of C6:
    the filter value is pasted into the statement. *)
Theorem find_all_returns_soft_deleted_task :
  (exists r,
      In r (t_rows (tasks example_db_deleted)) /\ rowid r = 2 /\
      get_column tasks_schema r "deleted_at" = SText (isoformat example_later)) /\
  fst (Task.find_by_id example_now (PyInt 2) example_db_deleted) = Returns None /\
  (exists l t,
      fst (Task.find_all example_now PyNone (PyStr injection) example_db_deleted)
      = Returns l /\
      In t l /\ Task.id t = PyInt 2 /\
      Task.deleted_at t = PyDatetime example_later) /\
  (exists ds d,
      fst (task_service.get_tasks example_now (Some [("status", PyStr injection)])
             example_db_deleted) = Returns ds /\
      In d ds /\ dict_get d "id" = Some (PyInt 2)).
Proof.
  split; [|split; [|split]].
  - eexists. split; [right; left; reflexivity|]. split; vm_compute; reflexivity.
  - vm_compute; reflexivity.
  - eexists. eexists. split; [vm_compute; reflexivity|].
    split; [right; left; reflexivity|]. split; reflexivity.
  - eexists. eexists. split; [vm_compute; reflexivity|].
    split; [right; left; reflexivity|]. reflexivity.
Qed.

(** ** What interpolation gets right

    An integer and a text without a single quote stay one literal of the
    statement, so for such filter values the lookups do compare the column
    with the value, and no soft-deleted row comes back. *)

Lemma lex_run_space (m : lmode) (out : list token) (t : token) (cs : list ascii) :
  lex_end m = Some [t] ->
  lex_run m out (" "%char :: cs) = lex_run LIdle (t :: out) cs.
Proof.
  destruct m; simpl; intros H; try discriminate; injection H as <-; reflexivity.
Qed.

Lemma lex_run_quote_free (cs acc : list ascii) (out : list token) :
  existsb is_quote cs = false ->
  lex_run (LStr acc) out cs = Some (LStr (rev cs ++ acc), out).
Proof.
  revert acc. induction cs as [|c cs IH]; simpl; intros acc H; [reflexivity|].
  apply orb_false_iff in H as [Hc Hcs]. rewrite Hc. cbn [rev app].
  rewrite (IH _ Hcs), <- app_assoc. reflexivity.
Qed.

Lemma str_of_rev (s : string) : str_of (rev (chars s) ++ []) = TStr s.
Proof. unfold str_of. now rewrite app_nil_r, rev_involutive, text_chars. Qed.

(** The lexer on the next piece of the statement when that piece is a
    literal of the source: the piece is read by computation, with the
    tokens read so far and a number being read kept abstract. *)
Ltac lex_literal :=
  rewrite lex_run_app;
  match goal with
  | |- context [lex_run ?m ?o (chars ?lit)] =>
      let o' := fresh "o" in
      remember o as o';
      lazymatch m with
      | LNum ?k =>
          let k' := fresh "k" in
          remember k as k';
          let v := eval cbv -[str_of] in (lex_run (LNum k') o' (chars lit)) in
          change (lex_run (LNum k') o' (chars lit)) with v;
          subst k'
      | LStr ?a =>
          let a' := fresh "a" in
          remember a as a';
          let v := eval cbv -[str_of] in (lex_run (LStr a') o' (chars lit)) in
          change (lex_run (LStr a') o' (chars lit)) with v;
          subst a'
      | _ =>
          let v := eval cbv -[str_of] in (lex_run m o' (chars lit)) in
          change (lex_run m o' (chars lit)) with v
      end;
      subst o'
  end;
  cbv iota beta.

(** The end of the statement when its last piece is a literal of the
    source. *)
Ltac lex_finish_literal :=
  match goal with
  | |- lex_finish (lex_run ?m ?o (chars ?lit)) = _ =>
      let o' := fresh "o" in
      remember o as o';
      lazymatch m with
      | LNum ?k =>
          let k' := fresh "k" in
          remember k as k';
          let v := eval cbv -[str_of] in (lex_run (LNum k') o' (chars lit)) in
          change (lex_run (LNum k') o' (chars lit)) with v;
          subst k'
      | _ =>
          let v := eval cbv -[str_of] in (lex_run m o' (chars lit)) in
          change (lex_run m o' (chars lit)) with v
      end;
      subst o'
  end;
  cbn [lex_finish lex_end word_of rev app text string_of_list_ascii];
  rewrite <- ?app_assoc.

(** The closing quote and the rest of the statement after a quote-free
    status. *)
Lemma lex_after_status (s : string) (out : list token) :
  lex_finish
    (lex_run (LStr (rev (chars s) ++ [])) out
       (chars "'" ++ chars " ORDER BY created_at DESC"))
  = Some (rev out
          ++ [TStr s; TWord "order"; TWord "by"; TWord "created_at"; TWord "desc"]).
Proof.
  change (chars "'" ++ chars " ORDER BY created_at DESC")
    with ("'"%char :: " "%char :: chars "ORDER BY created_at DESC").
  cbn [lex_run lex_step is_quote is_char Ascii.eqb Bool.eqb rev app].
  change (idle_step " ") with (Some (LIdle, @nil token)).
  cbn [emit rev app]. rewrite str_of_rev.
  remember (TStr s :: out) as o eqn:E.
  replace (rev out ++ [TStr s; TWord "order"; TWord "by"; TWord "created_at";
                       TWord "desc"])
    with (rev o ++ [TWord "order"; TWord "by"; TWord "created_at"; TWord "desc"])
    by (subst o; cbn [rev]; now rewrite <- app_assoc).
  clear E. lex_finish_literal. reflexivity.
Qed.

Lemma tokenize_find_all (user_id status : pyval) :
  safe_owner user_id = true ->
  safe_status status = true ->
  tokenize (Task.find_all_query user_id status)
  = Some ([TWord "select"; TSym "*"; TWord "from"; TWord "tasks"; TWord "where";
           TWord "deleted_at"; TWord "is"; TWord "null"]
          ++ (if truthy user_id
              then [TWord "and"; TWord "user_id"; TSym "="]
                   ++ match user_id with PyInt n => int_tokens n | _ => [] end
              else [])
          ++ (if truthy status
              then [TWord "and"; TWord "status"; TSym "=";
                    TStr (py_str status)]
              else [])
          ++ [TWord "order"; TWord "by"; TWord "created_at"; TWord "desc"]).
Proof.
  intros Hu Hs. unfold tokenize, Task.find_all_query.
  destruct (truthy user_id) eqn:Tu, (truthy status) eqn:Ts;
    [destruct user_id as [| | n | |]; try discriminate;
     destruct status as [| | | s |]; try discriminate
    |destruct user_id as [| | n | |]; try discriminate
    |destruct status as [| | | s |]; try discriminate
    |reflexivity];
    cbn [py_str safe_status] in *;
    rewrite !chars_app, <- ?app_assoc;
    try (unfold no_quote in Hs; apply negb_true_iff in Hs).
  - (* owner and status *)
    lex_literal. lex_literal.
    rewrite lex_run_app, lex_run_show_Z. cbv iota beta.
    lex_literal.
    rewrite lex_run_app, (lex_run_quote_free _ _ _ Hs). cbv iota beta.
    rewrite lex_after_status, <- int_tokens_abs.
    destruct (n <? 0); reflexivity.
  - (* owner only *)
    lex_literal. lex_literal.
    rewrite lex_run_app, lex_run_show_Z. cbv iota beta.
    rewrite <- int_tokens_abs.
    destruct (n <? 0); reflexivity.
  - (* status only *)
    lex_literal. lex_literal.
    rewrite lex_run_app, (lex_run_quote_free _ _ _ Hs). cbv iota beta.
    rewrite lex_after_status. reflexivity.
Qed.

(** [find_all] for an owner that is absent or an integer and a status that
    is absent or free of single quotes: the tasks that are not soft-deleted
    and whose owner and status equal the truthy filter values, latest
    first. *)
Lemma find_all_safe_filters (now : datetime) (user_id status : pyval)
    (db : database) :
  safe_owner user_id = true ->
  safe_status status = true ->
  Task.find_all now user_id status db
  = (Task.from_rows now
       (order_rows tasks_schema (Some ("created_at", true))
          (filter (fun r => is_live r
                            && filter_matches "user_id" user_id r
                            && filter_matches "status" status r)
                  (t_rows (tasks db)))), db).
Proof.
  intros Hu Hs. unfold Task.find_all, bind, execute.
  rewrite (tokenize_find_all _ _ Hu Hs). unfold filter_matches.
  destruct (truthy user_id) eqn:Tu, (truthy status) eqn:Ts;
    [destruct user_id as [| | n | |]; try discriminate;
     destruct status as [| | | s |]; try discriminate
    |destruct user_id as [| | n | |]; try discriminate
    |destruct status as [| | | s |]; try discriminate
    |];
    cbn [py_str bind_param];
    try (unfold int_tokens; destruct (n <? 0));
    cbn -[filter selected order_rows is_live get_column];
    rewrite ?Z.opp_involutive;
    unfold lift; do 3 f_equal; apply filter_ext; intros r;
    unfold selected, is_live, eval_condition, eval_atom, eval_operand;
    cbn [fold_right];
    destruct (sql_is_null (get_column tasks_schema r "deleted_at"));
    cbn [tri_of_bool tri_and tri_or andb is_true];
    repeat match goal with
           | |- context [sql_eq ?a ?b] => destruct (sql_eq a b)
           end; reflexivity.
Qed.

Lemma get_deleted_at (r : row) :
  get_column tasks_schema r "deleted_at" = nth 9 r SNull.
Proof.
  do 10 (destruct r as [|? r]; [reflexivity|]). reflexivity.
Qed.

(** An entity read from a row that is not soft-deleted has no deletion
    time. *)
Lemma from_row_live (now : datetime) (r : row) (t : Task.t) :
  Task._from_row now r = Returns t -> is_live r = true ->
  Task.deleted_at t = PyNone.
Proof.
  unfold Task._from_row, is_live. rewrite get_deleted_at. intros H Hl.
  repeat (apply obind_returns in H as (? & ? & H)).
  injection H as <-. cbn [Task.deleted_at].
  match goal with
  | H : fromisoformat_if ?v = Returns ?d |- ?d = PyNone =>
      rename H into Hread;
      match goal with
      | H' : item r _ = Returns v |- _ => rename H' into Hitem
      end
  end.
  unfold item in Hitem. destruct (nth_error r 9) as [sv|] eqn:E; [|discriminate].
  injection Hitem as <-. apply (nth_error_nth _ _ SNull) in E. rewrite E in Hl.
  destruct sv; try discriminate. cbn in Hread. now injection Hread as <-.
Qed.

Lemma insert_sorted_in (before : row -> row -> bool) (x y : row) (l : list row) :
  In y (insert_sorted before x l) -> y = x \/ In y l.
Proof.
  induction l as [|a l IH]; simpl.
  - intros [->|[]]. now left.
  - destruct (before x a); simpl.
    + intros [->|[->|H]]; auto.
    + intros [->|H]; [auto|]. destruct (IH H); auto.
Qed.

Lemma order_rows_in (sch : schema) (o : option (string * bool)) (l : list row)
    (y : row) :
  In y (order_rows sch o l) -> In y l.
Proof.
  destruct o as [[col desc]|]; simpl; [|tauto].
  unfold sort_rows. induction l as [|a l IH]; simpl; [tauto|].
  intros H. apply insert_sorted_in in H as [->|H]; [now left|right; now apply IH].
Qed.

Lemma from_rows_in (now : datetime) (rows : list row) :
  forall l t, Task.from_rows now rows = Returns l -> In t l ->
              exists r, In r rows /\ Task._from_row now r = Returns t.
Proof.
  induction rows as [|r rows IH]; simpl; intros l t H Ht.
  - injection H as <-. contradiction.
  - apply obind_returns in H as (t0 & H0 & H).
    apply obind_returns in H as (rest & Hrest & H).
    injection H as <-. destruct Ht as [->|Ht].
    + exists r. split; [now left|assumption].
    + destruct (IH _ _ Hrest Ht) as (r' & Hr' & Hf). exists r'. split; [now right|assumption].
Qed.

(** For safe filter values, [find_all] returns no soft-deleted task. *)
Lemma find_all_safe_filters_skip_deleted (now : datetime) (user_id status : pyval)
    (db db' : database) (l : list Task.t) (t : Task.t) :
  safe_owner user_id = true ->
  safe_status status = true ->
  Task.find_all now user_id status db = (Returns l, db') ->
  In t l ->
  Task.deleted_at t = PyNone.
Proof.
  intros Hu Hs H Ht. rewrite (find_all_safe_filters now _ _ db Hu Hs) in H.
  injection H as H _.
  destruct (from_rows_in _ _ _ _ H Ht) as (r & Hr & Hf).
  apply (order_rows_in tasks_schema (Some ("created_at", true))) in Hr.
  apply filter_In in Hr as [_ Hr].
  rewrite !andb_true_iff in Hr. destruct Hr as [[Hl _] _].
  exact (from_row_live _ _ _ Hf Hl).
Qed.

(** [find_by_id] on an integer returns no soft-deleted task, and what it
    returns is read from a stored row with that rowid. *)
Lemma find_by_id_skips_deleted (now : datetime) (n : Z) (db db' : database)
    (t : Task.t) :
  Task.find_by_id now (PyInt n) db = (Returns (Some t), db') ->
  db' = db /\ Task.deleted_at t = PyNone /\
  exists r, In r (t_rows (tasks db)) /\ rowid r = n
            /\ Task._from_row now r = Returns t.
Proof.
  unfold Task.find_by_id, bind. rewrite execute_find_by_id.
  destruct (filter (live_row n) (t_rows (tasks db))) as [|r rest] eqn:E;
    cbn [fetchone]; [intros H; discriminate|].
  assert (Hr : In r (filter (live_row n) (t_rows (tasks db))))
    by (rewrite E; now left).
  apply filter_In in Hr as [Hin Hl].
  unfold lift. destruct (Task._from_row now r) as [t0|e] eqn:Hf; [|discriminate].
  unfold ret. intros H. injection H as -> ->.
  split; [reflexivity|]. split.
  - apply (from_row_live _ _ _ Hf). unfold live_row in Hl.
    now apply andb_true_iff in Hl as [_ Hl].
  - exists r. split; [assumption|]. split; [now apply live_row_rowid|assumption].
Qed.

(** ** Soft delete *)

Lemma isoformat_no_quote (d : datetime) :
  existsb is_quote (chars (isoformat d)) = false.
Proof.
  unfold isoformat, isoformat_sep. rewrite chars_text.
  unfold pad4, pad2, pad6. cbn [app existsb].
  rewrite !(proj1 (proj2 (digit_char_plain _))).
  destruct (microsecond d =? 0); cbn [app existsb];
    rewrite ?(proj1 (proj2 (digit_char_plain _))); reflexivity.
Qed.

Lemma tokenize_delete (now : datetime) (t : Task.t) (n : Z) :
  Task.id t = PyInt n ->
  tokenize (Task.delete_query now t)
  = Some ([TWord "update"; TWord "tasks"; TWord "set"; TWord "deleted_at";
           TSym "="; TStr (isoformat now); TWord "where"; TWord "id"; TSym "="]
          ++ int_tokens n).
Proof.
  intros Hid. unfold tokenize, Task.delete_query. rewrite Hid. cbn [py_str].
  rewrite !chars_app.
  lex_literal. lex_literal.
  rewrite lex_run_app, (lex_run_quote_free _ _ _ (isoformat_no_quote now)).
  cbv iota beta.
  lex_literal. rewrite str_of_rev.
  rewrite lex_run_app, lex_run_show_Z. cbv iota beta.
  lex_literal. lex_finish_literal.
  unfold int_tokens.
  destruct (Z.ltb_spec n 0); [rewrite Z.abs_neq by lia|rewrite Z.abs_eq by lia];
    reflexivity.
Qed.

(** [Task.delete] of a task with an integer id stamps the rows with that
    rowid and removes none. *)
Lemma delete_marks_rows (now now' : datetime) (t : Task.t) (n : Z)
    (db : database) :
  Task.id t = PyInt n ->
  Task.delete now now' t db
  = (Returns (Task.set_deleted_at t (PyDatetime now')),
     mkDb (mkTable (map (mark_deleted now n) (t_rows (tasks db)))
                   (t_seq (tasks db)))
          (users db)).
Proof.
  intros Hid. unfold Task.delete, bind, execute.
  rewrite (tokenize_delete now t n Hid).
  unfold int_tokens. destruct (n <? 0);
    cbn -[update_rows selected isoformat];
    rewrite ?Z.opp_involutive;
    unfold update_rows;
    rewrite update_loop_unconstrained by (intros others; reflexivity);
    cbn [rev app obind]; unfold ret; do 3 f_equal;
    apply map_ext; intros r; unfold mark_deleted;
    unfold selected, eval_condition, eval_atom, eval_operand; cbn [fold_right];
    destruct (sql_eq (get_column tasks_schema r "id") (SInt n)); reflexivity.
Qed.

Lemma mark_deleted_wf (now : datetime) (n : Z) (r : row) :
  wf_task_row r = true ->
  rowid (mark_deleted now n r) = rowid r /\
  (rowid r = n ->
   get_column tasks_schema (mark_deleted now n r) "deleted_at"
   = SText (isoformat now)) /\
  (rowid r <> n -> mark_deleted now n r = r) /\
  Forall (fun col => get_column tasks_schema (mark_deleted now n r) col
                     = get_column tasks_schema r col)
         ["id"; "title"; "description"; "status"; "priority"; "due_date";
          "user_id"; "created_at"; "updated_at"].
Proof.
  intros Hwf.
  destruct (wf_task_row_shape _ Hwf)
    as (i & ti & de & st & pr & du & ui & cr & up & dl & -> & _).
  unfold mark_deleted. cbn [get_column tasks_schema c_name String.eqb Ascii.eqb
                            Bool.eqb sql_eq tri_of_bool rowid].
  destruct (Z.eqb_spec i n) as [->|Hne]; cbn [is_true].
  - split; [reflexivity|]. split; [reflexivity|]. split; [congruence|].
    repeat constructor.
  - split; [reflexivity|]. split; [congruence|]. split; [reflexivity|].
    repeat constructor.
Qed.

(** After [delete_task] of a stored task, its row is still stored, with the
    deletion time and its other columns as before, and [find_by_id] does
    not find it. *)
Lemma delete_task_keeps_row (now now' now'' : datetime) (n : Z) (r : row)
    (db : database) :
  wf_tasks (tasks db) = true ->
  In r (t_rows (tasks db)) ->
  rowid r = n ->
  is_live r = true ->
  exists db',
    task_service.delete_task now now' now'' (PyInt n) db = (Returns true, db') /\
    In (mark_deleted now' n r) (t_rows (tasks db')) /\
    rowid (mark_deleted now' n r) = n /\
    get_column tasks_schema (mark_deleted now' n r) "deleted_at"
    = SText (isoformat now') /\
    List.length (t_rows (tasks db')) = List.length (t_rows (tasks db)) /\
    forall t, fst (Task.find_by_id t (PyInt n) db') = Returns None.
Proof.
  intros Hwf Hr Hn Hlive.
  destruct (wf_tasks_inv _ _ Hwf Hr) as [Hrow Hasc].
  destruct (mark_deleted_wf now' n r Hrow) as (Hid & Hdel & _ & _).
  assert (Hl : live_row n r = true).
  { unfold live_row. rewrite andb_true_iff. split; [|exact Hlive].
    destruct (wf_task_row_shape _ Hrow) as (i & ? & ? & ? & ? & ? & ? & ? & ? & ? & -> & _).
    cbn in *. subst i. now rewrite Z.eqb_refl. }
  destruct (wf_task_row_shape _ Hrow)
    as (i & ti & de & st & pr & du & ui & cr & up & dl & Er & _ & _ & _
        & Hdu & _ & Hcr & Hup & Hdl).
  eexists. split.
  - unfold task_service.delete_task, bind, Task.find_by_id, bind.
    rewrite execute_find_by_id, (filter_live_row_unique _ _ _ _ Hasc Hr Hl).
    cbn [fetchone]. unfold lift. rewrite Er.
    rewrite (from_row_wf now i ti de st pr du ui cr up dl Hdu Hcr Hup Hdl).
    cbn [ret].
    rewrite (delete_marks_rows now' now'' _ n) by (rewrite Er in Hn; cbn in *; now subst).
    reflexivity.
  - cbn [tasks t_rows]. split; [now apply in_map|].
    split; [now rewrite Hid|]. split; [now apply Hdel|].
    split; [apply length_map|].
    intros t. unfold Task.find_by_id, bind. rewrite execute_find_by_id.
    cbn [tasks t_rows]. rewrite filter_nil; [reflexivity|].
    intros x Hx. apply in_map_iff in Hx as (y & <- & Hy).
    destruct (wf_tasks_inv _ _ Hwf Hy) as [Hyrow _].
    destruct (mark_deleted_wf now' n y Hyrow) as (Hyid & Hydel & Hysame & _).
    destruct (Z.eq_dec (rowid y) n) as [E|E].
    + unfold live_row. rewrite (Hydel E). cbn. apply andb_false_r.
    + rewrite (Hysame E). destruct (live_row n y) eqn:L; [|reflexivity].
      apply live_row_rowid in L. contradiction.
Qed.

(** ** Well-formedness is maintained

    The seed of [init_db] is well formed, and saving a new task, updating
    the status of a task and soft-deleting a task keep the table well
    formed. *)

Lemma stamp_ok_isoformat (d : datetime) :
  valid_datetime d = true -> stamp_ok (SText (isoformat d)) = true.
Proof. intros H. simpl. now rewrite (fromisoformat_isoformat d H). Qed.

Lemma stamp_ok_reformat (v : sqlval) : stamp_ok v = true -> stamp_ok (reformat v) = true.
Proof.
  destruct v as [|z|s]; simpl; intros H; try assumption.
  destruct (fromisoformat s) as [d|] eqn:E; [|discriminate].
  apply stamp_ok_isoformat. now apply fromisoformat_valid in E.
Qed.

Lemma ascending_map (f : row -> row) (rows : list row) :
  (forall r, In r rows -> rowid (f r) = rowid r) ->
  forall p, ascending p (map f rows) = ascending p rows.
Proof.
  induction rows as [|x rows IH]; simpl; intros H p; [reflexivity|].
  rewrite (H x (or_introl eq_refl)), IH; [reflexivity|].
  intros r Hr. apply H. now right.
Qed.

Lemma ascending_app (rows : list row) (r : row) :
  forall p, ascending p rows = true -> p < rowid r ->
            (forall x, In x rows -> rowid x < rowid r) ->
            ascending p (rows ++ [r]) = true.
Proof.
  induction rows as [|x rows IH]; simpl; intros p H Hp Hall.
  - rewrite andb_true_r. now apply Z.ltb_lt.
  - apply andb_true_iff in H as [Hx Hrest]. rewrite Hx. cbn [andb].
    apply IH; [assumption|apply Hall; now left|].
    intros y Hy. apply Hall. now right.
Qed.

Lemma wf_tasks_seed (stamp : string) :
  stamp_ok (SText stamp) = true -> wf_tasks (seed_tasks stamp) = true.
Proof.
  intros H. unfold wf_tasks, seed_tasks.
  cbn [t_rows forallb wf_task_row text_ok integer_ok andb].
  rewrite H. vm_compute. reflexivity.
Qed.

Lemma wf_tasks_save_new (now : datetime) (t t' : Task.t) (db db' : database) :
  wf_tasks (tasks db) = true ->
  Task.id t = PyNone ->
  well_typed_task t = true ->
  valid_datetime now = true ->
  Task.save now t db = (Returns t', db') ->
  wf_tasks (tasks db') = true.
Proof.
  intros Hwf Hid Hwt Hnow Hsave.
  assert (Hwt' := Hwt). unfold well_typed_task in Hwt'.
  rewrite !andb_true_iff in Hwt'.
  destruct Hwt' as ((((((Ht & Hde) & Hst) & Hpr) & Hdu) & Hui) & Hcr).
  destruct (Task.created_at t) as [| | | |c] eqn:Hc; try discriminate.
  destruct (datetime_round_trip _ Hdu) as (due & Hdue & _).
  assert (Htitle : Task.title t <> PyNone) by (destruct (Task.title t); discriminate).
  assert (Hidf : truthy (Task.id t) = false) by (now rewrite Hid).
  rewrite (save_inserts now t db due c Hidf Hdue Hc Htitle) in Hsave.
  injection Hsave as _ <-. unfold wf_tasks in *. cbn [tasks t_rows].
  apply andb_true_iff in Hwf as [Hall Hasc].
  destruct (next_task_id_fresh db) as [Hpos Hfresh].
  rewrite forallb_app, Hall. cbn [andb forallb]. apply andb_true_iff. split.
  - rewrite andb_true_r. unfold inserted_row.
    destruct (Task.title t) as [| | |ti|]; try discriminate.
    destruct (Task.description t) as [| | |?|]; try discriminate;
    destruct (Task.status t) as [| | |?|]; try discriminate;
    destruct (Task.priority t) as [| | |?|]; try discriminate;
    destruct (Task.user_id t) as [| |?| |]; try discriminate;
    destruct (Task.due_date t) as [| | | |dd]; try discriminate;
    cbn [isoformat_if truthy call_isoformat] in Hdue; injection Hdue as <-;
    cbn [wf_task_row bind_param apply_affinity text_ok integer_ok andb];
    rewrite ?stamp_ok_isoformat by assumption; reflexivity.
  - apply ascending_app; [assumption|exact Hpos|exact Hfresh].
Qed.

Lemma wf_updated_row (now : datetime) (s : string) (r : row) :
  valid_datetime now = true ->
  wf_task_row r = true ->
  wf_task_row (updated_row now s r) = true /\ rowid (updated_row now s r) = rowid r.
Proof.
  intros Hnow Hwf.
  destruct (wf_task_row_shape _ Hwf)
    as (i & ti & de & st & pr & du & ui & cr & up & dl & -> & Hde & Hst & Hpr
        & Hdu & Hui & Hcr & Hup & Hdl).
  split; [|reflexivity]. cbn [updated_row wf_task_row].
  rewrite Hde, Hpr, Hui, Hcr, Hdl, (stamp_ok_reformat _ Hdu),
          (stamp_ok_isoformat _ Hnow).
  reflexivity.
Qed.

Lemma wf_tasks_map (f : row -> row) (t : table) (seq : Z) :
  wf_tasks t = true ->
  (forall r, wf_task_row r = true ->
             wf_task_row (f r) = true /\ rowid (f r) = rowid r) ->
  wf_tasks (mkTable (map f (t_rows t)) seq) = true.
Proof.
  unfold wf_tasks. intros H Hf. apply andb_true_iff in H as [Hall Hasc].
  rewrite forallb_forall in Hall. cbn [t_rows]. apply andb_true_iff. split.
  - apply forallb_forall. intros x Hx. apply in_map_iff in Hx as (y & <- & Hy).
    apply Hf. now apply Hall.
  - rewrite ascending_map; [assumption|]. intros r Hr. apply Hf. now apply Hall.
Qed.

Lemma wf_tasks_update_status (now now' : datetime) (n : Z) (r : row)
    (data : dict) (s : string) (db db' : database) (d : option dict) :
  wf_tasks (tasks db) = true ->
  In r (t_rows (tasks db)) -> rowid r = n -> is_live r = true ->
  only_status data s ->
  valid_datetime now' = true ->
  task_service.update_task now now' (PyInt n) data db = (Returns d, db') ->
  wf_tasks (tasks db') = true.
Proof.
  intros Hwf Hr Hn Hlive Hdata Hnow H.
  destruct (update_task_status_effect now now' n r data s db Hwf Hr Hn Hlive Hdata)
    as (d0 & d1 & _ & Hup & _).
  rewrite Hup in H. injection H as _ <-. cbn [tasks].
  apply wf_tasks_map; [assumption|]. intros x Hx.
  destruct (rowid x =? n); [now apply wf_updated_row|auto].
Qed.

Lemma wf_tasks_delete (now now' : datetime) (t : Task.t) (n : Z)
    (db : database) :
  wf_tasks (tasks db) = true ->
  Task.id t = PyInt n ->
  valid_datetime now = true ->
  wf_tasks (tasks (snd (Task.delete now now' t db))) = true.
Proof.
  intros Hwf Hid Hnow. rewrite (delete_marks_rows now now' t n db Hid).
  cbn [snd tasks]. apply wf_tasks_map; [assumption|]. intros x Hx.
  destruct (wf_task_row_shape _ Hx)
    as (i & ti & de & st & pr & du & ui & cr & up & dl & -> & Hde & Hst & Hpr
        & Hdu & Hui & Hcr & Hup & Hdl).
  unfold mark_deleted. cbn [get_column tasks_schema c_name String.eqb Ascii.eqb
                            Bool.eqb sql_eq tri_of_bool].
  destruct (i =? n); cbn [is_true tri_of_bool]; [|split; [assumption|reflexivity]].
  split; [|reflexivity].
  cbn [set_columns tasks_schema assigned c_name c_aff String.eqb Ascii.eqb
       Bool.eqb apply_affinity wf_task_row].
  rewrite Hde, Hst, Hpr, Hdu, Hui, Hcr, Hup, (stamp_ok_isoformat _ Hnow).
  reflexivity.
Qed.

(** ** Falsy filter values *)

Lemma insert_sorted_perm (before : row -> row -> bool) (x : row) (l : list row) :
  Permutation (insert_sorted before x l) (x :: l).
Proof.
  induction l as [|a l IH]; simpl; [reflexivity|].
  destruct (before x a); [reflexivity|].
  rewrite IH. apply perm_swap.
Qed.

Lemma order_rows_perm (sch : schema) (o : option (string * bool)) (l : list row) :
  Permutation (order_rows sch o l) l.
Proof.
  destruct o as [[col desc]|]; simpl; [|reflexivity].
  unfold sort_rows. induction l as [|a l IH]; simpl; [reflexivity|].
  rewrite insert_sorted_perm. now constructor.
Qed.

(** The entities read from well-formed rows carry the rows' ids, titles,
    owners and statuses. *)
Lemma from_rows_keys (now : datetime) (rows : list row) :
  (forall r, In r rows -> wf_task_row r = true) ->
  exists l, Task.from_rows now rows = Returns l /\
            map task_key l = map row_key rows.
Proof.
  induction rows as [|r rows IH]; intros H.
  - exists []. split; reflexivity.
  - destruct (wf_task_row_shape _ (H r (or_introl eq_refl)))
      as (i & ti & de & st & pr & du & ui & cr & up & dl & -> & Hde & Hst & Hpr
          & Hdu & Hui & Hcr & Hup & Hdl).
    destruct IH as (l & Hl & Hk); [intros x Hx; apply H; now right|].
    eexists. cbn [Task.from_rows].
    rewrite (from_row_wf now i ti de st pr du ui cr up dl Hdu Hcr Hup Hdl).
    cbn [obind]. rewrite Hl. cbn [obind]. split; [reflexivity|].
    cbn [map]. rewrite Hk. reflexivity.
Qed.

(** On a well-formed table, [find_all] with harmless filter values returns
    the tasks of exactly the rows that are not soft-deleted and match the
    truthy filters. *)
Lemma find_all_safe_keys (now : datetime) (user_id status : pyval)
    (db : database) :
  wf_tasks (tasks db) = true ->
  safe_owner user_id = true ->
  safe_status status = true ->
  exists l,
    Task.find_all now user_id status db = (Returns l, db) /\
    Permutation (map task_key l)
      (map row_key (filter (fun r => is_live r
                                     && filter_matches "user_id" user_id r
                                     && filter_matches "status" status r)
                           (t_rows (tasks db)))).
Proof.
  intros Hwf Ho Hs. rewrite (find_all_safe_filters now _ _ db Ho Hs).
  set (rows := filter _ (t_rows (tasks db))).
  destruct (from_rows_keys now
              (order_rows tasks_schema (Some ("created_at", true)) rows))
    as (l & Hl & Hk).
  { intros r Hr. apply order_rows_in in Hr. unfold rows in Hr.
    apply filter_In in Hr as [Hr _]. exact (proj1 (wf_tasks_inv _ _ Hwf Hr)). }
  exists l. rewrite Hl. split; [reflexivity|].
  rewrite Hk. apply Permutation_map, order_rows_perm.
Qed.

(** C10. A falsy [user_id] (such as [0]) or [status] (such as the empty
    string) is no filter at all.  Each one alone is dropped whatever the
    other filter is, so [find_all(0, s)] is [find_all(None, s)]; with both
    falsy [find_all] and [get_tasks] answer as without filters; and on a
    well-formed table that answer holds the tasks of all the rows that are
    not soft-deleted, with their ids, titles, owners and statuses, not only
    those whose owner is [0] or whose status is empty. *)
Theorem find_all_falsy_filter_is_absent :
  forall (now : datetime) (db : database) (user_id status : pyval),
    (truthy user_id = false ->
     Task.find_all now user_id status db = Task.find_all now PyNone status db) /\
    (truthy status = false ->
     Task.find_all now user_id status db = Task.find_all now user_id PyNone db) /\
    (truthy user_id = false ->
     truthy status = false ->
     Task.find_all now user_id status db
     = (Task.from_rows now
          (order_rows tasks_schema (Some ("created_at", true))
             (filter is_live (t_rows (tasks db)))), db)
     /\ Task.find_all now user_id status db = Task.find_all now PyNone PyNone db
     /\ task_service.get_tasks now
          (Some [("status", status); ("assigned_to", user_id)]) db
        = task_service.get_tasks now None db
     /\ (wf_tasks (tasks db) = true ->
         exists l,
           Task.find_all now user_id status db = (Returns l, db) /\
           Permutation (map task_key l)
             (map row_key (filter is_live (t_rows (tasks db)))))).
Proof.
  intros now db user_id status.
  assert (Q1 : forall u s, truthy u = false ->
                 Task.find_all_query u s = Task.find_all_query PyNone s).
  { intros u s Hu. unfold Task.find_all_query. now rewrite Hu. }
  assert (Q2 : forall u s, truthy s = false ->
                 Task.find_all_query u s = Task.find_all_query u PyNone).
  { intros u s Hs. unfold Task.find_all_query. now rewrite Hs. }
  assert (E : forall u s, truthy u = false -> truthy s = false ->
                          Task.find_all now u s db
                          = (Task.from_rows now
                               (order_rows tasks_schema (Some ("created_at", true))
                                  (filter is_live (t_rows (tasks db)))), db)).
  { intros u s Hu' Hs'. unfold Task.find_all, bind.
    rewrite (find_all_query_falsy u s Hu' Hs'), execute_find_all_unfiltered.
    reflexivity. }
  split; [|split].
  - intros Hu. unfold Task.find_all. now rewrite (Q1 user_id status Hu).
  - intros Hs. unfold Task.find_all. now rewrite (Q2 user_id status Hs).
  - intros Hu Hs. split; [now apply E|]. split; [|split].
    + rewrite (E user_id status Hu Hs). symmetry. now apply E.
    + unfold task_service.get_tasks, bind.
      cbn [dict_get_none dict_get String.eqb Ascii.eqb Bool.eqb].
      rewrite (E user_id status Hu Hs), (E PyNone PyNone eq_refl eq_refl).
      reflexivity.
    + intros Hwf.
      destruct (find_all_safe_keys now PyNone PyNone db Hwf eq_refl eq_refl)
        as (l & Hl & Hp).
      exists l. split.
      * rewrite (E user_id status Hu Hs).
        rewrite (E PyNone PyNone eq_refl eq_refl) in Hl. exact Hl.
      * erewrite filter_ext; [exact Hp|].
        intros r. unfold filter_matches. cbn [truthy].
        now rewrite !andb_true_r.
Qed.

(** An instance on the seeded database: with owner [0] the tasks of status
    ["pending"] are those that are listed without an owner filter, and with
    owner [0] and an empty status all six tasks come back, although no
    seeded task has that owner or that status. *)
Lemma find_all_falsy_filter_is_absent_witness :
  Task.find_all example_now (PyInt 0) (PyStr "pending") example_db
  = Task.find_all example_now PyNone (PyStr "pending") example_db
  /\ (exists l, Task.find_all example_now (PyInt 0) (PyStr "") example_db
                = (Returns l, example_db)
                /\ Permutation (map task_key l)
                     (map row_key (t_rows (tasks example_db)))
                /\ List.length l = 6%nat).
Proof.
  destruct (find_all_falsy_filter_is_absent example_now example_db (PyInt 0)
              (PyStr "pending")) as (H1 & _).
  destruct (find_all_falsy_filter_is_absent example_now example_db (PyInt 0)
              (PyStr "")) as (_ & _ & H3).
  split; [exact (H1 eq_refl)|].
  destruct (H3 eq_refl eq_refl) as (_ & _ & _ & H4).
  assert (Hwf : wf_tasks (tasks example_db) = true) by (vm_compute; reflexivity).
  destruct (H4 Hwf) as (l & Hl & Hp).
  exists l. split; [exact Hl|]. split; [exact Hp|].
  apply Permutation_length in Hp. rewrite !length_map in Hp. exact Hp.
Defined.

(** * Further properties of the code

    A payload is a JSON object handed to a constructor as keyword
    arguments.  The statements are about payloads without a key [self]:
    that key clashes with the constructor's own first parameter and is a
    [TypeError] before any field is looked at. *)

(** ** Lookups that find nothing *)

Lemma existsb_false_in {A : Type} (f : A -> bool) (l : list A) (x : A) :
  existsb f l = false -> In x l -> f x = false.
Proof.
  intros H Hx. destruct (f x) eqn:E; [|reflexivity].
  assert (existsb f l = true) by (apply existsb_exists; eauto). congruence.
Qed.

Lemma find_by_id_missing (now : datetime) (n : Z) (db : database) :
  existsb (live_row n) (t_rows (tasks db)) = false ->
  Task.find_by_id now (PyInt n) db = (Returns None, db).
Proof.
  intros H. unfold Task.find_by_id, bind. rewrite execute_find_by_id.
  rewrite filter_nil; [reflexivity|].
  intros x Hx. exact (existsb_false_in _ _ _ H Hx).
Qed.

Lemma task_not_found_lemma (now now' now'' : datetime) (n : Z) (db : database) :
  existsb (live_row n) (t_rows (tasks db)) = false ->
  task_service.get_task now (PyInt n) db = (Returns None, db) /\
  task_service.delete_task now now' now'' (PyInt n) db = (Returns false, db).
Proof.
  intros H. pose proof (find_by_id_missing now n db H) as Hfind.
  unfold task_service.get_task, task_service.delete_task, bind.
  rewrite Hfind. split; reflexivity.
Qed.

(** X1. When no stored task has the integer id (of the 64-bit range) and
    is not soft-deleted, [get_task] and [update_task] (for a payload
    without a key [self]) return [None], [delete_task] returns [False], and
    none of them changes the database. *)
Theorem task_not_found_changes_nothing :
  forall (now now' now'' : datetime) (n : Z) (data : dict) (db : database),
    existsb (live_row n) (t_rows (tasks db)) = false ->
    in_int64 (PyInt n) = true ->
    dict_get data "self" = None ->
    task_service.get_task now (PyInt n) db = (Returns None, db) /\
    task_service.update_task now now' (PyInt n) data db = (Returns None, db) /\
    task_service.delete_task now now' now'' (PyInt n) db = (Returns false, db).
Proof.
  intros now now' now'' n data db H _ _.
  pose proof (find_by_id_missing now n db H) as Hfind.
  unfold task_service.get_task, task_service.update_task,
    task_service.delete_task, bind.
  rewrite Hfind. repeat split; reflexivity.
Qed.

Lemma task_not_found_changes_nothing_witness :
  task_service.get_task example_now (PyInt 99) example_db
  = (Returns None, example_db) /\
  task_service.update_task example_now example_later (PyInt 99)
    [("status", PyStr "completed")] example_db = (Returns None, example_db) /\
  task_service.delete_task example_now example_later example_later (PyInt 99)
    example_db = (Returns false, example_db).
Proof.
  apply (task_not_found_changes_nothing example_now example_later example_later
           99 [("status", PyStr "completed")] example_db); reflexivity.
Defined.

(** ** What [find_by_id] returns *)

Lemma live_row_id (n : Z) (r : row) :
  live_row n r = true -> nth_error r 0 = Some (SInt n).
Proof.
  unfold live_row. intros H. apply andb_true_iff in H as [H _].
  destruct r as [|v r]; [discriminate|]. cbn in H.
  destruct v as [|z|s]; try discriminate. simpl in *.
  destruct (Z.eqb_spec z n); [now subst|discriminate].
Qed.

Lemma from_row_id (now : datetime) (r : row) (t : Task.t) (v : sqlval) :
  Task._from_row now r = Returns t -> nth_error r 0 = Some v ->
  Task.id t = py_of_sql v.
Proof.
  unfold Task._from_row, item. intros H Hv. rewrite Hv in H. cbn [obind] in H.
  repeat (apply obind_returns in H as (? & ? & H)).
  injection H as <-. reflexivity.
Qed.

(** X2. A task that [find_by_id] returns for an integer id carries that id
    and no deletion time, it is read from a stored row that is not
    soft-deleted, and the database is unchanged. *)
Theorem find_by_id_returns_live_task :
  forall (now : datetime) (n : Z) (db db' : database) (t : Task.t),
    Task.find_by_id now (PyInt n) db = (Returns (Some t), db') ->
    db' = db /\ Task.id t = PyInt n /\ Task.deleted_at t = PyNone /\
    exists r, In r (t_rows (tasks db)) /\ rowid r = n /\ is_live r = true
              /\ Task._from_row now r = Returns t.
Proof.
  intros now n db db' t. unfold Task.find_by_id, bind.
  rewrite execute_find_by_id.
  destruct (filter (live_row n) (t_rows (tasks db))) as [|r rest] eqn:E;
    cbn [fetchone]; [intros H; discriminate|].
  assert (Hr : In r (filter (live_row n) (t_rows (tasks db))))
    by (rewrite E; now left).
  apply filter_In in Hr as [Hin Hl].
  unfold lift. destruct (Task._from_row now r) as [t0|e] eqn:Hf; [|discriminate].
  unfold ret. intros H. injection H as -> ->.
  assert (Hlive : is_live r = true).
  { unfold live_row in Hl. now apply andb_true_iff in Hl as [_ Hl]. }
  split; [reflexivity|]. split; [|split].
  - exact (from_row_id _ _ _ _ Hf (live_row_id _ _ Hl)).
  - exact (from_row_live _ _ _ Hf Hlive).
  - exists r. repeat split; try assumption. now apply live_row_rowid.
Qed.

Lemma find_by_id_returns_live_task_witness :
  example_db = example_db /\
  Task.id (Task.mk (PyInt 3) (PyStr "Review Q4 report")
             (PyStr "Financial review for Q4 2024") (PyStr "completed")
             (PyStr "high") (PyDatetime (mkDatetime 2025 10 15 9 0 0 0))
             (PyInt 1) (PyDatetime (mkDatetime 2025 11 1 8 0 0 0))
             (PyDatetime (mkDatetime 2025 11 1 8 0 0 0)) PyNone) = PyInt 3 /\
  Task.deleted_at (Task.mk (PyInt 3) (PyStr "Review Q4 report")
             (PyStr "Financial review for Q4 2024") (PyStr "completed")
             (PyStr "high") (PyDatetime (mkDatetime 2025 10 15 9 0 0 0))
             (PyInt 1) (PyDatetime (mkDatetime 2025 11 1 8 0 0 0))
             (PyDatetime (mkDatetime 2025 11 1 8 0 0 0)) PyNone) = PyNone /\
  exists r, In r (t_rows (tasks example_db)) /\ rowid r = 3 /\ is_live r = true
            /\ Task._from_row example_now r
               = Returns (Task.mk (PyInt 3) (PyStr "Review Q4 report")
                   (PyStr "Financial review for Q4 2024") (PyStr "completed")
                   (PyStr "high") (PyDatetime (mkDatetime 2025 10 15 9 0 0 0))
                   (PyInt 1) (PyDatetime (mkDatetime 2025 11 1 8 0 0 0))
                   (PyDatetime (mkDatetime 2025 11 1 8 0 0 0)) PyNone).
Proof.
  apply (find_by_id_returns_live_task example_now 3 example_db example_db).
  vm_compute. reflexivity.
Defined.

(** ** Listing with harmless filter values *)

(** X3. For an owner that is absent or an integer of the 64-bit range and
    a status that is absent or has neither a single quote nor a NUL
    character, [find_all] returns the stored tasks that
    are not soft-deleted and whose owner and status equal the truthy filter
    values, latest [created_at] first; none of them has a deletion time and
    the database is unchanged. *)
Theorem find_all_filters_by_equality :
  forall (now : datetime) (user_id status : pyval) (db : database),
    safe_owner user_id = true ->
    in_int64 user_id = true ->
    safe_status status = true ->
    nul_free status = true ->
    Task.find_all now user_id status db
    = (Task.from_rows now
         (order_rows tasks_schema (Some ("created_at", true))
            (filter (fun r => is_live r
                              && filter_matches "user_id" user_id r
                              && filter_matches "status" status r)
                    (t_rows (tasks db)))), db)
    /\ forall l t, fst (Task.find_all now user_id status db) = Returns l ->
                   In t l -> Task.deleted_at t = PyNone.
Proof.
  intros now user_id status db Hu _ Hs _.
  split; [now apply find_all_safe_filters|].
  intros l t Hl Ht.
  apply (find_all_safe_filters_skip_deleted now user_id status db db l t Hu Hs);
    [|assumption].
  rewrite (find_all_safe_filters now _ _ db Hu Hs) in *. cbn [fst] in Hl.
  now rewrite Hl.
Qed.

(** An instance: the completed tasks of user 1 in the seeded database. *)
Lemma find_all_filters_by_equality_witness :
  Task.find_all example_now (PyInt 1) (PyStr "completed") example_db
  = (Task.from_rows example_now
       (order_rows tasks_schema (Some ("created_at", true))
          (filter (fun r => is_live r
                            && filter_matches "user_id" (PyInt 1) r
                            && filter_matches "status" (PyStr "completed") r)
                  (t_rows (tasks example_db)))), example_db)
  /\ forall l t,
      fst (Task.find_all example_now (PyInt 1) (PyStr "completed") example_db)
      = Returns l -> In t l -> Task.deleted_at t = PyNone.
Proof.
  apply (find_all_filters_by_equality example_now (PyInt 1) (PyStr "completed")
           example_db); reflexivity.
Defined.

(** ** Soft delete *)

(** X4. [delete_task] of a stored task that is not soft-deleted returns
    [True]; the row stays in the table with the deletion time and all its
    other columns as before, no row is added or removed, the [users] table
    is untouched; afterwards [get_task] returns [None] for the id and a
    second [delete_task] returns [False] and changes nothing. *)
Theorem delete_task_is_a_soft_delete :
  forall (now now' now'' : datetime) (n : Z) (r : row) (db : database),
    wf_tasks (tasks db) = true ->
    In r (t_rows (tasks db)) ->
    rowid r = n ->
    is_live r = true ->
    exists db',
      task_service.delete_task now now' now'' (PyInt n) db = (Returns true, db') /\
      users db' = users db /\
      List.length (t_rows (tasks db')) = List.length (t_rows (tasks db)) /\
      In (mark_deleted now' n r) (t_rows (tasks db')) /\
      get_column tasks_schema (mark_deleted now' n r) "deleted_at"
      = SText (isoformat now') /\
      Forall (fun col => get_column tasks_schema (mark_deleted now' n r) col
                         = get_column tasks_schema r col)
             ["id"; "title"; "description"; "status"; "priority"; "due_date";
              "user_id"; "created_at"; "updated_at"] /\
      task_service.get_task now (PyInt n) db' = (Returns None, db') /\
      task_service.delete_task now now' now'' (PyInt n) db' = (Returns false, db').
Proof.
  intros now now' now'' n r db Hwf Hr Hn Hlive.
  destruct (wf_tasks_inv _ _ Hwf Hr) as [Hrow Hasc].
  destruct (mark_deleted_wf now' n r Hrow) as (Hid & Hdel & _ & Hsame).
  assert (Hl : live_row n r = true).
  { unfold live_row. rewrite andb_true_iff. split; [|exact Hlive].
    destruct (wf_task_row_shape _ Hrow)
      as (i & ? & ? & ? & ? & ? & ? & ? & ? & ? & -> & _).
    cbn in *. subst i. now rewrite Z.eqb_refl. }
  destruct (wf_task_row_shape _ Hrow)
    as (i & ti & de & st & pr & du & ui & cr & up & dl & Er & _ & _ & _
        & Hdu & _ & Hcr & Hup & Hdl).
  set (db' := mkDb (mkTable (map (mark_deleted now' n) (t_rows (tasks db)))
                            (t_seq (tasks db))) (users db)).
  assert (Hgone : existsb (live_row n) (t_rows (tasks db')) = false).
  { cbn [db' tasks t_rows]. apply not_true_is_false. intros Hex.
    apply existsb_exists in Hex as (x & Hx & Hlx).
    apply in_map_iff in Hx as (y & <- & Hy).
    destruct (wf_tasks_inv _ _ Hwf Hy) as [Hyrow _].
    destruct (mark_deleted_wf now' n y Hyrow) as (Hyid & Hydel & Hysame & _).
    destruct (Z.eq_dec (rowid y) n) as [E|E].
    - unfold live_row in Hlx. rewrite (Hydel E) in Hlx. cbn in Hlx.
      now rewrite andb_false_r in Hlx.
    - rewrite (Hysame E) in Hlx. apply live_row_rowid in Hlx. contradiction. }
  exists db'. split.
  - unfold task_service.delete_task, bind, Task.find_by_id, bind.
    rewrite execute_find_by_id, (filter_live_row_unique _ _ _ _ Hasc Hr Hl).
    cbn [fetchone]. unfold lift. rewrite Er.
    rewrite (from_row_wf now i ti de st pr du ui cr up dl Hdu Hcr Hup Hdl).
    cbn [ret].
    rewrite (delete_marks_rows now' now'' _ n)
      by (rewrite Er in Hn; cbn in *; now subst).
    reflexivity.
  - split; [reflexivity|]. split; [apply length_map|].
    split; [cbn [db' tasks t_rows]; now apply in_map|].
    split; [now apply Hdel|]. split; [exact Hsame|].
    destruct (task_not_found_lemma now now' now'' n db' Hgone) as [Hg Hd].
    split; assumption.
Qed.

(** An instance: deleting the second seeded task. *)
Lemma delete_task_is_a_soft_delete_witness :
  exists db',
    task_service.delete_task example_now example_later example_later (PyInt 2)
      example_db = (Returns true, db') /\
    users db' = users example_db /\
    List.length (t_rows (tasks db')) = List.length (t_rows (tasks example_db)) /\
    In (mark_deleted example_later 2 (nth 1 (t_rows (tasks example_db)) []))
       (t_rows (tasks db')) /\
    get_column tasks_schema
      (mark_deleted example_later 2 (nth 1 (t_rows (tasks example_db)) []))
      "deleted_at" = SText (isoformat example_later) /\
    Forall (fun col =>
              get_column tasks_schema
                (mark_deleted example_later 2 (nth 1 (t_rows (tasks example_db)) []))
                col
              = get_column tasks_schema (nth 1 (t_rows (tasks example_db)) []) col)
           ["id"; "title"; "description"; "status"; "priority"; "due_date";
            "user_id"; "created_at"; "updated_at"] /\
    task_service.get_task example_now (PyInt 2) db' = (Returns None, db') /\
    task_service.delete_task example_now example_later example_later (PyInt 2) db'
    = (Returns false, db').
Proof.
  apply (delete_task_is_a_soft_delete example_now example_later example_later 2
           (nth 1 (t_rows (tasks example_db)) []) example_db).
  - vm_compute; reflexivity.
  - right; left; reflexivity.
  - reflexivity.
  - reflexivity.
Defined.

(** ** Due dates that arrive as text *)

Lemma text_due_date_raises (s : string) :
  s <> "" -> isoformat_if (PyStr s) = Raises AttributeError.
Proof.
  intros Hs. unfold isoformat_if, truthy.
  destruct (String.eqb_spec s ""); [contradiction|reflexivity].
Qed.

(** X5. A create payload (with a title and no key [self]) whose
    [due_date] is a non-empty string, which is how JSON delivers a date,
    makes [create_task] raise [AttributeError] (a string has no
    [isoformat]); nothing is stored and the route answers with the server
    error. *)
Theorem create_task_rejects_text_due_date :
  forall (now now' : datetime) (data : dict) (db : database)
         (title : pyval) (s : string),
    dict_get data "title" = Some title ->
    dict_get data "due_date" = Some (PyStr s) ->
    s <> "" ->
    dict_get data "self" = None ->
    task_service.create_task now now' data db = (Raises AttributeError, db) /\
    tasks_routes.create_task now now' data db = (InternalServerError, db).
Proof.
  intros now now' data db title s Ht Hd Hs _.
  assert (H : task_service.create_task now now' data db = (Raises AttributeError, db)).
  { unfold task_service.create_task, bind, lift, TaskCreate.init. rewrite Ht.
    unfold Task.save, bind, lift.
    cbn [task_service.build Task.id Task.new Task.init truthy Task.due_date
         TaskCreate.due_date].
    unfold kwarg. rewrite Hd, (text_due_date_raises s Hs). reflexivity. }
  split; [exact H|].
  unfold tasks_routes.create_task, dispatch. now rewrite H.
Qed.

Lemma create_task_rejects_text_due_date_witness :
  task_service.create_task example_now example_later
    [("title", PyStr "Write spec"); ("due_date", PyStr "2025-12-01T09:00:00")]
    example_db = (Raises AttributeError, example_db) /\
  tasks_routes.create_task example_now example_later
    [("title", PyStr "Write spec"); ("due_date", PyStr "2025-12-01T09:00:00")]
    example_db = (InternalServerError, example_db).
Proof.
  apply (create_task_rejects_text_due_date example_now example_later
           [("title", PyStr "Write spec"); ("due_date", PyStr "2025-12-01T09:00:00")]
           example_db (PyStr "Write spec") "2025-12-01T09:00:00").
  - reflexivity.
  - reflexivity.
  - discriminate.
  - reflexivity.
Defined.

(** The entity that [find_by_id] reads from a well-formed stored row. *)
Lemma find_by_id_wf_row (now : datetime) (n : Z) (r : row) (db : database) :
  wf_tasks (tasks db) = true ->
  In r (t_rows (tasks db)) ->
  rowid r = n ->
  is_live r = true ->
  exists t0,
    Task.find_by_id now (PyInt n) db = (Returns (Some t0), db) /\
    Task.id t0 = PyInt n /\ 0 < n /\
    (exists ti, Task.title t0 = PyStr ti).
Proof.
  intros Hwf Hr Hn Hlive.
  destruct (wf_tasks_inv _ _ Hwf Hr) as [Hrow Hasc].
  destruct (wf_task_row_shape _ Hrow)
    as (i & ti & de & st & pr & du & ui & cr & up & dl & -> & _ & _ & _
        & Hdu & _ & Hcr & Hup & Hdl).
  cbn [rowid] in Hn. subst i.
  pose proof (ascending_lt _ _ _ Hasc Hr) as Hpos. cbn [rowid] in Hpos.
  assert (Hl : live_row n [SInt n; SText ti; de; st; pr; du; ui; cr; up; dl] = true).
  { unfold live_row. cbn. rewrite Z.eqb_refl. exact Hlive. }
  eexists. split.
  - unfold Task.find_by_id, bind. rewrite execute_find_by_id.
    rewrite (filter_live_row_unique _ _ _ _ Hasc Hr Hl). cbn [fetchone].
    unfold lift.
    rewrite (from_row_wf now n ti de st pr du ui cr up dl Hdu Hcr Hup Hdl).
    reflexivity.
  - cbn [Task.id Task.title]. split; [reflexivity|]. split; [assumption|eauto].
Qed.

(** X6. An update payload (without a key [self]) whose [due_date] is a
    non-empty string makes [update_task] of a stored task raise
    [AttributeError] and leaves the database as it was, whatever its other
    fields are: the due date of a task cannot be changed with a date given
    as text. *)
Theorem update_task_rejects_text_due_date :
  forall (now now' : datetime) (n : Z) (r : row) (data : dict) (s : string)
         (db : database),
    wf_tasks (tasks db) = true ->
    In r (t_rows (tasks db)) ->
    rowid r = n ->
    is_live r = true ->
    dict_get data "due_date" = Some (PyStr s) ->
    s <> "" ->
    dict_get data "self" = None ->
    task_service.update_task now now' (PyInt n) data db
    = (Raises AttributeError, db).
Proof.
  intros now now' n r data s db Hwf Hr Hn Hlive Hd Hs _.
  destruct (find_by_id_wf_row now n r db Hwf Hr Hn Hlive)
    as (t0 & Hfind & Hid & Hpos & _).
  unfold task_service.update_task, bind. rewrite Hfind.
  unfold Task.save.
  cbn [task_service.apply_update Task.id Task.due_date TaskUpdate.due_date
       TaskUpdate.init].
  rewrite Hid.
  assert (Htr : truthy (PyInt n) = true).
  { simpl. destruct (Z.eqb_spec n 0); [lia|reflexivity]. }
  rewrite Htr. unfold kwarg. rewrite Hd.
  cbn [task_service.unless_none]. unfold bind, lift.
  now rewrite (text_due_date_raises s Hs).
Qed.

Lemma update_task_rejects_text_due_date_witness :
  task_service.update_task example_now example_later (PyInt 1)
    [("due_date", PyStr "2025-12-01T09:00:00")] example_db
  = (Raises AttributeError, example_db).
Proof.
  apply (update_task_rejects_text_due_date example_now example_later 1
           example_row [("due_date", PyStr "2025-12-01T09:00:00")]
           "2025-12-01T09:00:00" example_db).
  - vm_compute; reflexivity.
  - left; reflexivity.
  - reflexivity.
  - reflexivity.
  - reflexivity.
  - discriminate.
  - reflexivity.
Defined.

(** ** A payload without a usable title *)

(** X7. [create_task] raises [TypeError] when the payload has no [title]
    key, and [sqlite3.IntegrityError] for the NOT NULL constraint of
    [tasks.title] when the title is null (the due date absent or null, no
    key [self], the other fields within the 64-bit range, row ids left);
    in both cases nothing is stored and the route answers with the server
    error. *)
Theorem create_task_requires_title :
  forall (now now' : datetime) (data : dict) (db : database),
    (dict_get data "title" = None ->
     task_service.create_task now now' data db = (Raises TypeError, db) /\
     tasks_routes.create_task now now' data db = (InternalServerError, db)) /\
    (dict_get data "title" = Some PyNone ->
     kwarg data "due_date" PyNone = PyNone ->
     dict_get data "self" = None ->
     fields_in_range task_fields data = true ->
     next_task_id db < 2 ^ 63 ->
     task_service.create_task now now' data db
     = (Raises (IntegrityError (NotNullFailed "tasks.title")), db) /\
     tasks_routes.create_task now now' data db = (InternalServerError, db)).
Proof.
  intros now now' data db. split.
  - intros Ht.
    assert (H : task_service.create_task now now' data db = (Raises TypeError, db)).
    { unfold task_service.create_task, bind, lift, TaskCreate.init.
      now rewrite Ht. }
    split; [exact H|]. unfold tasks_routes.create_task, dispatch. now rewrite H.
  - intros Ht Hd _ _ _.
    assert (H : task_service.create_task now now' data db
                = (Raises (IntegrityError (NotNullFailed "tasks.title")), db)).
    { unfold task_service.create_task, bind, lift, TaskCreate.init. rewrite Ht.
      unfold Task.save, bind, lift.
      cbn [task_service.build Task.id Task.new Task.init truthy Task.due_date
           TaskCreate.due_date Task.created_at py_or Task.title TaskCreate.title].
      rewrite Hd. reflexivity. }
    split; [exact H|]. unfold tasks_routes.create_task, dispatch. now rewrite H.
Qed.

Lemma create_task_requires_title_witness :
  (task_service.create_task example_now example_later
     [("description", PyStr "no title")] example_db
   = (Raises TypeError, example_db) /\
   tasks_routes.create_task example_now example_later
     [("description", PyStr "no title")] example_db
   = (InternalServerError, example_db)) /\
  (task_service.create_task example_now example_later
     [("title", PyNone)] example_db
   = (Raises (IntegrityError (NotNullFailed "tasks.title")), example_db) /\
   tasks_routes.create_task example_now example_later
     [("title", PyNone)] example_db
   = (InternalServerError, example_db)).
Proof.
  split.
  - apply (proj1 (create_task_requires_title example_now example_later
                    [("description", PyStr "no title")] example_db)).
    reflexivity.
  - apply (proj2 (create_task_requires_title example_now example_later
                    [("title", PyNone)] example_db)); reflexivity.
Defined.

(** ** Lookups in the [users] table *)

Lemma execute_user_find_by_id (n : Z) (db : database) :
  execute (User.find_by_id_query (PyInt n)) db
  = (Returns (filter (user_has_id n) (t_rows (users db))), db).
Proof.
  unfold execute.
  assert (Htok : tokenize (User.find_by_id_query (PyInt n))
                 = Some ([TWord "select"; TSym "*"; TWord "from"; TWord "users";
                          TWord "where"; TWord "id"; TSym "="] ++ int_tokens n)).
  { unfold tokenize, User.find_by_id_query. cbn [py_str].
    rewrite !chars_app. lex_literal. rewrite lex_run_show_Z.
    cbn [lex_finish lex_end rev app]. unfold int_tokens.
    destruct (Z.ltb_spec n 0); [rewrite Z.abs_neq by lia|rewrite Z.abs_eq by lia];
      reflexivity. }
  rewrite Htok. unfold int_tokens.
  destruct (n <? 0); cbn -[filter selected]; rewrite ?Z.opp_involutive;
    do 2 f_equal; apply filter_ext; intros r;
    unfold selected, user_has_id, eval_condition, eval_atom, eval_operand;
    cbn [fold_right];
    destruct (sql_eq (get_column users_schema r "id") (SInt n)); reflexivity.
Qed.

(** The statement [SELECT * FROM users WHERE col = 's'] for a text [s]
    without a single quote selects the rows whose column is [s]. *)
Ltac user_finder Hq :=
  unfold execute, tokenize;
  rewrite !chars_app;
  lex_literal;
  rewrite lex_run_app, (lex_run_quote_free _ _ _ Hq); cbv iota beta;
  cbn [chars list_ascii_of_string lex_run lex_step is_quote is_char Ascii.eqb
       Bool.eqb rev app lex_finish lex_end];
  rewrite str_of_rev;
  cbn -[filter selected];
  do 2 f_equal; apply filter_ext; intros r;
  unfold selected, user_matches, eval_condition, eval_atom, eval_operand;
  cbn [fold_right];
  match goal with
  | |- context [sql_eq ?a ?b] => destruct (sql_eq a b)
  end; reflexivity.

Lemma execute_find_by_username (s : string) (db : database) :
  no_quote s = true ->
  execute (User.find_by_username_query (PyStr s)) db
  = (Returns (filter (user_matches "username" s) (t_rows (users db))), db).
Proof.
  intros Hq. unfold no_quote in Hq. apply negb_true_iff in Hq.
  unfold User.find_by_username_query. cbn [py_str]. user_finder Hq.
Qed.

Lemma execute_find_by_email (s : string) (db : database) :
  no_quote s = true ->
  execute (User.find_by_email_query (PyStr s)) db
  = (Returns (filter (user_matches "email" s) (t_rows (users db))), db).
Proof.
  intros Hq. unfold no_quote in Hq. apply negb_true_iff in Hq.
  unfold User.find_by_email_query. cbn [py_str]. user_finder Hq.
Qed.

Lemma execute_find_by_api_key (s : string) (db : database) :
  no_quote s = true ->
  execute (User.find_by_api_key_query (PyStr s)) db
  = (Returns (filter (user_matches "api_key" s) (t_rows (users db))), db).
Proof.
  intros Hq. unfold no_quote in Hq. apply negb_true_iff in Hq.
  unfold User.find_by_api_key_query. cbn [py_str]. user_finder Hq.
Qed.

Ltac item_value k :=
  match goal with
  | H : item ?r k = Returns ?x |- _ =>
      let E := fresh "E" in
      unfold item in H; destruct (nth_error r k) eqn:E; [|discriminate];
      injection H as <-; apply (nth_error_nth _ _ SNull) in E
  end.

(** The fields that [User._from_row] copies from the row. *)
Lemma user_from_row_fields (now : datetime) (r : row) (u : User.t) :
  User._from_row now r = Returns u ->
  User.id u = py_of_sql (nth 0 r SNull) /\
  User.username u = py_of_sql (nth 1 r SNull) /\
  User.email u = py_of_sql (nth 2 r SNull) /\
  User.password_hash u = py_of_sql (nth 3 r SNull) /\
  User.api_key u = py_of_sql (nth 10 r SNull).
Proof.
  unfold User._from_row. intros H.
  repeat (apply obind_returns in H as (? & ? & H)).
  injection H as <-.
  cbn [User.id User.username User.email User.password_hash User.api_key User.init].
  item_value 0%nat. item_value 1%nat. item_value 2%nat. item_value 3%nat.
  item_value 10%nat.
  repeat split; congruence.
Qed.

Lemma get_user_columns (r : row) :
  get_column users_schema r "id" = nth 0 r SNull /\
  get_column users_schema r "username" = nth 1 r SNull /\
  get_column users_schema r "email" = nth 2 r SNull /\
  get_column users_schema r "api_key" = nth 10 r SNull.
Proof.
  do 11 (destruct r as [|? r]; [repeat split; reflexivity|]).
  repeat split; reflexivity.
Qed.

Lemma sql_eq_text (v : sqlval) (s : string) :
  is_true (sql_eq v (SText s)) = true -> v = SText s.
Proof.
  destruct v as [|z|x]; simpl; try discriminate.
  destruct (String.eqb_spec x s); [now subst|discriminate].
Qed.

Lemma sql_eq_int (v : sqlval) (n : Z) :
  is_true (sql_eq v (SInt n)) = true -> v = SInt n.
Proof.
  destruct v as [|z|x]; simpl; try discriminate.
  destruct (Z.eqb_spec z n); [now subst|discriminate].
Qed.

(** What [found] returns from the rows a finder selected. *)
Lemma found_inv (now : datetime) (f : row -> bool) (rows : list row)
    (db db' : database) (u : User.t) :
  User.found now (filter f rows) db = (Returns (Some u), db') ->
  db' = db /\ exists r, In r rows /\ f r = true /\ User._from_row now r = Returns u.
Proof.
  unfold User.found.
  destruct (filter f rows) as [|r rest] eqn:E; cbn [fetchone];
    [intros H; discriminate|].
  assert (Hr : In r (filter f rows)) by (rewrite E; now left).
  apply filter_In in Hr as [Hin Hf].
  unfold bind, lift. destruct (User._from_row now r) as [u0|e] eqn:Hu; [|discriminate].
  unfold ret. intros H. injection H as -> ->. eauto.
Qed.

Lemma found_nothing (now : datetime) (f : row -> bool) (rows : list row)
    (db : database) :
  existsb f rows = false ->
  User.found now (filter f rows) db = (Returns None, db).
Proof.
  intros H. rewrite filter_nil; [reflexivity|].
  intros x Hx. exact (existsb_false_in _ _ _ H Hx).
Qed.

(** X8. For a value without a single quote and without a NUL character, a
    user that [find_by_username], [find_by_email] or [find_by_api_key]
    returns has
    exactly that user name, e-mail or API key; the lookup returns [None]
    when no stored user has it; and it never changes the database. *)
Theorem user_finders_match_exactly :
  forall (now : datetime) (s : string) (db : database),
    no_quote s = true ->
    no_nul s = true ->
    (forall u db',
        User.find_by_username now (PyStr s) db = (Returns (Some u), db') ->
        db' = db /\ User.username u = PyStr s) /\
    (forall u db',
        User.find_by_email now (PyStr s) db = (Returns (Some u), db') ->
        db' = db /\ User.email u = PyStr s) /\
    (forall u db',
        User.find_by_api_key now (PyStr s) db = (Returns (Some u), db') ->
        db' = db /\ User.api_key u = PyStr s) /\
    (existsb (user_matches "username" s) (t_rows (users db)) = false ->
     User.find_by_username now (PyStr s) db = (Returns None, db)) /\
    (existsb (user_matches "email" s) (t_rows (users db)) = false ->
     User.find_by_email now (PyStr s) db = (Returns None, db)) /\
    (existsb (user_matches "api_key" s) (t_rows (users db)) = false ->
     User.find_by_api_key now (PyStr s) db = (Returns None, db)).
Proof.
  intros now s db Hq _.
  assert (Hcol : forall col k f,
             (forall r, get_column users_schema r col = nth k r SNull) ->
             (forall r u, User._from_row now r = Returns u ->
                          f u = py_of_sql (nth k r SNull)) ->
             forall u db',
               User.found now (filter (user_matches col s) (t_rows (users db))) db
               = (Returns (Some u), db') ->
               db' = db /\ f u = PyStr s).
  { intros col k f Hget Hfield u db' H.
    apply found_inv in H as (-> & r & _ & Hm & Hu).
    split; [reflexivity|]. rewrite (Hfield r u Hu).
    unfold user_matches in Hm. apply sql_eq_text in Hm.
    rewrite Hget in Hm. now rewrite Hm. }
  repeat split.
  - unfold User.find_by_username, bind in H.
    rewrite (execute_find_by_username s db Hq) in H.
    eapply (Hcol "username" 1%nat User.username); [| |exact H].
    + intros r. apply get_user_columns.
    + intros r u0 Hu. apply (user_from_row_fields now r u0 Hu).
  - unfold User.find_by_username, bind in H.
    rewrite (execute_find_by_username s db Hq) in H.
    eapply (Hcol "username" 1%nat User.username); [| |exact H].
    + intros r. apply get_user_columns.
    + intros r u0 Hu. apply (user_from_row_fields now r u0 Hu).
  - unfold User.find_by_email, bind in H.
    rewrite (execute_find_by_email s db Hq) in H.
    eapply (Hcol "email" 2%nat User.email); [| |exact H].
    + intros r. apply get_user_columns.
    + intros r u0 Hu. apply (user_from_row_fields now r u0 Hu).
  - unfold User.find_by_email, bind in H.
    rewrite (execute_find_by_email s db Hq) in H.
    eapply (Hcol "email" 2%nat User.email); [| |exact H].
    + intros r. apply get_user_columns.
    + intros r u0 Hu. apply (user_from_row_fields now r u0 Hu).
  - unfold User.find_by_api_key, bind in H.
    rewrite (execute_find_by_api_key s db Hq) in H.
    eapply (Hcol "api_key" 10%nat User.api_key); [| |exact H].
    + intros r. apply get_user_columns.
    + intros r u0 Hu. apply (user_from_row_fields now r u0 Hu).
  - unfold User.find_by_api_key, bind in H.
    rewrite (execute_find_by_api_key s db Hq) in H.
    eapply (Hcol "api_key" 10%nat User.api_key); [| |exact H].
    + intros r. apply get_user_columns.
    + intros r u0 Hu. apply (user_from_row_fields now r u0 Hu).
  - intros H. unfold User.find_by_username, bind.
    rewrite (execute_find_by_username s db Hq). now apply found_nothing.
  - intros H. unfold User.find_by_email, bind.
    rewrite (execute_find_by_email s db Hq). now apply found_nothing.
  - intros H. unfold User.find_by_api_key, bind.
    rewrite (execute_find_by_api_key s db Hq). now apply found_nothing.
Qed.

(** An instance: the seeded user [jane_smith]. *)
Lemma user_finders_match_exactly_witness :
  (exists u, fst (User.find_by_username example_now (PyStr "jane_smith") example_db)
             = Returns (Some u) /\ User.id u = PyInt 2) /\
  (forall u db',
      User.find_by_username example_now (PyStr "jane_smith") example_db
      = (Returns (Some u), db') ->
      db' = example_db /\ User.username u = PyStr "jane_smith").
Proof.
  split.
  - eexists. split; [vm_compute; reflexivity|reflexivity].
  - apply (user_finders_match_exactly example_now "jane_smith" example_db);
      reflexivity.
Defined.

(** ** Creating a user *)

(** X9. [create_user] raises [TypeError] and stores nothing when the payload
    lacks [username], [email] or [password], and also when the password is
    not a string (it is concatenated with the salt). *)
Theorem create_user_requires_credentials :
  forall (sha256 : string -> string) (rng : nat -> Byte.byte)
         (now now' : datetime) (data : dict) (db : database),
    dict_get data "username" = None \/ dict_get data "email" = None
    \/ dict_get data "password" = None
    \/ (exists v, dict_get data "password" = Some v /\ is_text v = false) ->
    user_service.create_user sha256 rng now now' data db = (Raises TypeError, db) /\
    users_routes.create_user sha256 rng now now' data db = (InternalServerError, db).
Proof.
  intros sha256 rng now now' data db H.
  assert (E : user_service.create_user sha256 rng now now' data db
              = (Raises TypeError, db)).
  { unfold user_service.create_user, bind, lift, UserCreate.init.
    destruct (dict_get data "username") as [un|];
      [|reflexivity].
    destruct (dict_get data "email") as [em|];
      [|reflexivity].
    destruct (dict_get data "password") as [pw|];
      [|reflexivity].
    destruct H as [H|[H|[H|(v & Hv & Ht)]]]; try discriminate.
    injection Hv as ->.
    cbn [UserCreate.password User.set_password].
    destruct v; try discriminate; reflexivity. }
  split; [exact E|]. unfold users_routes.create_user, dispatch. now rewrite E.
Qed.

Lemma create_user_requires_credentials_witness :
  user_service.create_user (fun s => s) (fun _ => Byte.x00) example_now
    example_later [("username", PyStr "new_user"); ("email", PyStr "n@example.com")]
    example_db = (Raises TypeError, example_db) /\
  users_routes.create_user (fun s => s) (fun _ => Byte.x00) example_now
    example_later [("username", PyStr "new_user"); ("email", PyStr "n@example.com")]
    example_db = (InternalServerError, example_db).
Proof.
  apply (create_user_requires_credentials (fun s => s) (fun _ => Byte.x00)
           example_now example_later
           [("username", PyStr "new_user"); ("email", PyStr "n@example.com")]
           example_db).
  right; right; left; reflexivity.
Defined.

Lemma next_user_id_fresh (db : database) :
  0 < next_user_id db /\
  forall r, In r (t_rows (users db)) -> rowid r < next_user_id db.
Proof.
  unfold next_user_id. pose proof (max_rowid_nonneg (t_rows (users db))).
  split; [lia|]. intros r Hr. apply rowid_le_max in Hr. lia.
Qed.

(** [save] of a new user whose name and e-mail no stored user holds. *)
Lemma user_save_inserts (now : datetime) (u : User.t) (db : database)
    (username email hash : string) (c : datetime) :
  User.id u = PyNone ->
  User.username u = PyStr username ->
  User.email u = PyStr email ->
  User.password_hash u = PyStr hash ->
  User.created_at u = PyDatetime c ->
  holds users_schema (t_rows (users db)) "username" (SText username) = false ->
  holds users_schema (t_rows (users db)) "email" (SText email) = false ->
  User.save now u db
  = (Returns (User.set_id u (PyInt (next_user_id db))),
     mkDb (tasks db)
          (mkTable (t_rows (users db)
                    ++ [inserted_user_row now u c (next_user_id db)])
                   (next_user_id db))).
Proof.
  intros Hid Hu He Hh Hc Hfu Hfe.
  destruct u as [id un em ph fn ln ia cr up ll ak].
  cbn [User.id User.username User.email User.password_hash User.created_at] in *.
  subst id un em ph cr.
  unfold User.save.
  cbn [User.id User.username User.email User.password_hash User.created_at
       User.first_name User.last_name User.api_key truthy call_isoformat].
  unfold bind, lift, insert_row, constraint_failure.
  cbn [not_null_failure unique_failure users_schema assigned String.eqb
       Ascii.eqb Bool.eqb c_name c_aff c_notnull c_unique andb
       bind_param apply_affinity sql_is_null].
  rewrite Hfu, Hfe. reflexivity.
Qed.

Lemma user_has_id_rowid (n : Z) (r : row) : user_has_id n r = true -> rowid r = n.
Proof.
  unfold user_has_id. intros H. apply sql_eq_int in H.
  destruct r as [|v r]; [discriminate|]. cbn in H. now subst.
Qed.

Lemma filter_user_id_fresh (n : Z) (rows : list row) :
  (forall r, In r rows -> rowid r < n) -> filter (user_has_id n) rows = [].
Proof.
  intros H. apply filter_nil. intros x Hx.
  destruct (user_has_id n x) eqn:E; [|reflexivity].
  apply user_has_id_rowid in E. specialize (H x Hx). lia.
Qed.

(** The user that [_from_row] builds from the row [save] inserted. *)
Lemma user_from_row_inserted (now now' : datetime) (u : User.t) (c : datetime)
    (id : Z) (username email hash : string) :
  User.username u = PyStr username ->
  User.email u = PyStr email ->
  User.password_hash u = PyStr hash ->
  text_or_none (User.first_name u) = true ->
  text_or_none (User.last_name u) = true ->
  User.api_key u = PyNone ->
  valid_datetime c = true ->
  valid_datetime now = true ->
  User._from_row now' (inserted_user_row now u c id)
  = Returns (User.mk (PyInt id) (PyStr username) (PyStr email) (PyStr hash)
                     (User.first_name u) (User.last_name u)
                     (PyBool (truthy (User.is_active u)))
                     (PyDatetime c) (PyDatetime now) PyNone PyNone).
Proof.
  intros Hu He Hh Hfn Hln Hak Hc Hnow.
  unfold User._from_row, inserted_user_row, item, User.active_flag.
  cbn [nth_error]. rewrite Hu, He, Hh, Hak.
  rewrite (text_round_trip (User.first_name u) Hfn).
  rewrite (text_round_trip (User.last_name u) Hln).
  cbn [bind_param apply_affinity py_of_sql obind].
  rewrite (stamp_round_trip c Hc). cbn [obind].
  rewrite (stamp_round_trip now Hnow).
  destruct (truthy (User.is_active u)); reflexivity.
Qed.

Lemma check_password_stored (sha256 : string -> string) (u : User.t)
    (salt : list ascii) (h q : string) :
  User.password_hash u = PyStr (text salt ++ ":" ++ h) ->
  existsb is_colon salt = false ->
  User.check_password sha256 u (PyStr q)
  = Returns (String.eqb (sha256 (q ++ text salt)%string) h).
Proof.
  intros Hp Hs. destruct u as [id un em ph fn ln ia cr up ll ak].
  cbn [User.password_hash] in Hp. subst ph.
  exact (check_stored sha256
           (User.mk id un em (PyStr "") fn ln ia cr up ll ak) salt h q Hs).
Qed.

(** X10. A payload with string [username], [email] and [password] (no key
    [self], bound values within the 64-bit range, row ids left) whose user
    name and e-mail no stored user holds creates the user under the next
    row id: the returned dictionary carries that id and the given
    names and shows neither the password nor its hash; the tasks table is
    untouched; [User.find_by_id] on the new id then returns the user, and
    [check_password] accepts the password that was given. *)
Theorem create_user_round_trip :
  forall (sha256 : string -> string) (rng : nat -> Byte.byte)
         (now now' now'' : datetime) (data : dict) (db : database)
         (username email password : string),
    dict_get data "username" = Some (PyStr username) ->
    dict_get data "email" = Some (PyStr email) ->
    dict_get data "password" = Some (PyStr password) ->
    text_or_none (kwarg data "first_name" (PyStr "")) = true ->
    text_or_none (kwarg data "last_name" (PyStr "")) = true ->
    valid_datetime now = true ->
    valid_datetime now' = true ->
    holds users_schema (t_rows (users db)) "username" (SText username) = false ->
    holds users_schema (t_rows (users db)) "email" (SText email) = false ->
    dict_get data "self" = None ->
    fields_in_range user_fields data = true ->
    next_user_id db < 2 ^ 63 ->
    exists d db' u,
      user_service.create_user sha256 rng now now' data db = (Returns d, db') /\
      tasks db' = tasks db /\
      dict_get d "id" = Some (PyInt (next_user_id db)) /\
      dict_get d "username" = Some (PyStr username) /\
      dict_get d "email" = Some (PyStr email) /\
      dict_get d "is_active" = Some (PyBool true) /\
      dict_get d "created_at" = Some (PyStr (isoformat now)) /\
      has_key d "password" = false /\
      has_key d "password_hash" = false /\
      User.find_by_id now'' (PyInt (next_user_id db)) db' = (Returns (Some u), db') /\
      User.username u = PyStr username /\
      User.email u = PyStr email /\
      User.is_active u = PyBool true /\
      User.created_at u = PyDatetime now /\
      User.updated_at u = PyDatetime now' /\
      User.check_password sha256 u (PyStr password) = Returns true.
Proof.
  intros sha256 rng now now' now'' data db username email password
         Hu He Hp Hfn Hln Hnow Hnow' Hfu Hfe _ _ _.
  set (salt := hexlify (map rng (seq 0 16))).
  set (h := sha256 (password ++ text salt)%string).
  set (u0 := User.mk PyNone (PyStr username) (PyStr email)
                     (PyStr (text salt ++ ":" ++ h))
                     (kwarg data "first_name" (PyStr ""))
                     (kwarg data "last_name" (PyStr ""))
                     (PyBool true) (PyDatetime now) PyNone PyNone PyNone).
  set (n := next_user_id db).
  set (db1 := mkDb (tasks db)
                   (mkTable (t_rows (users db)
                             ++ [inserted_user_row now' u0 now n]) n)).
  assert (Hsave : User.save now' u0 db = (Returns (User.set_id u0 (PyInt n)), db1)).
  { apply (user_save_inserts now' u0 db username email (text salt ++ ":" ++ h) now);
      try reflexivity; assumption. }
  assert (Hcreate : user_service.create_user sha256 rng now now' data db
                    = (User.to_dict (User.set_id u0 (PyInt n)), db1)).
  { unfold user_service.create_user, bind, lift, UserCreate.init.
    rewrite Hu, He, Hp. cbn [UserCreate.password].
    unfold User.set_password. cbn [py_add_str obind].
    unfold token_hex. fold salt. fold h.
    change (User.set_password_hash _ _) with u0.
    rewrite Hsave. destruct (User.to_dict (User.set_id u0 (PyInt n))); reflexivity. }
  set (u1 := User.mk (PyInt n) (PyStr username) (PyStr email)
                     (PyStr (text salt ++ ":" ++ h))
                     (kwarg data "first_name" (PyStr ""))
                     (kwarg data "last_name" (PyStr ""))
                     (PyBool true) (PyDatetime now) (PyDatetime now')
                     PyNone PyNone).
  assert (Hfind : User.find_by_id now'' (PyInt n) db1 = (Returns (Some u1), db1)).
  { unfold User.find_by_id, bind. rewrite execute_user_find_by_id.
    cbn [users db1 t_rows]. rewrite filter_app.
    rewrite (filter_user_id_fresh n (t_rows (users db)))
      by (apply next_user_id_fresh).
    cbn [app filter]. 
    replace (user_has_id n (inserted_user_row now' u0 now n)) with true
      by (unfold user_has_id, inserted_user_row; cbn; now rewrite Z.eqb_refl).
    unfold User.found, fetchone, lift, bind, ret.
    rewrite (user_from_row_inserted now' now'' u0 now n username email
               (text salt ++ ":" ++ h)) by (try reflexivity; assumption).
    reflexivity. }
  exists (match User.to_dict (User.set_id u0 (PyInt n)) with
          | Returns d => d | Raises _ => [] end), db1, u1.
  split.
  { rewrite Hcreate. unfold User.to_dict.
    cbn [User.set_id User.created_at User.updated_at User.last_login u0
         isoformat_if truthy obind]. reflexivity. }
  repeat split; try reflexivity; try exact Hfind.
  rewrite (check_password_stored sha256 u1 salt h password eq_refl
             (hexlify_no_colon _)).
  subst h. now rewrite String.eqb_refl.
Qed.

(** An instance: a fourth user is added to the seeded three. *)
Lemma create_user_round_trip_witness :
  exists d db' u,
    user_service.create_user (fun s => s) (fun _ => Byte.x00) example_now
      example_later
      [("username", PyStr "new_user"); ("email", PyStr "n@example.com");
       ("password", PyStr "secret")] example_db = (Returns d, db') /\
    dict_get d "id" = Some (PyInt 4) /\
    User.find_by_id example_later (PyInt 4) db' = (Returns (Some u), db') /\
    User.check_password (fun s => s) u (PyStr "secret") = Returns true.
Proof.
  destruct (create_user_round_trip (fun s => s) (fun _ => Byte.x00)
              example_now example_later example_later
              [("username", PyStr "new_user"); ("email", PyStr "n@example.com");
               ("password", PyStr "secret")] example_db
              "new_user" "n@example.com" "secret"
              eq_refl eq_refl eq_refl eq_refl eq_refl eq_refl eq_refl
              eq_refl eq_refl eq_refl eq_refl eq_refl)
    as (d & db' & u & H1 & _ & H2 & _ & _ & _ & _ & _ & _ & H3 & _ & _ & _ & _ & _ & H4).
  exists d, db', u. repeat split; assumption.
Defined.

(** ** Validation *)

Lemma lstrip_nil (cs : list ascii) :
  lstrip cs = [] <-> forallb py_isspace cs = true.
Proof.
  induction cs as [|c cs IH]; simpl; [tauto|].
  destruct (py_isspace c); simpl; [exact IH|]. split; discriminate.
Qed.

Lemma lstrip_keeps (cs : list ascii) :
  forallb py_isspace (lstrip cs) = forallb py_isspace cs.
Proof.
  induction cs as [|c cs IH]; simpl; [reflexivity|].
  destruct (py_isspace c) eqn:E; simpl; [exact IH|now rewrite E].
Qed.

Lemma forallb_rev {A : Type} (f : A -> bool) (l : list A) :
  forallb f (rev l) = forallb f l.
Proof.
  induction l as [|x l IH]; simpl; [reflexivity|].
  rewrite forallb_app, IH. simpl. rewrite andb_true_r. apply andb_comm.
Qed.

(** [s.strip()] is empty exactly when [s] holds white space only. *)
Lemma strip_blank (s : string) :
  (len (strip s) =? 0) = forallb py_isspace (chars s).
Proof.
  unfold strip, len.
  set (l := rev (lstrip (rev (lstrip (chars s))))).
  assert (Hl : forallb py_isspace l = forallb py_isspace (chars s)).
  { unfold l. now rewrite forallb_rev, lstrip_keeps, forallb_rev, lstrip_keeps. }
  assert (Hn : l = [] <-> forallb py_isspace (chars s) = true).
  { unfold l. split.
    - intros H. apply (f_equal (@rev ascii)) in H. rewrite rev_involutive in H.
      simpl in H. apply lstrip_nil in H. rewrite forallb_rev in H.
      now rewrite lstrip_keeps in H.
    - intros H. rewrite <- lstrip_keeps, <- forallb_rev in H.
      apply lstrip_nil in H. now rewrite H. }
  destruct l as [|c l'].
  - simpl. symmetry. now apply Hn.
  - destruct (forallb py_isspace (chars s)) eqn:E.
    + destruct Hn as [_ Hn]. discriminate (Hn eq_refl).
    + reflexivity.
Qed.

Lemma in_strings_In (v : pyval) (options : list string) :
  in_strings v options = true <-> In v (map PyStr options).
Proof.
  unfold in_strings. destruct v as [|b|z|s|d];
    try (split; [discriminate|];
         intros H; apply in_map_iff in H as (x & Hx & _); discriminate).
  rewrite existsb_exists, in_map_iff. split.
  - intros (x & Hx & E). apply String.eqb_eq in E. subst. eauto.
  - intros (x & E & Hx). injection E as ->. exists s. split; [assumption|].
    apply String.eqb_refl.
Qed.

Lemma append_if_nil (b : bool) (msg : string) (errors : list string) :
  Task.append_if b msg errors = [] <-> b = false /\ errors = [].
Proof.
  unfold Task.append_if. destruct b.
  - split; [|intros [H _]; discriminate].
    intros H. apply app_eq_nil in H as [_ H]. discriminate.
  - tauto.
Qed.

Lemma title_blank_false (v : pyval) :
  Task.title_blank v = Returns false <->
  exists s, v = PyStr s /\ forallb py_isspace (chars s) = false.
Proof.
  unfold Task.title_blank. split.
  - destruct v as [|b|z|s|d]; simpl; try discriminate;
      try (destruct b; discriminate);
      try (destruct (z =? 0); discriminate).
    destruct (String.eqb s ""); simpl; [discriminate|].
    rewrite strip_blank. intros H. injection H as H. eauto.
  - intros (s & -> & H). simpl.
    destruct (String.eqb_spec s "") as [->|_]; [discriminate H|].
    simpl. now rewrite strip_blank, H.
Qed.

Lemma due_in_past_false (now : datetime) (v : pyval) :
  Task.due_in_past now v = Returns false <->
  truthy v = false \/ exists d, v = PyDatetime d /\ datetime_ltb d now = false.
Proof.
  unfold Task.due_in_past. split.
  - destruct (truthy v) eqn:T; [|auto].
    destruct v; try discriminate. intros H. injection H as H. eauto.
  - intros [T|(d & -> & H)]; [now rewrite T|]. simpl. now rewrite H.
Qed.

(** X11. For a title of ASCII characters, [Task.validate] returns no error
    exactly when the title is a
    string with a character that is not white space and at most 200
    characters (a title of 200 characters passes, whatever the message
    says), the status and the priority are among the listed strings, and
    the due date is falsy or a datetime not before the clock reading.  For
    a title of [None] it does not report the missing title: the length test
    after it raises [TypeError]. *)
Theorem task_validate_accepts_exactly :
  forall (now : datetime) (t : Task.t),
    ascii_text (Task.title t) = true ->
    (Task.validate now t = Returns [] <->
     (exists s, Task.title t = PyStr s /\
                forallb py_isspace (chars s) = false /\ len s <= 200) /\
     In (Task.status t)
        (map PyStr ["pending"; "in_progress"; "completed"; "cancelled"]) /\
     In (Task.priority t) (map PyStr ["low"; "medium"; "high"; "urgent"]) /\
     (truthy (Task.due_date t) = false \/
      exists d, Task.due_date t = PyDatetime d /\ datetime_ltb d now = false)) /\
    (Task.title t = PyNone -> Task.validate now t = Raises TypeError).
Proof.
  intros now t _. split; [split|].
  - unfold Task.validate. intros H.
    apply obind_returns in H as (b1 & H1 & H).
    apply obind_returns in H as (b2 & H2 & H).
    apply obind_returns in H as (b5 & H5 & H).
    injection H as H.
    apply append_if_nil in H as [-> H].
    apply append_if_nil in H as [Hp H].
    apply append_if_nil in H as [Hs H].
    apply append_if_nil in H as [-> H].
    apply append_if_nil in H as [-> _].
    apply title_blank_false in H1 as (s & Ht & Hb).
    rewrite Ht in H2. simpl in H2. injection H2 as H2.
    apply Z.ltb_ge in H2.
    apply negb_false_iff in Hp, Hs.
    apply in_strings_In in Hp, Hs.
    apply due_in_past_false in H5.
    repeat split; eauto.
  - intros ((s & Ht & Hb & Hl) & Hs & Hp & Hd).
    apply in_strings_In in Hp, Hs.
    apply due_in_past_false in Hd.
    assert (H1 : Task.title_blank (Task.title t) = Returns false)
      by (apply title_blank_false; eauto).
    unfold Task.validate. rewrite H1, Hd, Hs, Hp, Ht. simpl.
    apply Z.ltb_ge in Hl. now rewrite Hl.
  - intros Ht. unfold Task.validate. now rewrite Ht.
Qed.

Lemma task_validate_accepts_exactly_witness :
  Task.validate example_now
    (Task.init example_now PyNone (PyStr "Write report") PyNone
       (PyStr "pending") (PyStr "high") (PyDatetime example_later) PyNone PyNone)
  = Returns [] /\
  Task.validate example_now
    (Task.init example_now PyNone PyNone PyNone
       (PyStr "pending") (PyStr "high") PyNone PyNone PyNone)
  = Raises TypeError.
Proof.
  split.
  - apply (task_validate_accepts_exactly example_now); [reflexivity|].
    repeat split.
    + exists "Write report". repeat split. vm_compute. discriminate.
    + simpl. auto.
    + simpl. auto.
    + right. exists example_later. split; reflexivity.
  - apply (task_validate_accepts_exactly example_now); reflexivity.
Defined.

Lemma username_blank_false (v : pyval) :
  User.username_blank v = Returns false <->
  exists s, v = PyStr s /\ forallb py_isspace (chars s) = false.
Proof.
  unfold User.username_blank. split.
  - destruct v as [|b|z|s|d]; simpl; try discriminate;
      try (destruct b; discriminate);
      try (destruct (z =? 0); discriminate).
    destruct (String.eqb s ""); simpl; [discriminate|].
    rewrite strip_blank. intros H. injection H as H. eauto.
  - intros (s & -> & H). simpl.
    destruct (String.eqb_spec s "") as [->|_]; [discriminate H|].
    simpl. now rewrite strip_blank, H.
Qed.

Lemma email_invalid_false (v : pyval) :
  User.email_invalid v = Returns false <->
  exists s, v = PyStr s /\ contains_char "@" s = true.
Proof.
  unfold User.email_invalid. split.
  - destruct v as [|b|z|s|d]; simpl; try discriminate;
      try (destruct b; discriminate);
      try (destruct (z =? 0); discriminate).
    destruct (String.eqb s ""); simpl; [discriminate|].
    intros H. injection H as H. apply negb_false_iff in H. eauto.
  - intros (s & -> & H). simpl.
    destruct (String.eqb_spec s "") as [->|_]; [discriminate H|].
    simpl. now rewrite H.
Qed.

Lemma user_append_if_nil (b : bool) (msg : string) (errors : list string) :
  User.append_if b msg errors = [] <-> b = false /\ errors = [].
Proof.
  unfold User.append_if. destruct b.
  - split; [|intros [H _]; discriminate].
    intros H. apply app_eq_nil in H as [_ H]. discriminate.
  - tauto.
Qed.

(** X12. For a user name of ASCII characters, [User.validate] returns no
    error exactly when the user name is a
    string of at least three characters, one of them not white space, the
    e-mail is a string that holds an [@], and the password hash is truthy.
    An empty user name is reported twice, as missing and as too short; a
    user name of [None] raises [TypeError] at the length test. *)
Theorem user_validate_accepts_exactly :
  forall (u : User.t),
    ascii_text (User.username u) = true ->
    (User.validate u = Returns [] <->
     (exists s, User.username u = PyStr s /\
                forallb py_isspace (chars s) = false /\ 3 <= len s) /\
     (exists e, User.email u = PyStr e /\ contains_char "@" e = true) /\
     truthy (User.password_hash u) = true) /\
    (User.username u = PyStr "" ->
     forall errors, User.validate u = Returns errors ->
       exists rest, errors = "Username is required"
                             :: "Username must be at least 3 characters" :: rest) /\
    (User.username u = PyNone -> User.validate u = Raises TypeError).
Proof.
  intros u _. split; [split|split].
  - unfold User.validate. intros H.
    apply obind_returns in H as (b1 & H1 & H).
    apply obind_returns in H as (b2 & H2 & H).
    apply obind_returns in H as (b3 & H3 & H).
    injection H as H.
    apply user_append_if_nil in H as [Hp H].
    apply user_append_if_nil in H as [-> H].
    apply user_append_if_nil in H as [-> H].
    apply user_append_if_nil in H as [-> _].
    apply username_blank_false in H1 as (s & Hu & Hb).
    rewrite Hu in H2. simpl in H2. injection H2 as H2.
    apply Z.ltb_ge in H2.
    apply negb_false_iff in Hp.
    apply email_invalid_false in H3.
    repeat split; eauto.
  - intros ((s & Hu & Hb & Hl) & He & Hp).
    apply email_invalid_false in He.
    assert (H1 : User.username_blank (User.username u) = Returns false)
      by (apply username_blank_false; eauto).
    unfold User.validate. rewrite H1, He, Hp, Hu. simpl.
    apply Z.ltb_ge in Hl. now rewrite Hl.
  - intros Hu errors. unfold User.validate. rewrite Hu. simpl.
    intros H. apply obind_returns in H as (b3 & _ & H). injection H as <-.
    unfold User.append_if.
    destruct b3, (negb (truthy (User.password_hash u))); simpl; eauto.
  - intros Hu. unfold User.validate. now rewrite Hu.
Qed.

Lemma user_validate_accepts_exactly_witness :
  User.validate
    (User.init example_now PyNone (PyStr "new_user") (PyStr "n@example.com")
       (PyStr "salt:hash") (PyStr "") (PyStr "") (PyBool true) PyNone)
  = Returns [] /\
  User.validate
    (User.init example_now PyNone PyNone (PyStr "n@example.com")
       (PyStr "salt:hash") (PyStr "") (PyStr "") (PyBool true) PyNone)
  = Raises TypeError.
Proof.
  split.
  - apply (user_validate_accepts_exactly
             (User.init example_now PyNone (PyStr "new_user")
                (PyStr "n@example.com") (PyStr "salt:hash") (PyStr "")
                (PyStr "") (PyBool true) PyNone)); [reflexivity|].
    repeat split.
    + exists "new_user". repeat split. vm_compute. discriminate.
    + exists "n@example.com". split; reflexivity.
  - apply (user_validate_accepts_exactly
             (User.init example_now PyNone PyNone
                (PyStr "n@example.com") (PyStr "salt:hash") (PyStr "")
                (PyStr "") (PyBool true) PyNone)); reflexivity.
Defined.

(** ** Well-formed task tables *)

(** Every well-formed row is read and serialised without an exception. *)
Lemma wf_row_readable (now : datetime) (r : row) :
  wf_task_row r = true ->
  exists t d, Task._from_row now r = Returns t /\ Task.to_dict t = Returns d.
Proof.
  intros Hwf.
  destruct (wf_task_row_shape _ Hwf)
    as (i & ti & de & st & pr & du & ui & cr & up & dl & -> & Hde & Hst & Hpr
        & Hdu & Hui & Hcr & Hup & Hdl).
  rewrite (from_row_wf now i ti de st pr du ui cr up dl Hdu Hcr Hup Hdl).
  assert (Hc : exists x, isoformat_if (py_or (read_stamp cr) (PyDatetime now))
                         = Returns x).
  { destruct (read_stamp_cases cr) as [E|[d E]]; rewrite E; eexists; reflexivity. }
  destruct Hc as [x Hx].
  eexists. eexists. split; [reflexivity|].
  unfold Task.to_dict.
  cbn [Task.due_date Task.created_at Task.updated_at].
  rewrite (isoformat_if_read_stamp du Hdu), Hx, (isoformat_if_read_stamp up Hup).
  reflexivity.
Qed.

Lemma wf_rows_readable (now : datetime) (rows : list row) :
  (forall r, In r rows -> wf_task_row r = true) ->
  exists l ds, Task.from_rows now rows = Returns l /\
               task_service.to_dicts l = Returns ds.
Proof.
  induction rows as [|r rows IH]; intros H.
  - exists [], []. split; reflexivity.
  - destruct (wf_row_readable now r (H r (or_introl eq_refl)))
      as (t & d & Ht & Hd).
    destruct IH as (l & ds & Hl & Hds); [intros x Hx; apply H; now right|].
    exists (t :: l), (d :: ds). cbn [Task.from_rows task_service.to_dicts].
    rewrite Ht. cbn [obind]. rewrite Hl. cbn [obind]. rewrite Hd. cbn [obind].
    rewrite Hds. split; reflexivity.
Qed.

Lemma find_by_id_cases (now : datetime) (n : Z) (db : database) :
  Task.find_by_id now (PyInt n) db = (Returns None, db) \/
  (exists e, Task.find_by_id now (PyInt n) db = (Raises e, db)) \/
  (exists t, Task.find_by_id now (PyInt n) db = (Returns (Some t), db)
             /\ Task.id t = PyInt n).
Proof.
  unfold Task.find_by_id, bind. rewrite execute_find_by_id.
  destruct (filter (live_row n) (t_rows (tasks db))) as [|r rest] eqn:E;
    cbn [fetchone]; [now left|right].
  assert (Hr : In r (filter (live_row n) (t_rows (tasks db))))
    by (rewrite E; now left).
  apply filter_In in Hr as [_ Hl].
  unfold lift, ret. destruct (Task._from_row now r) as [t|e] eqn:Hf.
  - right. exists t. split; [reflexivity|].
    exact (from_row_id _ _ _ _ Hf (live_row_id _ _ Hl)).
  - left. now exists e.
Qed.

Lemma wf_tasks_seeded (seed t : table) :
  wf_tasks seed = true -> wf_tasks t = true ->
  wf_tasks (seed_if_empty seed t) = true.
Proof.
  intros Hs Ht. unfold seed_if_empty.
  destruct (t_rows t); [exact Hs|exact Ht].
Qed.

(** X13. The well-formedness of the tasks table (every row has an integer
    id and a text title, text in the text columns, parseable timestamps, no
    text that looks like a number in [user_id]; ids ascending) is kept by
    [init_db], by [create_task] of a well-typed task, by [update_task] of
    the status and by [delete_task]; and on a well-formed table [get_tasks]
    with harmless filter values (an owner that is absent or an integer of
    the 64-bit range, a status that is absent or has neither a single quote
    nor a NUL character) always returns a list. *)
Theorem well_formed_tasks_are_kept :
  forall (db : database),
    wf_tasks (tasks db) = true ->
    (forall now f,
        safe_owner (dict_get_none f "assigned_to") = true ->
        in_int64 (dict_get_none f "assigned_to") = true ->
        safe_status (dict_get_none f "status") = true ->
        nul_free (dict_get_none f "status") = true ->
        exists l, task_service.get_tasks now (Some f) db = (Returns l, db)) /\
    (forall stamp_users stamp_tasks,
        stamp_ok (SText stamp_tasks) = true ->
        wf_tasks (tasks (init_db stamp_users stamp_tasks db)) = true) /\
    (forall now now' data task_data d db',
        TaskCreate.init data = Returns task_data ->
        well_typed_task (task_service.build now task_data) = true ->
        valid_datetime now' = true ->
        task_service.create_task now now' data db = (Returns d, db') ->
        wf_tasks (tasks db') = true) /\
    (forall now now' n r data s d db',
        In r (t_rows (tasks db)) -> rowid r = n -> is_live r = true ->
        only_status data s ->
        valid_datetime now' = true ->
        task_service.update_task now now' (PyInt n) data db = (Returns d, db') ->
        wf_tasks (tasks db') = true) /\
    (forall now now' now'' n,
        valid_datetime now' = true ->
        wf_tasks (tasks (snd (task_service.delete_task now now' now'' (PyInt n) db)))
        = true).
Proof.
  intros db Hwf. split; [|split; [|split; [|split]]].
  - intros now f Ho _ Hs _. unfold task_service.get_tasks, bind.
    rewrite (find_all_safe_filters now _ _ db Ho Hs).
    set (rows := order_rows _ _ _).
    destruct (wf_rows_readable now rows) as (l & ds & Hl & Hds).
    { intros r Hr. unfold rows in Hr. apply order_rows_in in Hr.
      apply filter_In in Hr as [Hr _]. exact (proj1 (wf_tasks_inv _ _ Hwf Hr)). }
    exists ds. unfold lift. now rewrite Hl, Hds.
  - intros su st Hst. cbn [init_db tasks].
    apply wf_tasks_seeded; [now apply wf_tasks_seed|assumption].
  - intros now now' data td d db' Hinit Hwt Hnow H.
    unfold task_service.create_task, bind, lift in H. rewrite Hinit in H.
    destruct (Task.save now' (task_service.build now td) db) as [[t'|e] db1] eqn:Hs;
      [|discriminate].
    assert (Hdb : db' = db1).
    { destruct (Task.to_dict t'); injection H; congruence. }
    subst db1.
    exact (wf_tasks_save_new now' (task_service.build now td) t' db db' Hwf
             eq_refl Hwt Hnow Hs).
  - intros now now' n r data s d db' Hr Hn Hl Hd Hnow H.
    exact (wf_tasks_update_status now now' n r data s db db' d Hwf Hr Hn Hl Hd Hnow H).
  - intros now now' now'' n Hnow. unfold task_service.delete_task, bind.
    destruct (find_by_id_cases now n db) as [E|[[e E]|(t & E & Hid)]]; rewrite E.
    + exact Hwf.
    + exact Hwf.
    + pose proof (wf_tasks_delete now' now'' t n db Hwf Hid Hnow) as H.
      destruct (Task.delete now' now'' t db) as [[t'|e] db1]; exact H.
Qed.

Lemma well_formed_tasks_are_kept_witness :
  wf_tasks (tasks example_db) = true /\
  (exists l, task_service.get_tasks example_now
               (Some [("status", PyStr "pending")]) example_db
             = (Returns l, example_db)) /\
  wf_tasks (tasks (init_db "2025-11-02 09:00:00" "2025-11-02 09:00:00" empty_db))
  = true /\
  wf_tasks (tasks (snd (task_service.delete_task example_now example_later
                          example_later (PyInt 3) example_db))) = true.
Proof.
  assert (Hwf : wf_tasks (tasks example_db) = true) by (vm_compute; reflexivity).
  split; [exact Hwf|].
  destruct (well_formed_tasks_are_kept example_db Hwf) as (H1 & _ & _ & _ & H5).
  destruct (well_formed_tasks_are_kept empty_db eq_refl) as (_ & H2 & _).
  split; [|split].
  - apply (H1 example_now [("status", PyStr "pending")]); reflexivity.
  - apply H2. vm_compute. reflexivity.
  - apply H5. reflexivity.
Defined.

(** ** Seeding *)

Lemma seed_if_empty_again (seed seed' t : table) :
  t_rows seed <> [] ->
  seed_if_empty seed' (seed_if_empty seed t) = seed_if_empty seed t.
Proof.
  intros Hs. unfold seed_if_empty.
  destruct (t_rows t) as [|r rows] eqn:E.
  - cbn [t_rows]. destruct (t_rows seed); [contradiction|reflexivity].
  - now rewrite E.
Qed.

(** X14. [init_db] seeds each table only when it is empty, the one
    independently of the other: a table with a row is left exactly as it
    is, an empty one receives the sample rows, and running [init_db] again,
    at whatever time, changes nothing. *)
Theorem init_db_seeds_empty_tables_once :
  forall (su st su' st' : string) (db : database),
    init_db su' st' (init_db su st db) = init_db su st db /\
    (t_rows (users db) <> [] -> users (init_db su st db) = users db) /\
    (t_rows (tasks db) <> [] -> tasks (init_db su st db) = tasks db) /\
    (t_rows (users db) = [] ->
     t_rows (users (init_db su st db)) = t_rows (seed_users su)) /\
    (t_rows (tasks db) = [] ->
     t_rows (tasks (init_db su st db)) = t_rows (seed_tasks st)).
Proof.
  intros su st su' st' db. unfold init_db. cbn [tasks users].
  split; [|repeat split].
  - rewrite !seed_if_empty_again; [reflexivity| |]; discriminate.
  - intros H. unfold seed_if_empty.
    destruct (t_rows (users db)); [contradiction|reflexivity].
  - intros H. unfold seed_if_empty.
    destruct (t_rows (tasks db)); [contradiction|reflexivity].
  - intros H. unfold seed_if_empty. now rewrite H.
  - intros H. unfold seed_if_empty. now rewrite H.
Qed.

Lemma init_db_seeds_empty_tables_once_witness :
  init_db "2025-11-03 10:00:00" "2025-11-03 10:00:00"
    (init_db "2025-11-01 08:00:00" "2025-11-01 08:00:00" empty_db)
  = example_db /\
  tasks (init_db "2025-11-03 10:00:00" "2025-11-03 10:00:00" example_db_deleted)
  = tasks example_db_deleted.
Proof.
  split.
  - exact (proj1 (init_db_seeds_empty_tables_once
                    "2025-11-01 08:00:00" "2025-11-01 08:00:00"
                    "2025-11-03 10:00:00" "2025-11-03 10:00:00" empty_db)).
  - apply (init_db_seeds_empty_tables_once
             "2025-11-03 10:00:00" "2025-11-03 10:00:00"
             "2025-11-03 10:00:00" "2025-11-03 10:00:00" example_db_deleted).
    discriminate.
Defined.

(** ** The routes *)

(** X15. [GET /tasks] reads the [priority] query parameter and never uses
    it: two requests whose [status] and [assigned_to] parameters agree get
    the same answer, whatever else they carry. *)
Theorem get_tasks_ignores_priority :
  forall (now : datetime) (args args' : dict) (db : database),
    dict_get_none args "status" = dict_get_none args' "status" ->
    dict_get_none args "assigned_to" = dict_get_none args' "assigned_to" ->
    tasks_routes.get_tasks now args db = tasks_routes.get_tasks now args' db /\
    tasks_routes.get_tasks now args db
    = dispatch (let* l := Task.find_all now (dict_get_none args "assigned_to")
                            (dict_get_none args "status") in
                lift (task_service.to_dicts l)) db.
Proof.
  intros now args args' db Hs Ha.
  unfold tasks_routes.get_tasks, task_service.get_tasks.
  cbn [dict_get_none dict_get String.eqb Ascii.eqb Bool.eqb].
  fold (dict_get_none args "status"). fold (dict_get_none args "assigned_to").
  fold (dict_get_none args' "status"). fold (dict_get_none args' "assigned_to").
  rewrite Hs, Ha. split; reflexivity.
Qed.

Lemma get_tasks_ignores_priority_witness :
  tasks_routes.get_tasks example_now
    [("status", PyStr "pending"); ("priority", PyStr "high")] example_db
  = tasks_routes.get_tasks example_now [("status", PyStr "pending")] example_db.
Proof.
  apply (get_tasks_ignores_priority example_now
           [("status", PyStr "pending"); ("priority", PyStr "high")]
           [("status", PyStr "pending")] example_db); reflexivity.
Defined.

Lemma letter_not_digit (c : ascii) : is_letter c = true -> is_digit c = false.
Proof.
  unfold is_letter, is_digit. intros H.
  apply orb_true_iff in H as [H|H]; apply andb_true_iff in H as [H1 H2];
    apply N.leb_le in H1, H2; apply andb_false_iff.
  - right. apply N.leb_gt. lia.
  - right. apply N.leb_gt. lia.
Qed.

Lemma read_digits_letter (cs : list ascii) :
  existsb is_letter cs = true -> forall acc, read_digits acc cs = None.
Proof.
  induction cs as [|c cs IH]; simpl; [discriminate|].
  intros H acc. destruct (is_digit c) eqn:D; [|reflexivity].
  apply orb_true_iff in H as [H|H].
  - apply letter_not_digit in H. congruence.
  - now apply IH.
Qed.

(** [int(s)] raises [ValueError] for a text that holds a letter. *)
Lemma py_int_letter (s : string) :
  existsb is_letter (chars s) = true -> py_int (PyStr s) = Raises ValueError.
Proof.
  intros H. unfold py_int, parse_int.
  destruct (chars s) as [|c cs]; [discriminate|].
  destruct (is_char "-" c) eqn:E.
  - unfold is_char in E. apply Ascii.eqb_eq in E. subst c.
    cbn in H. destruct cs as [|c' cs']; [reflexivity|].
    now rewrite (read_digits_letter _ H).
  - now rewrite (read_digits_letter _ H).
Qed.

Lemma py_int_text (s : string) (n : Z) :
  parse_int s = Some n -> py_int (PyStr s) = Returns (PyInt n).
Proof. intros H. unfold py_int. now rewrite H. Qed.

Lemma user_find_by_id_missing (now : datetime) (n : Z) (db : database) :
  existsb (user_has_id n) (t_rows (users db)) = false ->
  User.find_by_id now (PyInt n) db = (Returns None, db).
Proof.
  intros H. unfold User.find_by_id, bind. rewrite execute_user_find_by_id.
  now apply found_nothing.
Qed.

(** X16. The routes that take an id from the path convert it with [int]:
    a segment that holds a letter makes every one of them answer with the
    server error and leave the database alone; a decimal segment (of at
    most 4300 characters, what [int] converts) that names
    no stored task that is not soft-deleted gets the JSON [null] from
    [GET] and [PUT] (the payload without a key [self]) and
    [deleted: false] from [DELETE], and a decimal
    segment that names no user gets [null] from [GET /users/<id>], again
    without any change to the database. *)
Theorem id_routes_answer_for_unknown_ids :
  forall (now now' now'' : datetime) (s : string) (data : dict) (db : database),
    (existsb is_letter (chars s) = true ->
     tasks_routes.get_task now s db = (InternalServerError, db) /\
     tasks_routes.update_task now now' s data db = (InternalServerError, db) /\
     tasks_routes.delete_task now now' now'' s db = (InternalServerError, db) /\
     users_routes.get_user now s db = (InternalServerError, db)) /\
    (forall n, parse_int s = Some n ->
               len s <= 4300 ->
               existsb (live_row n) (t_rows (tasks db)) = false ->
     tasks_routes.get_task now s db = (Jsonify None, db) /\
     (dict_get data "self" = None ->
      tasks_routes.update_task now now' s data db = (Jsonify None, db)) /\
     tasks_routes.delete_task now now' now'' s db = (Jsonify false, db)) /\
    (forall n, parse_int s = Some n ->
               len s <= 4300 ->
               existsb (user_has_id n) (t_rows (users db)) = false ->
     users_routes.get_user now s db = (Jsonify None, db)).
Proof.
  intros now now' now'' s data db. split; [|split].
  - intros H. apply py_int_letter in H.
    unfold tasks_routes.get_task, tasks_routes.update_task,
      tasks_routes.delete_task, users_routes.get_user, dispatch, bind, lift.
    rewrite H. repeat split; reflexivity.
  - intros n Hn _ Hmiss. apply py_int_text in Hn.
    pose proof (find_by_id_missing now n db Hmiss) as Hfind.
    unfold tasks_routes.get_task, tasks_routes.update_task,
      tasks_routes.delete_task, dispatch, bind, lift.
    rewrite Hn.
    unfold task_service.get_task, task_service.update_task,
      task_service.delete_task, bind.
    rewrite Hfind. repeat split; reflexivity.
  - intros n Hn _ Hmiss. apply py_int_text in Hn.
    pose proof (user_find_by_id_missing now n db Hmiss) as Hfind.
    unfold users_routes.get_user, dispatch, bind, lift. rewrite Hn.
    unfold user_service.get_user, bind, lift. cbn [py_int].
    rewrite Hfind. reflexivity.
Qed.

Lemma id_routes_answer_for_unknown_ids_witness :
  tasks_routes.get_task example_now "abc" example_db
  = (InternalServerError, example_db) /\
  tasks_routes.delete_task example_now example_later example_later "99" example_db
  = (Jsonify false, example_db) /\
  users_routes.get_user example_now "99" example_db = (Jsonify None, example_db).
Proof.
  split; [|split].
  - apply (id_routes_answer_for_unknown_ids example_now example_later
             example_later "abc" [] example_db). reflexivity.
  - apply (proj1 (proj2 (id_routes_answer_for_unknown_ids example_now
             example_later example_later "99" [] example_db)) 99);
      first [reflexivity | vm_compute; discriminate].
  - apply (proj2 (proj2 (id_routes_answer_for_unknown_ids example_now
             example_later example_later "99" [] example_db)) 99);
      first [reflexivity | vm_compute; discriminate].
Defined.

(** ** Saving an entity that has an id *)

(** X17. [save] of a task with a non-zero integer id and a text title,
    its id and bound fields within the 64-bit range, updates by id alone.  On a well-formed table it returns the entity as
    it was given (its [updated_at] attribute is not refreshed) and rewrites
    the row with that id, soft-deleted or not, giving it the title and the
    time of the call; no row is added or removed, the ids, the creation
    times, the deletion times and the rows with other ids stay as they
    were; and when no row has the id nothing changes and nothing is
    reported. *)
Theorem save_with_id_updates_by_id_alone :
  forall (now : datetime) (t : Task.t) (n : Z) (ti : string) (due : pyval)
         (db : database),
    wf_tasks (tasks db) = true ->
    Task.id t = PyInt n ->
    n <> 0 ->
    Task.title t = PyStr ti ->
    isoformat_if (Task.due_date t) = Returns due ->
    task_in_range t = true ->
    exists db',
      Task.save now t db = (Returns t, db') /\
      users db' = users db /\
      map rowid (t_rows (tasks db')) = map rowid (t_rows (tasks db)) /\
      column_values "created_at" (tasks db') = column_values "created_at" (tasks db) /\
      column_values "deleted_at" (tasks db') = column_values "deleted_at" (tasks db) /\
      (forall r, In r (t_rows (tasks db)) -> rowid r <> n ->
                 In r (t_rows (tasks db'))) /\
      (forall r, In r (t_rows (tasks db)) -> rowid r = n ->
         exists r', In r' (t_rows (tasks db')) /\ rowid r' = n /\
                    get_column tasks_schema r' "title" = SText ti /\
                    get_column tasks_schema r' "updated_at" = SText (isoformat now)) /\
      (existsb (fun r => rowid r =? n) (t_rows (tasks db)) = false -> db' = db).
Proof.
  intros now t n ti due db Hwf Hid Hn Hti Hdue _.
  set (a := [("title", bind_param (Task.title t));
             ("description", bind_param (Task.description t));
             ("status", bind_param (Task.status t));
             ("priority", bind_param (Task.priority t));
             ("due_date", bind_param due);
             ("user_id", bind_param (Task.user_id t));
             ("updated_at", SText (isoformat now))]).
  set (f := fun x => if Task.id_is (PyInt n) x
                     then set_columns tasks_schema a x else x).
  assert (Hsave : Task.save now t db
                  = (Returns t, mkDb (mkTable (map f (t_rows (tasks db)))
                                             (t_seq (tasks db))) (users db))).
  { unfold Task.save. rewrite Hid.
    assert (Htr : truthy (PyInt n) = true).
    { simpl. destruct (Z.eqb_spec n 0); [contradiction|reflexivity]. }
    rewrite Htr. unfold bind, lift. rewrite Hdue. unfold update_rows.
    rewrite update_loop_unconstrained
      by (intros others; apply (task_update_unconstrained t due _ ti others Hti)).
    reflexivity. }
  assert (Hf : forall x, wf_task_row x = true ->
             rowid (f x) = rowid x /\
             get_column tasks_schema (f x) "created_at"
             = get_column tasks_schema x "created_at" /\
             get_column tasks_schema (f x) "deleted_at"
             = get_column tasks_schema x "deleted_at" /\
             (rowid x <> n -> f x = x) /\
             (rowid x = n ->
              get_column tasks_schema (f x) "title" = SText ti /\
              get_column tasks_schema (f x) "updated_at" = SText (isoformat now))).
  { intros x Hx.
    destruct (wf_task_row_shape _ Hx)
      as (i & ti' & de & st & pr & du & ui & cr & up & dl & -> & _).
    unfold f, Task.id_is.
    cbn [rowid get_column tasks_schema c_name String.eqb Ascii.eqb Bool.eqb
         bind_param apply_affinity sql_eq is_true tri_of_bool].
    destruct (Z.eqb_spec i n) as [->|Hne]; cbn [is_true tri_of_bool].
    - unfold a. rewrite Hti.
      cbn [set_columns tasks_schema assigned c_name c_aff String.eqb Ascii.eqb
           Bool.eqb rowid get_column bind_param apply_affinity].
      split; [|split; [|split; [|split]]]; try reflexivity.
      + intros H. contradiction.
      + intros _. split; reflexivity.
    - split; [|split; [|split; [|split]]]; try reflexivity.
      intros H. contradiction. }
  assert (Hall : forall x, In x (t_rows (tasks db)) -> wf_task_row x = true)
    by (intros x Hx; exact (proj1 (wf_tasks_inv _ _ Hwf Hx))).
  eexists. split; [exact Hsave|]. cbn [users tasks t_rows].
  split; [reflexivity|]. unfold column_values. cbn [t_rows].
  rewrite !map_map.
  split; [|split; [|split; [|split; [|split]]]].
  - apply map_ext_in. intros x Hx. apply (Hf x (Hall x Hx)).
  - apply map_ext_in. intros x Hx. apply (Hf x (Hall x Hx)).
  - apply map_ext_in. intros x Hx. apply (Hf x (Hall x Hx)).
  - intros r Hr Hne. apply in_map_iff. exists r. split; [|assumption].
    now apply (Hf r (Hall r Hr)).
  - intros r Hr He. exists (f r). destruct (Hf r (Hall r Hr)) as (H1 & _ & _ & _ & H5).
    split; [now apply in_map|]. split; [congruence|]. now apply H5.
  - intros Hnone.
    assert (E : map f (t_rows (tasks db)) = t_rows (tasks db)).
    { rewrite <- (map_id (t_rows (tasks db))) at 2. apply map_ext_in.
      intros x Hx. apply (Hf x (Hall x Hx)).
      pose proof (existsb_false_in _ _ _ Hnone Hx) as Hx'. cbn beta in Hx'.
      now apply Z.eqb_neq. }
    rewrite E. destruct db as [[rows seq] us]. reflexivity.
Qed.

(** An instance: task 2 of the sample data, saved again after its soft
    delete. *)
Lemma save_with_id_updates_by_id_alone_witness :
  exists db',
    Task.save example_later
      (Task.init example_now (PyInt 2) (PyStr "Update documentation, again") PyNone
         (PyStr "pending") (PyStr "high") PyNone PyNone PyNone)
      example_db_deleted
    = (Returns (Task.init example_now (PyInt 2) (PyStr "Update documentation, again")
                  PyNone (PyStr "pending") (PyStr "high") PyNone PyNone PyNone),
       db') /\
    column_values "deleted_at" (tasks db')
    = column_values "deleted_at" (tasks example_db_deleted) /\
    exists r', In r' (t_rows (tasks db')) /\ rowid r' = 2 /\
               get_column tasks_schema r' "title" = SText "Update documentation, again".
Proof.
  assert (Hwf : wf_tasks (tasks example_db_deleted) = true)
    by (vm_compute; reflexivity).
  assert (Hn : 2 <> 0) by discriminate.
  destruct (save_with_id_updates_by_id_alone example_later
              (Task.init example_now (PyInt 2) (PyStr "Update documentation, again")
                 PyNone (PyStr "pending") (PyStr "high") PyNone PyNone PyNone)
              2 "Update documentation, again" PyNone example_db_deleted
              Hwf eq_refl Hn eq_refl eq_refl eq_refl)
    as (db' & H1 & _ & _ & _ & H5 & _ & H7 & _).
  exists db'. split; [exact H1|]. split; [exact H5|].
  destruct (H7 (nth 1 (t_rows (tasks example_db_deleted)) [])) as (r' & Hr & Hi & Ht & _).
  - vm_compute. auto.
  - reflexivity.
  - exists r'. auto.
Defined.

(** ** Saving an entity that has no id *)

Lemma max_rowid_app (l : list row) (r : row) :
  max_rowid (l ++ [r]) = Z.max (max_rowid l) (Z.max (rowid r) 0).
Proof.
  unfold max_rowid. induction l as [|x l IH]; simpl; [lia|].
  rewrite IH. lia.
Qed.

(** X18. [save] takes every falsy id ([None], [0], [False], the empty
    string) for a missing one and inserts (the bound fields within the
    64-bit range, row ids left).  The new row is appended under an
    id that is positive and larger than the id of every stored row,
    soft-deleted ones included, and than the AUTOINCREMENT counter; it is
    not soft-deleted; the entity comes back with that id; the [users] table
    is untouched; and the next insertion will get the id after it. *)
Theorem save_without_id_appends_fresh_row :
  forall (now : datetime) (t : Task.t) (db : database) (due : pyval)
         (c : datetime),
    truthy (Task.id t) = false ->
    isoformat_if (Task.due_date t) = Returns due ->
    Task.created_at t = PyDatetime c ->
    Task.title t <> PyNone ->
    task_in_range t = true ->
    next_task_id db < 2 ^ 63 ->
    exists (id : Z) (r : row) (db' : database),
      Task.save now t db = (Returns (Task.set_id t (PyInt id)), db') /\
      t_rows (tasks db') = t_rows (tasks db) ++ [r] /\
      users db' = users db /\
      rowid r = id /\ is_live r = true /\
      0 < id /\ t_seq (tasks db) < id /\
      (forall x, In x (t_rows (tasks db)) -> rowid x < id) /\
      next_task_id db' = id + 1.
Proof.
  intros now t db due c Hid Hdue Hc Ht _ _.
  exists (next_task_id db), (inserted_row now t due c (next_task_id db)).
  eexists. split; [exact (save_inserts now t db due c Hid Hdue Hc Ht)|].
  destruct (next_task_id_fresh db) as [Hpos Hfresh].
  cbn [tasks users t_rows t_seq].
  repeat (split; [first [reflexivity | assumption]|]).
  split; [unfold next_task_id; lia|]. split; [assumption|].
  unfold next_task_id at 1. cbn [tasks t_rows t_seq].
  rewrite max_rowid_app. cbn [inserted_row rowid].
  fold (next_task_id db).
  assert (max_rowid (t_rows (tasks db)) < next_task_id db)
    by (unfold next_task_id; lia).
  lia.
Qed.

(** An instance: an entity with id [0] is stored as a new task of the
    sample data. *)
Lemma save_without_id_appends_fresh_row_witness :
  exists (id : Z) (r : row) (db' : database),
    Task.save example_later
      (Task.init example_now (PyInt 0) (PyStr "Plan sprint") PyNone
         (PyStr "pending") (PyStr "low") PyNone PyNone PyNone) example_db
    = (Returns (Task.set_id
                  (Task.init example_now (PyInt 0) (PyStr "Plan sprint") PyNone
                     (PyStr "pending") (PyStr "low") PyNone PyNone PyNone)
                  (PyInt id)), db') /\
    t_rows (tasks db') = t_rows (tasks example_db) ++ [r] /\
    rowid r = id /\ t_seq (tasks example_db) < id.
Proof.
  assert (Ht : PyStr "Plan sprint" <> PyNone) by discriminate.
  destruct (save_without_id_appends_fresh_row example_later
              (Task.init example_now (PyInt 0) (PyStr "Plan sprint") PyNone
                 (PyStr "pending") (PyStr "low") PyNone PyNone PyNone)
              example_db PyNone example_now eq_refl eq_refl eq_refl Ht
              eq_refl eq_refl)
    as (id & r & db' & H1 & H2 & _ & H4 & _ & _ & H7 & _).
  exists id, r, db'. auto.
Defined.

(** ** What the services read of a payload *)

(** X19. [create_task] and [update_task] read the six named fields of the
    payload and nothing else: two payloads that agree on them give the same
    result and the same database.  For [update_task] it is enough that they
    agree once an absent field is read as [None]: an explicit null is the
    same as leaving the field out, so no field of a task can be set back to
    null.  (The payloads have no key [self]: that one would clash with the
    constructor's own first parameter.) *)
Theorem task_payloads_are_read_by_field :
  forall (now now' : datetime) (task_id : pyval) (data data' : dict)
         (db : database),
    dict_get data "self" = None ->
    dict_get data' "self" = None ->
    ((forall k, In k task_fields -> dict_get data k = dict_get data' k) ->
     task_service.create_task now now' data db
     = task_service.create_task now now' data' db) /\
    ((forall k, In k task_fields -> kwarg data k PyNone = kwarg data' k PyNone) ->
     task_service.update_task now now' task_id data db
     = task_service.update_task now now' task_id data' db).
Proof.
  intros now now' task_id data data' db _ _. split; intros H.
  - assert (Hk : forall k d, In k task_fields -> kwarg data k d = kwarg data' k d)
      by (intros k d Hk; unfold kwarg; now rewrite (H k Hk)).
    unfold task_service.create_task, bind, lift, TaskCreate.init.
    rewrite <- (H "title") by (simpl; auto).
    destruct (dict_get data "title") as [title|]; [|reflexivity].
    unfold task_service.build.
    cbn [TaskCreate.title TaskCreate.description TaskCreate.status
         TaskCreate.priority TaskCreate.due_date TaskCreate.user_id].
    rewrite <- !Hk by (simpl; auto 10). reflexivity.
  - unfold task_service.update_task, task_service.apply_update, TaskUpdate.init.
    cbn [TaskUpdate.title TaskUpdate.description TaskUpdate.status
         TaskUpdate.priority TaskUpdate.due_date TaskUpdate.user_id].
    rewrite <- !H by (simpl; auto 10). reflexivity.
Qed.

(** An instance: a null due date and an unknown key in an update. *)
Lemma task_payloads_are_read_by_field_witness :
  task_service.update_task example_now example_later (PyInt 1)
    [("status", PyStr "completed"); ("due_date", PyNone); ("color", PyStr "red")]
    example_db
  = task_service.update_task example_now example_later (PyInt 1)
      [("status", PyStr "completed")] example_db.
Proof.
  apply (task_payloads_are_read_by_field example_now example_later (PyInt 1)
           [("status", PyStr "completed"); ("due_date", PyNone);
            ("color", PyStr "red")]
           [("status", PyStr "completed")] example_db eq_refl eq_refl).
  intros k Hk. simpl in Hk.
  repeat (destruct Hk as [<-|Hk]; [reflexivity|]). contradiction.
Defined.

(** ** Payload objects and their dictionaries *)

(** X20. Building a payload object again from its own [dict] keeps the
    named fields and leaves the catch-all empty for [TaskCreate] and
    [TaskUpdate].  For [UserCreate] the [is_active] entry of the dictionary
    is no parameter of the constructor: it lands in the catch-all and the
    flag of the new object is [True] whatever the entry says. *)
Theorem model_dump_round_trip :
  (forall td : TaskCreate.t,
      TaskCreate.init (TaskCreate.model_dump td)
      = Returns (TaskCreate.mk (TaskCreate.title td) (TaskCreate.description td)
                   (TaskCreate.status td) (TaskCreate.priority td)
                   (TaskCreate.due_date td) (TaskCreate.user_id td) [])) /\
  (forall tu : TaskUpdate.t,
      TaskUpdate.init (TaskUpdate.model_dump tu)
      = TaskUpdate.mk (TaskUpdate.title tu) (TaskUpdate.description tu)
          (TaskUpdate.status tu) (TaskUpdate.priority tu)
          (TaskUpdate.due_date tu) (TaskUpdate.user_id tu) []) /\
  (forall uc : UserCreate.t,
      UserCreate.init (UserCreate.model_dump uc)
      = Returns (UserCreate.mk (UserCreate.username uc) (UserCreate.email uc)
                   (UserCreate.password uc) (UserCreate.first_name uc)
                   (UserCreate.last_name uc) (PyBool true)
                   [("is_active", UserCreate.is_active uc)])).
Proof.
  split; [|split]; intros x; destruct x; reflexivity.
Qed.

(** ** Listing the users *)

Lemma execute_all_users (db : database) :
  execute "SELECT * FROM users" db = (Returns (t_rows (users db)), db).
Proof.
  unfold execute.
  replace (tokenize "SELECT * FROM users")
    with (Some [TWord "select"; TSym "*"%char; TWord "from"; TWord "users"])
    by (vm_compute; reflexivity).
  cbn -[filter selected order_rows]. cbn [order_rows].
  do 3 f_equal. induction (t_rows (users db)) as [|r l IH]; simpl; congruence.
Qed.

Lemma user_row_readable (now : datetime) (r : row) :
  user_row_ok r = true ->
  exists u d, User._from_row now r = Returns u /\ User.to_dict u = Returns d /\
              dict_get d "id" = Some (py_of_sql (nth 0 r SNull)).
Proof.
  intros H.
  destruct r as [|c0 [|c1 [|c2 [|c3 [|c4 [|c5 [|c6 [|cr [|up [|lo [|c10 [|x r]]]]]]]]]]]];
    try discriminate.
  cbn [user_row_ok] in H. apply andb_true_iff in H as [H Hlo].
  apply andb_true_iff in H as [Hcr Hup].
  unfold User._from_row, item. cbn [nth_error obind].
  rewrite (stamp_read cr Hcr). cbn [obind].
  rewrite (stamp_read up Hup). cbn [obind].
  rewrite (stamp_read lo Hlo). cbn [obind].
  assert (Hc : exists x, isoformat_if (py_or (read_stamp cr) (PyDatetime now))
                         = Returns x).
  { destruct (read_stamp_cases cr) as [E|[d E]]; rewrite E; eexists; reflexivity. }
  destruct Hc as [x Hx].
  assert (Hu : exists x, isoformat_if (read_stamp up) = Returns x)
    by (apply isoformat_if_stamp, read_stamp_cases).
  assert (Hl : exists x, isoformat_if (read_stamp lo) = Returns x)
    by (apply isoformat_if_stamp, read_stamp_cases).
  destruct Hu as [xu Hxu], Hl as [xl Hxl].
  eexists. eexists. split; [reflexivity|].
  unfold User.to_dict, User.init.
  cbn [User.created_at User.updated_at User.last_login User.id].
  rewrite Hx, Hxu, Hxl. split; reflexivity.
Qed.

Lemma rows_to_dicts_shape (now : datetime) (rows : list row) :
  forall ds, user_service.rows_to_dicts now rows = Returns ds ->
    List.length ds = List.length rows /\
    Forall (fun d => map fst d = user_keys) ds.
Proof.
  induction rows as [|r rows IH]; simpl; intros ds H.
  - injection H as <-. split; [reflexivity|constructor].
  - apply obind_returns in H as (u & _ & H).
    apply obind_returns in H as (d & Hd & H).
    apply obind_returns in H as (rest & Hr & H).
    injection H as <-. destruct (IH rest Hr) as [Hlen Hall].
    split; [simpl; congruence|].
    constructor; [exact (user_to_dict_keys u d Hd)|exact Hall].
Qed.

Lemma rows_to_dicts_total (now : datetime) (rows : list row) :
  forallb user_row_ok rows = true ->
  exists ds, user_service.rows_to_dicts now rows = Returns ds /\
             map (fun d => dict_get d "id") ds
             = map (fun r => Some (py_of_sql (nth 0 r SNull))) rows.
Proof.
  induction rows as [|r rows IH]; simpl; intros H.
  - exists []. split; reflexivity.
  - apply andb_true_iff in H as [Hr Hrest].
    destruct (user_row_readable now r Hr) as (u & d & Hu & Hd & Hid).
    destruct (IH Hrest) as (ds & Hds & Hids).
    exists (d :: ds). rewrite Hu. cbn [obind]. rewrite Hd. cbn [obind].
    rewrite Hds. cbn [obind]. split; [reflexivity|]. simpl. now rewrite Hid, Hids.
Qed.

(** X21. [get_users] lists every stored user, active or not, in the order
    of the table and without touching the database: when every row has
    readable timestamps it returns one dictionary per row, carrying the
    row's id; and whenever it returns, each dictionary has exactly the nine
    keys of the external representation, so no password hash and no API
    key.  The route wraps that list. *)
Theorem get_users_lists_every_row :
  forall (now : datetime) (db : database),
    (forallb user_row_ok (t_rows (users db)) = true ->
     exists ds,
       user_service.get_users now db = (Returns ds, db) /\
       users_routes.get_users now db = (Jsonify ds, db) /\
       map (fun d => dict_get d "id") ds
       = map (fun r => Some (py_of_sql (nth 0 r SNull))) (t_rows (users db))) /\
    (forall ds db',
       user_service.get_users now db = (Returns ds, db') ->
       db' = db /\
       List.length ds = List.length (t_rows (users db)) /\
       Forall (fun d => map fst d = user_keys) ds).
Proof.
  intros now db. split.
  - intros H. destruct (rows_to_dicts_total now _ H) as (ds & Hds & Hids).
    assert (E : user_service.get_users now db = (Returns ds, db)).
    { unfold user_service.get_users, bind. rewrite execute_all_users.
      unfold lift. now rewrite Hds. }
    exists ds. split; [exact E|]. split; [|exact Hids].
    unfold users_routes.get_users, dispatch. now rewrite E.
  - intros ds db'. unfold user_service.get_users, bind.
    rewrite execute_all_users. unfold lift.
    destruct (user_service.rows_to_dicts now (t_rows (users db))) as [l|e] eqn:E;
      [|discriminate].
    intros H. injection H as -> ->. split; [reflexivity|].
    exact (rows_to_dicts_shape now _ _ E).
Qed.

Lemma get_users_lists_every_row_witness :
  exists ds,
    user_service.get_users example_now example_db = (Returns ds, example_db) /\
    users_routes.get_users example_now example_db = (Jsonify ds, example_db) /\
    map (fun d => dict_get d "id") ds
    = [Some (PyInt 1); Some (PyInt 2); Some (PyInt 3)].
Proof.
  apply (get_users_lists_every_row example_now example_db).
  vm_compute. reflexivity.
Defined.
